(** * bot_trade: a shallow embedding of the decision-execution core

    The development follows the Python sources of the trading engine:
    the risk engine, the snapshot entity and its store, the trade
    aggregate, the MFE/MAE and reward calculators, the model scorer, the
    rule, risk-aware and hybrid policies, the snapshot builder, the
    universe selector's greedy selection, the use cases that open and
    resolve trades, the risk guard and the decision step of the runtime
    loop.

    Conventions of the embedding.
    - A Python [float] is read as an exact rational ([Q]); comparisons
      are the rational ones and results are stated up to [Qeq].
    - A Python [int] is a [Z].
    - A call that may raise returns a [result]: [Ok v] or [Raise e].
    - Objects mutated in place are passed and returned explicitly;
      trade aggregates that a repository may share live in a heap and
      are passed by reference. *)

From Stdlib Require Import ZArith QArith Qround Qminmax Qabs Lqa Lia.
From Stdlib Require Import List String Ascii DecimalString DecimalPos.
From stdpp Require Import gmap strings.

Local Open Scope Z_scope.
Local Open Scope Q_scope.
Local Open Scope string_scope.

(** ** Python basics *)

Module Py.

(** Exceptions that the modelled code raises or lets through. *)
Inductive exn : Type :=
| ZeroDivisionError
| TypeError
| ValueError
| IndexError
| AttributeError
| RuntimeError (msg : string)
| SnapshotValidationError (msg : string)
| TradeDecisionError (msg : string)
| TradeAggregateError (msg : string)
| ModelError.

Inductive result (A : Type) : Type :=
| Ok (a : A)
| Raise (e : exn).

Arguments Ok {A} a.
Arguments Raise {A} e.

Definition bind {A B : Type} (r : result A) (k : A -> result B) : result B :=
  match r with
  | Ok a => k a
  | Raise e => Raise e
  end.

Definition is_ok {A : Type} (r : result A) : bool :=
  match r with Ok _ => true | Raise _ => false end.

(** [x < y] on floats. *)
Definition Qltb (x y : Q) : bool := (Qnum x * QDen y <? Qnum y * QDen x)%Z.

(** [x <= y] on floats. *)
Definition Qleb (x y : Q) : bool := (Qnum x * QDen y <=? Qnum y * QDen x)%Z.

(** [a / b] on floats: raises [ZeroDivisionError] when [b] is zero. *)
Definition truediv (a b : Q) : result Q :=
  if Qeq_bool b 0 then Raise ZeroDivisionError else Ok (a / b).

(** [max(a, b)]: the first argument unless the second is larger. *)
Definition max2 (a b : Q) : Q := if Qltb a b then b else a.

(** [min(a, b)]: the first argument unless the second is smaller. *)
Definition min2 (a b : Q) : Q := if Qltb b a then b else a.

(** [abs(x)]. *)
Definition fabs (x : Q) : Q := if Qltb x 0 then - x else x.

(** [str.lower()] and [str.upper()] on ASCII letters. *)
Definition lower_ascii (c : ascii) : ascii :=
  let n := nat_of_ascii c in
  if ((65 <=? n)%nat && (n <=? 90)%nat)%bool then ascii_of_nat (n + 32) else c.

Definition upper_ascii (c : ascii) : ascii :=
  let n := nat_of_ascii c in
  if ((97 <=? n)%nat && (n <=? 122)%nat)%bool then ascii_of_nat (n - 32) else c.

Fixpoint lower (s : string) : string :=
  match s with
  | EmptyString => EmptyString
  | String c r => String (lower_ascii c) (lower r)
  end.

Fixpoint upper (s : string) : string :=
  match s with
  | EmptyString => EmptyString
  | String c r => String (upper_ascii c) (upper r)
  end.

End Py.

Import Py.

Declare Scope py_scope.
Delimit Scope py_scope with py.
Notation "'let*' x ':=' e 'in' k" := (bind e (fun x => k))
  (at level 10, x name, e at level 100, k at level 200) : py_scope.
Local Open Scope py_scope.

(** ** trade_ai/domain/entities/trade_decision.py *)

Module Decision.

Record TradeDecision : Type := mkTradeDecision {
  action_type : Z;              (* 0 = SHORT, 1 = LONG *)
  direction : string;
  entry_price : Q;
  sl_price : Q;
  tp_price : Q;
  rr : Q;
  risk_unit : Q;
  confidence : option Q;
  decision_time_utc : Z
}.

(** [math.isclose(a, b, rel_tol, abs_tol)] *)
Definition isclose (a b rel_tol abs_tol : Q) : bool :=
  Qleb (fabs (a - b)) (max2 (rel_tol * max2 (fabs a) (fabs b)) abs_tol).

(** [__post_init__]: the checks run by every construction. *)
Definition post_init (d : TradeDecision) : result TradeDecision :=
  if negb ((action_type d =? 0)%Z || (action_type d =? 1)%Z) then
    Raise (TradeDecisionError "action_type must be 0 or 1")
  else
    let expected := if (action_type d =? 1)%Z then "LONG" else "SHORT" in
    if negb (String.eqb (upper (direction d)) expected) then
      Raise (TradeDecisionError "direction must match action_type")
    else if negb (Qltb 0 (risk_unit d)) then
      Raise (TradeDecisionError "risk_unit must be > 0")
    else
      let calc := fabs (entry_price d - sl_price d) in
      if negb (isclose calc (risk_unit d) (1 # 1000000000) (1 # 1000000000000)) then
        Raise (TradeDecisionError "risk_unit must equal abs(entry_price - sl_price)")
      else if match confidence d with
              | Some c => negb (Qleb 0 c && Qleb c 1)
              | None => false
              end then
        Raise (TradeDecisionError "confidence must be between 0 and 1")
      else if Qltb (rr d) 0 then
        Raise (TradeDecisionError "rr must be non-negative")
      else Ok d.

End Decision.

(** ** trade_ai/domain/services/risk_engine_v1.py *)

Module RiskEngineV1.

Import Decision.

Definition _floor_to_step (x : Q) (step : option Q) : Q :=
  match step with
  | None => x
  | Some s => if Qleb s 0 then x else inject_Z (Qfloor (x / s)) * s
  end.

Definition _ceil_to_step (x : Q) (step : option Q) : Q :=
  match step with
  | None => x
  | Some s => if Qleb s 0 then x else inject_Z (Qceiling (x / s)) * s
  end.

Record AccountState : Type := mkAccountState {
  equity_usdt : Q;
  free_usdt : Q
}.

Record MarketConstraints : Type := mkMarketConstraints {
  min_notional_usdt : Q;        (* default 5.0 *)
  min_qty : option Q;
  qty_step : option Q
}.

Record RiskConfig : Type := mkRiskConfig {
  risk_per_trade_pct : Q;
  risk_per_trade_usdt : option Q;
  default_leverage : Z;
  max_leverage : Z;
  margin_utilization : Q;
  max_notional_usdt : option Q;
  max_exposure_pct_per_symbol : option Q;
  min_notional_policy : string;
  max_risk_multiplier_on_override : Q;
  max_risk_override_usdt : option Q;
  min_confidence : Q
}.

(** [RiskConfig()] with every field at its default. *)
Definition default_RiskConfig : RiskConfig := {|
  risk_per_trade_pct := 25 # 100;
  risk_per_trade_usdt := None;
  default_leverage := 3;
  max_leverage := 10;
  margin_utilization := 30 # 100;
  max_notional_usdt := None;
  max_exposure_pct_per_symbol := None;
  min_notional_policy := "skip";
  max_risk_multiplier_on_override := 2;
  max_risk_override_usdt := None;
  min_confidence := 55 # 100
|}.

(** The [reason] strings of a plan; the two formatted ones keep the
    number that the f-string prints. *)
Inductive reason_t : Type :=
| r_ok
| r_confidence_lt (c : Q)
| r_account_balance_invalid
| r_risk_budget_invalid
| r_stop_distance_invalid
| r_qty_invalid
| r_margin_limit_invalid
| r_margin_too_high
| r_qty_too_small_after_margin
| r_notional_lt (m : Q)
| r_min_notional_override_risk_too_high
| r_min_notional_override_cap_exceeded
| r_min_notional_override_margin_too_high.

Record RiskPlan : Type := mkRiskPlan {
  ok : bool;
  reason : reason_t;
  qty : option Q;
  notional_usdt : option Q;
  leverage : option Z;
  risk_usdt : option Q;
  risk_pct : option Q
}.

(** [RiskPlan(ok=False, reason=r)] *)
Definition reject (r : reason_t) : RiskPlan :=
  mkRiskPlan false r None None None None None.

(** The [min_qty] bump that follows every change of [qty]
    (lines 134-137, 152-154, 182-184 and 201-203). *)
Definition bump_min_qty (constraints : MarketConstraints) (q : Q) : Q :=
  match min_qty constraints with
  | None => q
  | Some m => _ceil_to_step (max2 m q) (qty_step constraints)
  end.

(** Lines 143-145: the market minimum notional, 5.0 when it is not positive. *)
Definition effective_min_notional (constraints : MarketConstraints) : Q :=
  if Qltb 0 (min_notional_usdt constraints) then min_notional_usdt constraints else 5.

Definition is_pos (o : option Q) : bool :=
  match o with Some v => Qltb 0 v | None => false end.

(** Lines 194-224: the plan's quantity is below the minimum notional. *)
Definition min_notional_override (cfg : RiskConfig) (constraints : MarketConstraints)
    (entry stop_dist risk_budget min_notional margin_limit : Q) (lev : Z)
  : result (RiskPlan + (Q * Q * Z)) :=
  if negb (String.eqb (lower (if String.eqb (min_notional_policy cfg) "" then "skip"
                              else min_notional_policy cfg)) "override_with_cap") then
    Ok (inl (reject (r_notional_lt min_notional)))
  else
    let* q0 := truediv min_notional entry in
    let qty2 := bump_min_qty constraints (_ceil_to_step q0 (qty_step constraints)) in
    let notional2 := qty2 * entry in
    let risk2 := qty2 * stop_dist in
    if Qltb (risk_budget * max_risk_multiplier_on_override cfg) risk2 then
      Ok (inl (reject r_min_notional_override_risk_too_high))
    else if match max_risk_override_usdt cfg with
            | Some cap => Qltb cap risk2
            | None => false
            end then
      Ok (inl (reject r_min_notional_override_cap_exceeded))
    else
      let margin_req2 := notional2 / inject_Z lev in
      if Qltb margin_limit margin_req2 then
        let needed_lev2 := Qceiling (notional2 / margin_limit) in
        let lev2 := Z.min (max_leverage cfg) (Z.max lev needed_lev2) in
        let* margin_req2' := truediv notional2 (inject_Z lev2) in
        if Qltb margin_limit margin_req2' then
          Ok (inl (reject r_min_notional_override_margin_too_high))
        else Ok (inr (qty2, notional2, lev2))
      else Ok (inr (qty2, notional2, lev)).

Definition build_plan (cfg : RiskConfig) (account : AccountState)
    (constraints : MarketConstraints) (decision : TradeDecision) : result RiskPlan :=
  let conf := match confidence decision with Some c => c | None => 1 end in
  if Qltb conf (min_confidence cfg) then Ok (reject (r_confidence_lt (min_confidence cfg)))
  else
  let equity := equity_usdt account in
  let free := free_usdt account in
  if negb (Qltb 0 equity && Qltb 0 free) then Ok (reject r_account_balance_invalid)
  else
  let risk_budget :=
    if is_pos (risk_per_trade_usdt cfg)
    then match risk_per_trade_usdt cfg with Some r => r | None => 0 end
    else equity * (risk_per_trade_pct cfg / 100) in
  if negb (Qltb 0 risk_budget) then Ok (reject r_risk_budget_invalid)
  else
  let entry := entry_price decision in
  let sl := sl_price decision in
  let stop_dist := fabs (entry - sl) in
  if negb (Qltb 0 stop_dist) then Ok (reject r_stop_distance_invalid)
  else
  let raw_qty := risk_budget / stop_dist in
  let qty0 := bump_min_qty constraints (_floor_to_step raw_qty (qty_step constraints)) in
  if negb (Qltb 0 qty0) then Ok (reject r_qty_invalid)
  else
  let min_notional := effective_min_notional constraints in
  let* qty1 := (if is_pos (max_notional_usdt cfg) then
             match max_notional_usdt cfg with
             | Some max_notional =>
                 let* cap_qty := truediv max_notional entry in
                 Ok (bump_min_qty constraints
                       (min2 qty0 (_floor_to_step cap_qty (qty_step constraints))))
             | None => Ok qty0
             end
           else Ok qty0) in
  let notional1 := qty1 * entry in
  let lev0 := Z.max 1 (Z.min (max_leverage cfg) (default_leverage cfg)) in
  let margin_limit0 := max2 0 (margin_utilization cfg * free) in
  let margin_limit :=
    if is_pos (max_exposure_pct_per_symbol cfg) then
      match max_exposure_pct_per_symbol cfg with
      | Some pct => min2 margin_limit0 (equity * (pct / 100))
      | None => margin_limit0
      end
    else margin_limit0 in
  if Qleb margin_limit 0 then Ok (reject r_margin_limit_invalid)
  else
  let lev1 :=
    if Qltb margin_limit (notional1 / inject_Z lev0) then
      let needed_lev := Qceiling (notional1 / margin_limit) in
      Z.max lev0 (Z.min (max_leverage cfg) (Z.max 1 needed_lev))
    else lev0 in
  let* qty2 := (if Qltb margin_limit (notional1 / inject_Z lev1) then
             let* qty_max := truediv (margin_limit * inject_Z lev1) entry in
             Ok (bump_min_qty constraints
                   (min2 qty1 (_floor_to_step qty_max (qty_step constraints))))
           else Ok qty1) in
  let notional2 := qty2 * entry in
  let margin_req := notional2 / inject_Z lev1 in
  if Qltb margin_limit margin_req then Ok (reject r_margin_too_high)
  else if negb (Qltb 0 qty2) then Ok (reject r_qty_too_small_after_margin)
  else
  let* final := (if Qltb notional2 min_notional then
              min_notional_override cfg constraints entry stop_dist risk_budget
                min_notional margin_limit lev1
            else Ok (inr (qty2, notional2, lev1))) in
  match final with
  | inl rejected => Ok rejected
  | inr (qty, notional, lev) =>
      let risk := qty * stop_dist in
      let rpct := if Qltb 0 equity then Some ((risk / equity) * 100) else None in
      Ok (mkRiskPlan true r_ok (Some qty) (Some notional) (Some lev) (Some risk) rpct)
  end.




(** A long decision entered at 30000 with its stop at 29970. *)
Definition decision_30000 (conf : option Q) (tp rr_ : Q) (t : Z) : TradeDecision :=
  mkTradeDecision 1 "LONG" 30000 29970 tp rr_ 30 conf t.


Definition decision_100 : TradeDecision :=
  mkTradeDecision 1 "LONG" 100 99 102 2 1 None 0.

End RiskEngineV1.

(** ** Python values: JSON documents and dicts *)

Module PyVal.

#[warnings="-register-all"] Inductive pyval : Type :=
| PNone
| PBool (b : bool)
| PInt (z : Z)
| PFloat (q : Q)
| PStr (s : string)
| PList (l : list pyval)
| PDict (items : list (string * pyval)).

(** [bool(v)] *)
Definition truthy (v : pyval) : bool :=
  match v with
  | PNone => false
  | PBool b => b
  | PInt z => negb (z =? 0)%Z
  | PFloat q => negb (Qeq_bool q 0)
  | PStr s => negb (String.eqb s "")
  | PList l => match l with nil => false | _ => true end
  | PDict items => match items with nil => false | _ => true end
  end.

(** [str(n)] for an int: its decimal digits. *)
Definition str_of_Z (z : Z) : string := DecimalString.NilZero.string_of_int (Z.to_int z).

Fixpoint join (sep : string) (l : list string) : string :=
  match l with
  | nil => ""
  | x :: nil => x
  | x :: r => x ++ sep ++ join sep r
  end.

(** [repr(v)]. Quotes and backslashes inside a string are not escaped,
    and a float is printed as the fraction it stands for: neither
    matters to the code below, which only prints identifiers. *)
Fixpoint py_repr (v : pyval) : string :=
  match v with
  | PNone => "None"
  | PBool true => "True"
  | PBool false => "False"
  | PInt z => str_of_Z z
  | PFloat q => str_of_Z (Qnum q) ++ "/" ++ str_of_Z (Zpos (Qden q))
  | PStr s => "'" ++ s ++ "'"
  | PList l => "[" ++ join ", " (map py_repr l) ++ "]"
  | PDict items =>
      "{" ++ join ", " (map (fun kv => "'" ++ fst kv ++ "': " ++ py_repr (snd kv)) items) ++ "}"
  end.

(** [str(v)] *)
Definition py_str (v : pyval) : string :=
  match v with
  | PStr s => s
  | _ => py_repr v
  end.

(** [d.get(k)] on the items of a dict; [None] when the key is absent. *)
Fixpoint dict_lookup (items : list (string * pyval)) (k : string) : option pyval :=
  match items with
  | nil => None
  | (k', v) :: r => if String.eqb k' k then Some v else dict_lookup r k
  end.

Definition dict_get (items : list (string * pyval)) (k : string) : pyval :=
  match dict_lookup items k with Some v => v | None => PNone end.

(** [d.get(k, default)] *)
Definition dict_get_default (items : list (string * pyval)) (k : string) (d : pyval) : pyval :=
  match dict_lookup items k with Some v => v | None => d end.

(** [v.get(k, default)] when [v] is a dict; what the code reads from
    nested blocks. A value without [get] raises. *)
Definition get_in (v : pyval) (k : string) (d : pyval) : result pyval :=
  match v with
  | PDict items => Ok (dict_get_default items k d)
  | _ => Raise AttributeError
  end.

Definition keys (items : list (string * pyval)) : list string := map fst items.

(** The number a value stands for in a comparison: ints, bools and
    floats. Other types are reported as [TypeError] (Python would still
    order two strings or two lists). *)
Definition as_number (v : pyval) : result Q :=
  match v with
  | PInt z => Ok (inject_Z z)
  | PBool b => Ok (if b then 1 else 0)
  | PFloat q => Ok q
  | _ => Raise TypeError
  end.

(** [int(v)] on a number: truncation toward zero. *)
Definition py_int (v : pyval) : result Z :=
  match v with
  | PInt z => Ok z
  | PBool b => Ok (if b then 1 else 0)%Z
  | PFloat q => Ok (Z.quot (Qnum q) (Zpos (Qden q)))
  | PStr _ => Raise ValueError
  | _ => Raise TypeError
  end.

(** [float(v)]: a number, or [TypeError] ([ValueError] for text). *)
Definition py_float (v : pyval) : result Q :=
  match v with
  | PInt z => Ok (inject_Z z)
  | PBool b => Ok (if b then 1 else 0)
  | PFloat q => Ok q
  | PStr _ => Raise ValueError
  | _ => Raise TypeError
  end.

Definition is_str (v : pyval) (s : string) : bool :=
  match v with PStr s' => String.eqb s' s | _ => false end.

(** Hexadecimal digits, lower case. *)
Definition hex_digit (n : Z) : ascii :=
  if (n <? 10)%Z then ascii_of_nat (Z.to_nat (48 + n)) else ascii_of_nat (Z.to_nat (87 + n)).

(** The [width] low hex digits of [z], most significant first. *)
Fixpoint hex_fixed (width : nat) (z : Z) : string :=
  match width with
  | O => ""
  | S w => hex_fixed w (Z.shiftr z 4) ++ String (hex_digit (Z.land z 15)) ""
  end.

(** [str(uuid.UUID(int=u))]: 8-4-4-4-12 hex digits of a 128-bit number. *)
Definition uuid_str (u : Z) : string :=
  hex_fixed 8 (Z.shiftr u 96) ++ "-" ++ hex_fixed 4 (Z.shiftr u 80) ++ "-" ++
  hex_fixed 4 (Z.shiftr u 64) ++ "-" ++ hex_fixed 4 (Z.shiftr u 48) ++ "-" ++
  hex_fixed 12 u.

(** [sub in s] *)
Fixpoint contains (sub s : string) : bool :=
  if String.prefix sub s then true
  else match s with
       | EmptyString => false
       | String _ r => contains sub r
       end.

End PyVal.

Import PyVal.

(** ** trade_ai/domain/entities/snapshot.py *)

Module Snapshot.

Record SnapshotV3 : Type := mkSnapshotV3 {
  schema_version : string;
  snapshot_id : string;
  snapshot_time_utc : Z;
  symbol : string;
  observer_time_utc : Z;
  ltf : pyval;
  htf : pyval;
  context : pyval
}.

Definition _forbidden_keys : list string :=
  "decision" :: "execution_state" :: "reward_state" :: "risk_unit" ::
  "pnl" :: "pnl_raw" :: "pnl_r" :: "exit_price" :: "exit_time_utc" ::
  "tp_price" :: "sl_price" :: "rr" :: nil.

Definition is_forbidden (k : string) : bool :=
  existsb (String.eqb k) _forbidden_keys.

(** [cls._forbidden_keys().intersection(set(data.keys()))] is non-empty. *)
Definition keys_overlap (items : list (string * pyval)) : bool :=
  existsb is_forbidden (keys items).

(** [SnapshotV3.from_dict(data)]; [u] is the number drawn by
    [uuid.uuid4()] should the dict carry no usable id. *)
Definition from_dict (data : pyval) (u : Z) : result SnapshotV3 :=
  match data with
  | PDict items =>
      if keys_overlap items then
        Raise (SnapshotValidationError "Forbidden fields in snapshot")
      else if negb (is_str (dict_get items "schema_version") "v3") then
        Raise (SnapshotValidationError "schema_version must be 'v3'")
      else
        let sid := if truthy (dict_get items "snapshot_id")
                   then dict_get items "snapshot_id" else PStr (uuid_str u) in
        let st := dict_get items "snapshot_time_utc" in
        let ot := dict_get items "observer_time_utc" in
        match st, ot with
        | PNone, _ | _, PNone =>
            Raise (SnapshotValidationError "snapshot_time_utc and observer_time_utc required")
        | _, _ =>
            let* a := as_number st in
            let* b := as_number ot in
            if Qltb b a then
              Raise (SnapshotValidationError "snapshot_time_utc must be <= observer_time_utc")
            else
              match dict_get items "ltf" with
              | PDict _ =>
                  let* sti := py_int st in
                  let* oti := py_int ot in
                  Ok (mkSnapshotV3 "v3" (py_str sid) sti
                        (py_str (dict_get_default items "symbol" (PStr ""))) oti
                        (dict_get items "ltf")
                        (dict_get_default items "htf" (PDict nil))
                        (dict_get_default items "context" (PDict nil)))
              | _ => Raise (SnapshotValidationError "ltf must be dict")
              end
        end
  | _ => Raise (SnapshotValidationError "Snapshot must be dict")
  end.

Definition to_dict (s : SnapshotV3) : pyval :=
  PDict (("schema_version", PStr (schema_version s)) ::
         ("snapshot_id", PStr (snapshot_id s)) ::
         ("snapshot_time_utc", PInt (snapshot_time_utc s)) ::
         ("symbol", PStr (symbol s)) ::
         ("observer_time_utc", PInt (observer_time_utc s)) ::
         ("ltf", ltf s) :: ("htf", htf s) :: ("context", context s) :: nil).

(** The forbidden keys as the specification lists them:
    [decision, execution_state, reward_state, risk_unit, pnl*, exit_*,
    tp_price, sl_price, rr], the two starred entries read as prefixes. *)
Definition spec_forbidden (k : string) : bool :=
  existsb (String.eqb k)
    ("decision" :: "execution_state" :: "reward_state" :: "risk_unit" ::
     "tp_price" :: "sl_price" :: "rr" :: nil) ||
  String.prefix "pnl" k || String.prefix "exit_" k.

(** The specification read for every dict with such a key. *)
Definition forbidden_keys_as_specified : Prop :=
  forall (items : list (string * pyval)) (k : string) (u : Z),
    spec_forbidden k = true -> In k (keys items) ->
    exists msg, from_dict (PDict items) u = Raise (SnapshotValidationError msg).

(** A well-formed snapshot dict that also carries the realised PnL in
    USDT, under the name the reward state gives it. *)
Definition raw_with_pnl_usdt : pyval :=
  PDict (("schema_version", PStr "v3") ::
         ("snapshot_id", PStr "0b88e89760b7f3b015e15a0f412649351820db58") ::
         ("snapshot_time_utc", PInt 1700000100) ::
         ("observer_time_utc", PInt 1700000101) ::
         ("symbol", PStr "BTCUSDT") ::
         ("ltf", PDict (("tf", PStr "5m") :: nil)) ::
         ("pnl_usdt", PFloat (3 # 2)) :: nil).

(** What [from_dict] establishes about the snapshot it returns. *)
Definition wf_snapshot (s : SnapshotV3) : Prop :=
  schema_version s = "v3" /\ snapshot_id s <> "" /\
  (snapshot_time_utc s <= observer_time_utc s)%Z /\
  exists items, ltf s = PDict items.

End Snapshot.

(** ** trade_ai/application/ports/snapshot_repository.py,
       trade_ai/infrastructure/storage/snapshot_repo_fs_json.py *)

Module SnapshotRepo.

Import Snapshot.

(** [SnapshotRepositoryPort]: [save] and [get] over a repository state.
    [get] hydrates through [from_dict] and so takes the uuid draw too. *)
Class SnapshotRepositoryPort (R : Type) : Type := {
  save : R -> SnapshotV3 -> result unit * R;
  get : R -> string -> Z -> result (option SnapshotV3)
}.

(** The directory of [SnapshotRepoFSJson]: one JSON document per
    snapshot id, at [base / (id + ".json")]. [json.loads] gives back the
    document that [json.dumps] wrote, so the file content is held as
    the document itself. *)
Record SnapshotRepoFSJson : Type := mkRepo {
  files : gmap string pyval
}.

Definition fs_save (r : SnapshotRepoFSJson) (snapshot : SnapshotV3)
  : result unit * SnapshotRepoFSJson :=
  match files r !! snapshot_id snapshot with
  | Some _ => (Raise (RuntimeError "Snapshot immutable and exists"), r)
  | None => (Ok tt, mkRepo (<[snapshot_id snapshot := to_dict snapshot]> (files r)))
  end.

Definition fs_get (r : SnapshotRepoFSJson) (sid : string) (u : Z)
  : result (option SnapshotV3) :=
  match files r !! sid with
  | None => Ok None
  | Some data => let* s := from_dict data u in Ok (Some s)
  end.

#[export] Instance SnapshotRepoFSJson_port : SnapshotRepositoryPort SnapshotRepoFSJson := {
  save := fs_save;
  get := fs_get
}.

End SnapshotRepo.

(** ** trade_ai/application/usecases/observer_usecase.py *)

Module Observer.

Import Snapshot SnapshotRepo.

(** [str(e)] of a raised exception. *)
Definition exn_msg (e : exn) : string :=
  match e with
  | RuntimeError m | SnapshotValidationError m
  | TradeDecisionError m | TradeAggregateError m => m
  | ZeroDivisionError => "division by zero"
  | TypeError | ValueError | IndexError | AttributeError | ModelError => ""
  end.

(** [ObserverUsecase.create_snapshot(raw_snapshot)] over the repository
    state [r]; [u] and [u'] are the uuid draws of the two [from_dict]
    calls that may happen. *)
Definition create_snapshot {R : Type} `{SnapshotRepositoryPort R}
    (r : R) (raw_snapshot : pyval) (u u' : Z) : result SnapshotV3 * R :=
  match from_dict raw_snapshot u with
  | Raise e => (Raise e, r)
  | Ok snap =>
      match save r snap with
      | (Ok _, r') => (Ok snap, r')
      | (Raise e, r') =>
          let msg := exn_msg e in
          if contains "immutable" msg && contains "exists" msg then
            match get r' (snapshot_id snap) u' with
            | Raise e' => (Raise e', r')
            | Ok (Some existing) => (Ok existing, r')
            | Ok None => (Raise e, r')
            end
          else (Raise e, r')
      end
  end.

(** Two builds of one bar: same id, the second observed five seconds
    later with another close. *)
Definition raw_bar (observer_time : Z) (close : Q) : pyval :=
  PDict (("schema_version", PStr "v3") ::
         ("snapshot_id", PStr "0b88e89760b7f3b015e15a0f412649351820db58") ::
         ("snapshot_time_utc", PInt 1700000100) ::
         ("observer_time_utc", PInt observer_time) ::
         ("symbol", PStr "BTCUSDT") ::
         ("ltf", PDict (("tf", PStr "5m") ::
                        ("price", PDict (("close", PFloat close) :: nil)) :: nil)) ::
         ("htf", PDict nil) :: ("context", PDict nil) :: nil).

Definition snapshot_bar (observer_time : Z) (close : Q) : SnapshotV3 :=
  mkSnapshotV3 "v3" "0b88e89760b7f3b015e15a0f412649351820db58" 1700000100 "BTCUSDT"
    observer_time
    (PDict (("tf", PStr "5m") :: ("price", PDict (("close", PFloat close) :: nil)) :: nil))
    (PDict nil) (PDict nil).

Definition raw_bar_first : pyval := raw_bar 1700000101 30000.
Definition snapshot_bar_first : SnapshotV3 := snapshot_bar 1700000101 30000.

End Observer.

(** ** trade_ai/domain/entities/execution_state.py, reward_state.py *)

Module Execution.

Record ExecutionState : Type := mkExecutionState {
  status : string;              (* "OPEN" or "CLOSED" *)
  entry_time_utc : option Z;
  entry_fill_price : option Q;
  exit_time_utc : option Z;
  exit_fill_price : option Q;
  exit_type : option string;
  fees_total : Q;
  funding_paid : Q;
  exchange : option string;
  account_type : option string;
  margin_mode : option string;
  position_mode : option string;
  leverage : option Z;
  qty : option Q;
  notional : option Q;
  entry_order_id : option string;
  tp_order_id : option string;
  sl_order_id : option string;
  client_order_id : option string
}.

(** [ExecutionState(status=s)] with every other field at its default. *)
Definition new_ExecutionState (s : string) : ExecutionState :=
  mkExecutionState s None None None None None 0 0
    None None None None None None None None None None None.

End Execution.

Module RewardEntity.

Record RewardState : Type := mkRewardState {
  pnl_raw : Q;
  pnl_r : Q;
  mfe : Q;
  mae : Q;
  holding_seconds : Z;
  reward_version : string;
  pnl_usdt : option Q;
  risk_usdt : option Q;
  qty : option Q;
  fees_usdt : option Q;
  funding_usdt : option Q
}.

End RewardEntity.

(** ** trade_ai/domain/entities/trade_aggregate.py *)

Module Aggregate.

Import Decision Execution.
Import RewardEntity(RewardState).

Record TradeAggregate : Type := mkTradeAggregate {
  schema_version : string;
  trade_id : string;
  symbol : string;
  entry_snapshot_id : string;
  exit_snapshot_id : option string;
  entry_snapshot_time_utc : Z;
  exit_snapshot_time_utc : option Z;
  decision : TradeDecision;
  execution_state : ExecutionState;
  reward_state : option RewardState;
  policy_info : pyval
}.

Definition create_open (trade_id symbol entry_snapshot_id : string)
    (entry_snapshot_time_utc : Z) (decision : TradeDecision) (policy_info : pyval)
  : TradeAggregate :=
  mkTradeAggregate "v3" trade_id symbol entry_snapshot_id None
    entry_snapshot_time_utc None decision (new_ExecutionState "OPEN") None policy_info.

(** The aggregate with its execution state replaced (the code mutates
    [self.execution_state] in place). *)
Definition with_execution (self : TradeAggregate) (es : ExecutionState) : TradeAggregate :=
  mkTradeAggregate (schema_version self) (trade_id self) (symbol self)
    (entry_snapshot_id self) (exit_snapshot_id self) (entry_snapshot_time_utc self)
    (exit_snapshot_time_utc self) (decision self) es (reward_state self)
    (policy_info self).

Definition with_reward (self : TradeAggregate) (r : option RewardState) : TradeAggregate :=
  mkTradeAggregate (schema_version self) (trade_id self) (symbol self)
    (entry_snapshot_id self) (exit_snapshot_id self) (entry_snapshot_time_utc self)
    (exit_snapshot_time_utc self) (decision self) (execution_state self) r
    (policy_info self).

(** [if v is not None: setattr(target, attr, v)] *)
Definition if_given {A : Type} (v old : option A) : option A :=
  match v with Some _ => v | None => old end.

(** [attach_execution(execution)]: the result and the aggregate after
    the call. *)
Definition attach_execution (self : TradeAggregate) (execution : ExecutionState)
  : result unit * TradeAggregate :=
  let es := execution_state self in
  if String.eqb (status es) "CLOSED" then
    (Raise (TradeAggregateError "execution already closed"), self)
  else
    let merged (st : string) (xt : option Z) (xp : option Q) (xty : option string) :=
      mkExecutionState st
        (if_given (entry_time_utc execution) (entry_time_utc es))
        (if_given (entry_fill_price execution) (entry_fill_price es))
        xt xp xty
        (fees_total execution) (funding_paid execution)
        (if_given (exchange execution) (exchange es))
        (if_given (account_type execution) (account_type es))
        (if_given (margin_mode execution) (margin_mode es))
        (if_given (position_mode execution) (position_mode es))
        (if_given (leverage execution) (leverage es))
        (if_given (qty execution) (qty es))
        (if_given (notional execution) (notional es))
        (if_given (entry_order_id execution) (entry_order_id es))
        (if_given (tp_order_id execution) (tp_order_id es))
        (if_given (sl_order_id execution) (sl_order_id es))
        (if_given (client_order_id execution) (client_order_id es)) in
    if String.eqb (status execution) "OPEN" then
      (Ok tt, with_execution self
                (merged (status es) (exit_time_utc es) (exit_fill_price es) (exit_type es)))
    else
      (Ok tt, with_execution self
                (merged "CLOSED" (exit_time_utc execution) (exit_fill_price execution)
                   (exit_type execution))).

Definition attach_reward (self : TradeAggregate) (reward : RewardState)
  : result unit * TradeAggregate :=
  if negb (String.eqb (status (execution_state self)) "CLOSED") then
    (Raise (TradeAggregateError "cannot attach reward unless trade is CLOSED"), self)
  else (Ok tt, with_reward self (Some reward)).

(** The two mutators as commands, and an aggregate driven through a
    list of them; a caller that catches a raised error goes on with the
    aggregate as the failed call left it. *)
Inductive command : Type :=
| AttachExecution (execution : ExecutionState)
| AttachReward (reward : RewardState).

Definition step (self : TradeAggregate) (c : command) : result unit * TradeAggregate :=
  match c with
  | AttachExecution e => attach_execution self e
  | AttachReward r => attach_reward self r
  end.

Definition run (self : TradeAggregate) (cs : list command) : TradeAggregate :=
  fold_left (fun t c => snd (step t c)) cs self.

Definition is_closed (self : TradeAggregate) : Prop :=
  status (execution_state self) = "CLOSED".

(** A reward is present only on a closed trade. *)
Definition reward_only_when_closed (self : TradeAggregate) : Prop :=
  reward_state self = None \/ is_closed self.

(** A trade opened on a long decision, the execution that closes it at
    its take-profit, and the reward computed for it. *)
Definition trade_opened : TradeAggregate :=
  create_open "t-1" "BTCUSDT" "0b88e89760b7f3b015e15a0f412649351820db58" 1700000100
    (mkTradeDecision 1 "LONG" 100 99 102 2 1 (Some 1) 1700000100) (PDict nil).

Definition execution_closing : ExecutionState :=
  mkExecutionState "CLOSED" (Some 1700000101%Z) (Some 100) (Some 1700000401%Z) (Some 102)
    (Some "TP") (5 # 10000) 0
    None None None None None None None None None None None.

Definition trade_closed : TradeAggregate :=
  snd (attach_execution trade_opened execution_closing).

Definition reward_of_trade : RewardState :=
  RewardEntity.mkRewardState (19995 # 10000) (19995 # 10000) 2 1 300 "v1"
    None None None (Some (5 # 10000)) (Some 0).

End Aggregate.

(** ** trade_ai/domain/services/mfe_mae_calculator.py *)

Module MfeMae.

(** An OHLC bar as the calculator reads it: the [high] and [low]
    entries of the dict, either of which may be missing. *)
Record bar : Type := mkBar {
  high : option Q;
  low : option Q
}.

(** [b.get("high", entry_price)] and [b.get("low", entry_price)] *)
Definition bar_high (entry_price : Q) (b : bar) : Q :=
  match high b with Some h => h | None => entry_price end.

Definition bar_low (entry_price : Q) (b : bar) : Q :=
  match low b with Some l => l | None => entry_price end.

(** [max(xs)] and [min(xs)]: [ValueError] on an empty sequence. *)
Definition py_max (xs : list Q) : result Q :=
  match xs with
  | nil => Raise ValueError
  | x :: r => Ok (fold_left max2 r x)
  end.

Definition py_min (xs : list Q) : result Q :=
  match xs with
  | nil => Raise ValueError
  | x :: r => Ok (fold_left min2 r x)
  end.

Definition calculate_mfe_mae_from_ohlc (entry_price : Q) (direction : string)
    (ohlc_bars : list bar) : result (Q * Q) :=
  match ohlc_bars with
  | nil => Ok (0, 0)
  | _ =>
      let highs := map (bar_high entry_price) ohlc_bars in
      let lows := map (bar_low entry_price) ohlc_bars in
      if String.eqb (upper direction) "LONG" then
        let* mfe := py_max (map (fun h => h - entry_price) highs) in
        let* mae := py_min (map (fun l => l - entry_price) lows) in
        Ok (mfe, mae)
      else
        let* mfe := py_max (map (fun l => entry_price - l) lows) in
        let* mae := py_min (map (fun h => entry_price - h) highs) in
        Ok (mfe, - mae)
  end.

(** The excursions as the specification defines them. *)

(** [m] is the largest (smallest) value of [xs], up to [==]. *)
Definition is_max_of (m : Q) (xs : list Q) : Prop :=
  (exists x, In x xs /\ x == m) /\ forall x, In x xs -> x <= m.

Definition is_min_of (m : Q) (xs : list Q) : Prop :=
  (exists x, In x xs /\ x == m) /\ forall x, In x xs -> m <= x.

(** LONG: MFE = max(high - entry), MAE = |min(low - entry)|;
    SHORT: MFE = max(entry - low), MAE = |min(entry - high)|;
    both non-negative. *)
Definition spec_mfe_mae (entry_price : Q) (long : bool) (ohlc_bars : list bar)
    (mfe mae : Q) : Prop :=
  let highs := map (bar_high entry_price) ohlc_bars in
  let lows := map (bar_low entry_price) ohlc_bars in
  (if long
   then is_max_of mfe (map (fun h => h - entry_price) highs) /\
        exists m, is_min_of m (map (fun l => l - entry_price) lows) /\ mae == Qabs m
   else is_max_of mfe (map (fun l => entry_price - l) lows) /\
        exists m, is_min_of m (map (fun h => entry_price - h) highs) /\ mae == Qabs m) /\
  0 <= mfe /\ 0 <= mae.

(** The specification read for every entry price and non-empty window. *)
Definition mfe_mae_as_specified : Prop :=
  forall (entry_price : Q) (ohlc_bars : list bar),
    ohlc_bars <> nil ->
    (exists mfe mae,
       calculate_mfe_mae_from_ohlc entry_price "LONG" ohlc_bars = Ok (mfe, mae) /\
       spec_mfe_mae entry_price true ohlc_bars mfe mae) /\
    (exists mfe mae,
       calculate_mfe_mae_from_ohlc entry_price "SHORT" ohlc_bars = Ok (mfe, mae) /\
       spec_mfe_mae entry_price false ohlc_bars mfe mae).

End MfeMae.

(** ** trade_ai/domain/services/reward_calculator.py *)

Module Reward.

Import Decision Execution MfeMae.
Import RewardEntity(RewardState, mkRewardState).

(** [float(x)] of an optional field: [TypeError] on [None]. *)
Definition float_of {A : Type} (o : option A) : result A :=
  match o with Some v => Ok v | None => Raise TypeError end.

Definition calculate_reward (decision : TradeDecision) (execution : ExecutionState)
    (ohlc_bars : list bar) : result RewardState :=
  if negb (String.eqb (status execution) "CLOSED") then Raise ValueError
  else
    let* entry_price := float_of (entry_fill_price execution) in
    let* exit_price := float_of (exit_fill_price execution) in
    let fees := fees_total execution in
    let funding := funding_paid execution in
    let* exit_t := float_of (exit_time_utc execution) in
    let* entry_t := float_of (entry_time_utc execution) in
    let holding := (exit_t - entry_t)%Z in
    let dir_sign := if String.eqb (upper (direction decision)) "LONG" then 1 else - (1) in
    let price_delta := (exit_price - entry_price) * dir_sign in
    let sized := match qty execution with
                 | Some q => if Qltb 0 q then Some q else None
                 | None => None
                 end in
    let fees_unit := match sized with Some q => fees / q | None => fees end in
    let funding_unit := match sized with Some q => funding / q | None => funding end in
    let pnl_usdt_ :=
      match sized with Some q => Some (q * price_delta - fees - funding) | None => None end in
    let risk_usdt_ :=
      match sized with Some q => Some (q * risk_unit decision) | None => None end in
    let pnl_raw_ := price_delta - (fees_unit + funding_unit) in
    if Qleb (risk_unit decision) 0 then Raise ValueError
    else
      let pnl_r_ := pnl_raw_ / risk_unit decision in
      let* mm := calculate_mfe_mae_from_ohlc entry_price (direction decision) ohlc_bars in
      Ok (mkRewardState pnl_raw_ pnl_r_ (fst mm) (snd mm) holding "v1"
            pnl_usdt_ risk_usdt_ (qty execution) (Some fees) (Some funding)).

End Reward.

(** ** Text helpers used by the services below *)

Module Text.

Definition is_space (c : ascii) : bool :=
  let n := nat_of_ascii c in
  ((n =? 32) || ((9 <=? n) && (n <=? 13)))%nat.

Fixpoint lstrip (s : string) : string :=
  match s with
  | EmptyString => EmptyString
  | String c r => if is_space c then lstrip r else s
  end.

(** [rstrip]: drop a character when it is white and so is all that follows. *)
Fixpoint rstrip (s : string) : string :=
  match s with
  | EmptyString => EmptyString
  | String c r =>
      match rstrip r with
      | EmptyString => if is_space c then EmptyString else String c EmptyString
      | r' => String c r'
      end
  end.

(** [s.strip()] *)
Definition strip (s : string) : string := rstrip (lstrip s).

(** [s.replace("/", "")] *)
Fixpoint remove_slash (s : string) : string :=
  match s with
  | EmptyString => EmptyString
  | String c r => if Ascii.eqb c "/" then remove_slash r else String c (remove_slash r)
  end.

Fixpoint has_slash (s : string) : bool :=
  match s with
  | EmptyString => false
  | String c r => Ascii.eqb c "/" || has_slash r
  end.

(** The final component of a path. *)
Fixpoint basename (s : string) : string :=
  match s with
  | EmptyString => EmptyString
  | String c r =>
      if has_slash r then basename r
      else if Ascii.eqb c "/" then r else s
  end.

(** The part of [s] from its last dot on, if it has a dot. *)
Fixpoint from_last_dot (s : string) : option string :=
  match s with
  | EmptyString => None
  | String c r =>
      match from_last_dot r with
      | Some x => Some x
      | None => if Ascii.eqb c "." then Some s else None
      end
  end.

(** [Path(p).suffix]: the last dot-extension of the final component;
    empty when the only dot leads or ends the name. *)
Definition suffix (p : string) : string :=
  match basename p with
  | EmptyString => EmptyString
  | String _ r =>
      match from_last_dot r with
      | Some (String _ EmptyString) => EmptyString
      | Some x => x
      | None => EmptyString
      end
  end.

Definition mem (s : string) (l : list string) : bool := existsb (String.eqb s) l.

(** The last character and what precedes it. *)
Fixpoint split_last (s : string) : option (string * ascii) :=
  match s with
  | EmptyString => None
  | String c r =>
      match split_last r with
      | None => Some (EmptyString, c)
      | Some (p, l) => Some (String c p, l)
      end
  end.

Definition digit_of (c : ascii) : option Z :=
  let n := nat_of_ascii c in
  if ((48 <=? n) && (n <=? 57))%nat then Some (Z.of_nat (n - 48)) else None.

Fixpoint parse_digits (acc : Z) (s : string) : option Z :=
  match s with
  | EmptyString => Some acc
  | String c r =>
      match digit_of c with
      | Some d => parse_digits (10 * acc + d) r
      | None => None
      end
  end.

(** [int(s)] on decimal digits; [ValueError] otherwise (signs,
    underscores and inner blanks, which Python also reads, are not). *)
Definition parse_int (s : string) : result Z :=
  match s with
  | EmptyString => Raise ValueError
  | _ => match parse_digits 0 s with Some z => Ok z | None => Raise ValueError end
  end.

End Text.

(** ** trade_ai/domain/services/model_scorer_v1.py *)

Module ModelScorerV1.

Import Text.

(** A loaded model object, as the scorer calls it. [predict] is the
    booster's or estimator's prediction for the one-row input,
    [predict_proba] the estimator's class probabilities for it; a
    missing method or a failing call is a raised exception. *)
Record model_obj : Type := mkModel {
  predict : list Q -> result (list Q);
  predict_proba : list Q -> result (list (list Q))
}.

(** The file system and the three loading libraries. *)
Record loaders : Type := mkLoaders {
  is_file : string -> bool;                   (* p.exists() and p.is_file() *)
  xgb_load : string -> result model_obj;      (* xgb.Booster().load_model *)
  lgb_load : string -> result model_obj;      (* lgb.Booster(model_file=...) *)
  joblib_load : string -> result model_obj    (* joblib.load *)
}.

Record ModelScorerV1 : Type := mkScorer {
  model_path : string;
  model_type : string;
  _model : option model_obj;
  _loaded_type : string
}.

Record ScoreOutput : Type := mkScoreOutput {
  score_value : Q;              (* the [score] field *)
  out_model_type : string;
  out_model_path : string
}.

Definition disabled (self : ModelScorerV1) : ModelScorerV1 :=
  mkScorer (model_path self) (model_type self) None "none".

Definition loaded (self : ModelScorerV1) (m : model_obj) (t : string) : ModelScorerV1 :=
  mkScorer (model_path self) (model_type self) (Some m) t.

(** One routing step of [_load_best_effort]: try a loader when the
    guard holds, fall through when it does not or the loader raises. *)
Definition try_load (guard : bool) (load : string -> result model_obj) (t : string)
    (self : ModelScorerV1) (otherwise : ModelScorerV1) : ModelScorerV1 :=
  if guard then
    match load (model_path self) with
    | Ok m => loaded self m t
    | Raise _ => otherwise
    end
  else otherwise.

Definition _load_best_effort (env : loaders) (self : ModelScorerV1) : ModelScorerV1 :=
  if negb (is_file env (model_path self)) then disabled self
  else
    let ext := lower (suffix (model_path self)) in
    let want := model_type self in
    try_load (mem want ("auto" :: "xgb" :: "xgboost" :: nil) &&
              mem ext (".json" :: ".ubj" :: nil))
      (xgb_load env) "xgb_booster" self
      (try_load (mem want ("auto" :: "lgbm" :: "lightgbm" :: nil) &&
                 mem ext (".txt" :: ".lgb" :: nil))
         (lgb_load env) "lgb_booster" self
         (try_load (mem ext (".pkl" :: ".joblib" :: nil))
            (joblib_load env) "joblib" self
            (disabled self))).

(** [ModelScorerV1(model_path, model_type)] *)
Definition init (env : loaders) (path : option string) (mtype : string) : ModelScorerV1 :=
  let p := match path with Some s => s | None => "" end in
  let t := strip (lower (if String.eqb mtype "" then "auto" else mtype)) in
  let self := mkScorer p t None "none" in
  if String.eqb p "" then self else _load_best_effort env self.

(** [max(0.0, min(1.0, s))] *)
Definition clamp01 (s : Q) : Q := max2 0 (min2 1 s).

(** [float(pred[0]) if len(pred) else 0.5] *)
Definition first_or_half (pred : list Q) : Q :=
  match pred with nil => 1 # 2 | p :: _ => p end.

(** [proba[0][1]]: [IndexError] when the row or the entry is missing. *)
Definition proba_class1 (proba : list (list Q)) : result Q :=
  match proba with
  | (_ :: p1 :: _) :: _ => Ok p1
  | _ => Raise IndexError
  end.

(** [pred[0]] *)
Definition first (pred : list Q) : result Q :=
  match pred with p :: _ => Ok p | nil => Raise IndexError end.

Definition score (self : ModelScorerV1) (features : list Q) : result ScoreOutput :=
  match _model self with
  | None => Ok (mkScoreOutput 1 "none" (model_path self))
  | Some m =>
      let x := features in
      if String.eqb (_loaded_type self) "xgb_booster" then
        let* pred := predict m x in
        Ok (mkScoreOutput (clamp01 (first_or_half pred)) "xgb_booster" (model_path self))
      else if String.eqb (_loaded_type self) "lgb_booster" then
        let* pred := predict m x in
        Ok (mkScoreOutput (clamp01 (first_or_half pred)) "lgb_booster" (model_path self))
      else if String.eqb (_loaded_type self) "joblib" then
        match (let* proba := predict_proba m x in proba_class1 proba) with
        | Ok s => Ok (mkScoreOutput (clamp01 s) "joblib" (model_path self))
        | Raise _ =>
            match (let* pred := predict m x in first pred) with
            | Ok s =>
                Ok (mkScoreOutput (if Qleb (1 # 2) s then 1 else 0) "joblib"
                      (model_path self))
            | Raise _ => Ok (mkScoreOutput 1 "joblib" (model_path self))
            end
        end
      else Ok (mkScoreOutput 1 (_loaded_type self) (model_path self))
  end.

(** A booster file that loads, and whose [predict] rejects the input
    (a feature-count mismatch, say). *)
Definition booster_rejecting : model_obj :=
  mkModel (fun _ => Raise ValueError) (fun _ => Raise ValueError).

Definition env_with_booster : loaders :=
  mkLoaders (fun _ => true) (fun _ => Ok booster_rejecting)
    (fun _ => Raise ModelError) (fun _ => Raise ModelError).

Definition scorer_with_booster : ModelScorerV1 :=
  init env_with_booster (Some "models/scorer.json") "auto".

End ModelScorerV1.

(** ** trade_ai/domain/policies: policy_interface.py, rule_policy_v1.py,
       hybrid_policy_v1.py *)

Module Policies.

Import Decision Snapshot ModelScorerV1.

(** [PolicyInterface]: anything with a [decide] method. *)
Class PolicyInterface (P : Type) : Type := {
  decide : P -> SnapshotV3 -> result TradeDecision
}.

Record RulePolicyV1 : Type := mkRulePolicy {
  rule_rr : Q;                  (* self.rr, default 2.0 *)
  atr_k : Q                     (* default 1.0 *)
}.

(** [x or d] *)
Definition or_else (x d : pyval) : pyval := if truthy x then x else d.

(** [s.lower()] on a value that must be text. *)
Definition lower_of (v : pyval) : result string :=
  match v with PStr s => Ok (lower s) | _ => Raise AttributeError end.

Definition rule_decide (self : RulePolicyV1) (snapshot : SnapshotV3)
  : result TradeDecision :=
  let* price := get_in (ltf snapshot) "price" (PDict nil) in
  let* close := get_in price "close" PNone in
  let* entry_price := py_float close in
  let* price' := get_in (ltf snapshot) "price" (PDict nil) in
  let* atr_raw := get_in price' "atr_pct" PNone in
  let atr_pct := or_else atr_raw (PFloat 0) in
  let* sl_distance :=
    (if truthy atr_pct then
       let* a := as_number atr_pct in
       if Qltb 0 a then Ok (max2 (a * atr_k self * entry_price) (1 # 100000000))
       else Ok (max2 ((1 # 1000) * entry_price) (1 # 100000000))
     else Ok (max2 ((1 # 1000) * entry_price) (1 # 100000000))) in
  let* h1 := get_in (htf snapshot) "1h" (PDict nil) in
  let htf1 := or_else h1 (PDict nil) in
  let* trend_raw := get_in htf1 "trend" PNone in
  let* trend := lower_of (or_else trend_raw (PStr "unknown")) in
  let long := String.eqb trend "up" in
  let sl_price := if long then entry_price - sl_distance else entry_price + sl_distance in
  let tp_price := if long then entry_price + rule_rr self * sl_distance
                  else entry_price - rule_rr self * sl_distance in
  post_init (mkTradeDecision (if long then 1 else 0) (if long then "LONG" else "SHORT")
               entry_price sl_price tp_price (rule_rr self)
               (fabs (entry_price - sl_price)) (Some 1) (snapshot_time_utc snapshot)).

#[export] Instance RulePolicyV1_policy : PolicyInterface RulePolicyV1 := {
  decide := rule_decide
}.

(** A hybrid policy over any rule policy. [mapper_map] stands for
    [FeatureMapperV1.map]: the feature vector of a snapshot dict, or a
    raised mapping error. *)
Record HybridPolicyV1 (P : Type) : Type := mkHybridPolicy {
  rule_policy : P;
  mapper_map : pyval -> result (list Q);
  scorer : ModelScorerV1
}.

Arguments mkHybridPolicy {P} _ _ _.
Arguments rule_policy {P} _.
Arguments mapper_map {P} _.
Arguments scorer {P} _.

(** The [try] block of [decide]: map the snapshot, score the features. *)
Definition model_score {P : Type} (self : HybridPolicyV1 P) (snapshot : SnapshotV3)
  : result Q :=
  let* features := mapper_map self (to_dict snapshot) in
  let* score_out := score (scorer self) features in
  Ok (score_value score_out).

(** The confidence written into the decision before clamping. *)
Definition raw_confidence {P : Type} (self : HybridPolicyV1 P) (snapshot : SnapshotV3)
    (base : TradeDecision) : Q :=
  match model_score self snapshot with
  | Ok s => s
  | Raise _ => match confidence base with Some c => c | None => 1 end
  end.

Definition hybrid_decide {P : Type} `{PolicyInterface P}
    (self : HybridPolicyV1 P) (snapshot : SnapshotV3) : result TradeDecision :=
  let* base := decide (rule_policy self) snapshot in
  let score := raw_confidence self snapshot base in
  post_init (mkTradeDecision (action_type base) (direction base) (entry_price base)
               (sl_price base) (tp_price base) (rr base) (risk_unit base)
               (Some (max2 0 (min2 1 score))) (decision_time_utc base)).

#[export] Instance HybridPolicyV1_policy (P : Type) `{PolicyInterface P}
  : PolicyInterface (HybridPolicyV1 P) := {
  decide := hybrid_decide
}.

(** A hybrid policy over the default rule policy whose mapper fails,
    and one whose scorer has no model. *)
Definition hybrid_mapper_failing : HybridPolicyV1 RulePolicyV1 :=
  mkHybridPolicy (mkRulePolicy 2 1) (fun _ => Raise ValueError)
    (mkScorer "" "auto" None "none").

Definition hybrid_without_model : HybridPolicyV1 RulePolicyV1 :=
  mkHybridPolicy (mkRulePolicy 2 1) (fun _ => Ok (1 :: 2 :: nil))
    (mkScorer "" "auto" None "none").

Definition snapshot_uptrend : SnapshotV3 :=
  mkSnapshotV3 "v3" "0b88e89760b7f3b015e15a0f412649351820db58" 1700000100 "BTCUSDT"
    1700000101
    (PDict (("tf", PStr "5m") ::
            ("price", PDict (("close", PFloat 30000) ::
                             ("atr_pct", PFloat (1 # 1000)) :: nil)) :: nil))
    (PDict (("1h", PDict (("trend", PStr "up") :: nil)) :: nil))
    (PDict nil).

End Policies.

(** ** hashlib.sha1 (FIPS 180-4) *)

Module Sha1.

Definition w32 : Z := 4294967296.

Definition add32 (a b : Z) : Z := ((a + b) mod w32)%Z.

Definition rotl32 (n x : Z) : Z :=
  Z.lor (Z.shiftl x n mod w32)%Z (Z.shiftr x (32 - n)).

Definition not32 (x : Z) : Z := (w32 - 1 - x)%Z.

Definition bytes_of_string (s : string) : list Z :=
  map (fun c => Z.of_nat (nat_of_ascii c)) (list_ascii_of_string s).

(** The message length in bits as eight big-endian bytes. *)
Definition length_bytes (bits : Z) : list Z :=
  map (fun i => (Z.shiftr bits (8 * i) mod 256)%Z) (7 :: 6 :: 5 :: 4 :: 3 :: 2 :: 1 :: 0 :: nil)%Z.

(** Padding: a one bit, zeros up to 56 modulo 64, then the length. *)
Definition pad (msg : list Z) : list Z :=
  let n := Z.of_nat (length msg) in
  let zeros := Z.to_nat ((55 - n) mod 64) in
  msg ++ 128%Z :: repeat 0%Z zeros ++ length_bytes (8 * n).

Fixpoint words_of_bytes (bs : list Z) : list Z :=
  match bs with
  | a :: b :: c :: d :: r =>
      (Z.shiftl a 24 + Z.shiftl b 16 + Z.shiftl c 8 + d)%Z :: words_of_bytes r
  | _ => nil
  end.

Fixpoint blocks (n : nat) (ws : list Z) : list (list Z) :=
  match n with
  | O => nil
  | S k => match ws with
           | nil => nil
           | _ => firstn 16 ws :: blocks k (skipn 16 ws)
           end
  end.

(** The message schedule, newest word first: [n] more words are added
    to the ones in [rev_ws]. *)
Fixpoint expand (n : nat) (rev_ws : list Z) : list Z :=
  match n with
  | O => rev_ws
  | S k =>
      let w := rotl32 1 (Z.lxor (Z.lxor (nth 2 rev_ws 0%Z) (nth 7 rev_ws 0%Z))
                           (Z.lxor (nth 13 rev_ws 0%Z) (nth 15 rev_ws 0%Z))) in
      expand k (w :: rev_ws)
  end.

Definition schedule (block : list Z) : list Z := rev (expand 64 (rev block)).

Record state : Type := mkState { ha : Z; hb : Z; hc : Z; hd : Z; he : Z }.

Definition initial : state :=
  mkState 1732584193 4023233417 2562383102 271733878 3285377520.

Definition round_f (i : nat) (b c d : Z) : Z :=
  if (i <? 20)%nat then Z.lor (Z.land b c) (Z.land (not32 b) d)
  else if (i <? 40)%nat then Z.lxor (Z.lxor b c) d
  else if (i <? 60)%nat then Z.lor (Z.lor (Z.land b c) (Z.land b d)) (Z.land c d)
  else Z.lxor (Z.lxor b c) d.

Definition round_k (i : nat) : Z :=
  if (i <? 20)%nat then 1518500249
  else if (i <? 40)%nat then 1859775393
  else if (i <? 60)%nat then 2400959708
  else 3395469782.

Fixpoint rounds (i : nat) (ws : list Z) (s : state) : state :=
  match ws with
  | nil => s
  | w :: r =>
      let temp := add32 (add32 (add32 (add32 (rotl32 5 (ha s))
                                         (round_f i (hb s) (hc s) (hd s)))
                                  (he s)) (round_k i)) w in
      rounds (S i) r (mkState temp (ha s) (rotl32 30 (hb s)) (hc s) (hd s))
  end.

Definition compress (h : state) (block : list Z) : state :=
  let s := rounds 0 (schedule block) h in
  mkState (add32 (ha h) (ha s)) (add32 (hb h) (hb s)) (add32 (hc h) (hc s))
    (add32 (hd h) (hd s)) (add32 (he h) (he s)).

Definition digest (msg : list Z) : state :=
  let ws := words_of_bytes (pad msg) in
  fold_left compress (blocks (length ws) ws) initial.

(** [hashlib.sha1(s.encode("utf-8")).hexdigest()]; the characters of
    [s] are its UTF-8 bytes. *)
Definition hexdigest (s : string) : string :=
  let h := digest (bytes_of_string s) in
  hex_fixed 8 (ha h) ++ hex_fixed 8 (hb h) ++ hex_fixed 8 (hc h) ++
  hex_fixed 8 (hd h) ++ hex_fixed 8 (he h).

End Sha1.

(** ** trade_ai/infrastructure/market/snapshot_builder_v1.py:
       the bar a snapshot is built on, and its id *)

Module SnapshotBuilderV1.

Import Text.

(** An OHLCV row [[ts, o, h, l, c, v]]; [ts] is the open time in ms. *)
Record candle : Type := mkCandle {
  ts : Z; c_open : Q; c_high : Q; c_low : Q; c_close : Q; c_volume : Q
}.

Record SnapshotBuilderConfig : Type := mkBuilderConfig {
  ltf_tf : string;              (* default "5m" *)
  htf_tfs : list string         (* default ["15m", "1h", "4h"] *)
}.

(** [__post_init__]: the hard lock on the timeframes. *)
Definition config_post_init (cfg : SnapshotBuilderConfig) : result SnapshotBuilderConfig :=
  if negb (String.eqb (lower (strip (ltf_tf cfg))) "5m") then Raise ValueError
  else
    let given := map (fun x => lower (strip x))
                   (filter (fun x => negb (String.eqb x "")) (htf_tfs cfg)) in
    if negb (forallb (fun r => mem r given) ("15m" :: "1h" :: "4h" :: nil))
    then Raise ValueError
    else Ok cfg.

Definition _tf_to_sec (tf : string) : result Z :=
  let tf := lower (strip tf) in
  match split_last tf with
  | Some (p, "m"%char) => let* n := parse_int p in Ok (n * 60)%Z
  | Some (p, "h"%char) => let* n := parse_int p in Ok (n * 60 * 60)%Z
  | Some (p, "d"%char) => let* n := parse_int p in Ok (n * 60 * 60 * 24)%Z
  | _ => Ok 60%Z
  end.

(** Lines 124-127: drop the last candle while it is still open and
    another one is there. *)
Definition closed_candles (now_ms tf_ms : Z) (ltf_ohlcv : list candle) : list candle :=
  match List.last (map Some ltf_ohlcv) None with
  | Some l =>
      if ((now_ms <? ts l + tf_ms)%Z && (2 <=? length ltf_ohlcv)%nat)%bool
      then removelast ltf_ohlcv else ltf_ohlcv
  | None => ltf_ohlcv
  end.

(** [f"{ex_id}|{symbol}|{ltf_tf}|{ltf_close_time_utc}|v3"] *)
Definition snap_key (ex_id symbol tf : string) (ltf_close_time_utc : Z) : string :=
  ex_id ++ "|" ++ symbol ++ "|" ++ tf ++ "|" ++ str_of_Z ltf_close_time_utc ++ "|v3".

(** The identity of the snapshot that [build] returns. *)
Record built : Type := mkBuilt {
  snapshot_id : string;
  snapshot_time_utc : Z;
  observer_time_utc : Z;
  symbol : string
}.

(** [build(symbol)] as far as the id and the times go (lines 113-149
    and the head of the returned dict). [exchange_id] is the adapter's
    attribute if it has one, [now_utc] and [now_ms] the two clock
    readings, [ltf_ohlcv] what [fetch_ohlcv] returned and [u] the uuid
    draw of the empty case. *)
Definition build (exchange_id : option string) (cfg : SnapshotBuilderConfig)
    (now_utc now_ms : Z) (ltf_ohlcv : list candle) (u : Z) (sym : string)
  : result built :=
  let* tf_sec := _tf_to_sec (ltf_tf cfg) in
  let tf_ms := (tf_sec * 1000)%Z in
  let candles := closed_candles now_ms tf_ms ltf_ohlcv in
  match List.last (map Some candles) None with
  | None => Ok (mkBuilt (uuid_str u) now_utc now_utc sym)
  | Some l =>
      let ltf_close_time_utc := Z.quot (ts l + tf_ms) 1000 in
      let ex_id := match exchange_id with Some e => e | None => "unknown" end in
      let key := snap_key ex_id sym (ltf_tf cfg) ltf_close_time_utc in
      Ok (mkBuilt (Sha1.hexdigest key) ltf_close_time_utc now_utc sym)
  end.

Definition default_config : SnapshotBuilderConfig :=
  mkBuilderConfig "5m" ("15m" :: "1h" :: "4h" :: nil).

(** The 5m bar of BTCUSDT on binance that closes at 1700000100. *)
Definition bar_1700000100 : list candle :=
  mkCandle 1699999500000 29990 30010 29980 30000 12 ::
  mkCandle 1699999800000 30000 30020 29990 30005 15 :: nil.

(** The specification's reading of the id: the first 20 hex characters
    of the SHA-1 of the key. *)
Definition spec_snapshot_id (ex_id sym tf : string) (ltf_close_time_utc : Z) : string :=
  substring 0 20 (Sha1.hexdigest (snap_key ex_id sym tf ltf_close_time_utc)).

Definition snapshot_id_as_specified : Prop :=
  forall b,
    build (Some "binance") default_config 1700000101 1700000101000 bar_1700000100 0
      "BTCUSDT" = Ok b ->
    snapshot_id b = spec_snapshot_id "binance" "BTCUSDT" "5m" 1700000100 /\
    String.length (snapshot_id b) = 20%nat.

End SnapshotBuilderV1.

(** ** trade_ai/infrastructure/market/universe_selector_v3.py:
       ranking and correlation-aware selection (lines 403-463) *)

Module UniverseSelectorV3.

Import Text.

(** The fields of [UniverseConfigV3] that the selection reads. *)
Record UniverseConfigV3 : Type := mkUniverseConfig {
  target_symbols : Z;           (* default 8 *)
  max_corr : Q;                 (* default 0.85 *)
  sticky_enabled : bool;        (* default True *)
  sticky_keep : Z               (* default 2 *)
}.

(** A scored candidate: its symbol, its score and the metrics that are
    carried into the report. *)
Record row : Type := mkRow {
  symbol : string;
  score : Q;
  metrics : pyval
}.

Record exclusion : Type := mkExclusion {
  ex_symbol : string;
  ex_reason : string;
  corr_with : list (string * Q)
}.

(** [s.upper().strip().replace("/", "")] *)
Definition normalise (s : string) : string := remove_slash (strip (upper s)).

(** [scored.sort(key=score, reverse=True)]: stable, descending. *)
Fixpoint insert_desc (r : row) (sorted : list row) : list row :=
  match sorted with
  | nil => r :: nil
  | x :: rest => if Qleb (score x) (score r) then r :: sorted
                 else x :: insert_desc r rest
  end.

Definition sort_desc (rows : list row) : list row :=
  fold_right insert_desc nil rows.

Definition has_symbol (s : string) (rows : list row) : bool :=
  existsb (fun r => String.eqb (symbol r) s) rows.

Section Selection.

(** The log-returns of a symbol as fetched from the exchange ([None]
    when the fetch fails or the series is too short) and [_corr] on
    two such series ([None] when it is undefined). Logarithms and
    square roots leave the rationals, so both are taken as given. *)
Variable rets : Type.
Variable _get_rets : string -> option rets.
Variable _corr : rets -> rets -> option Q.

Variable cfg : UniverseConfigV3.

(** Lines 422-425. *)
Definition sticky_pool (prev : list string) (scored : list row) : list string :=
  if (sticky_enabled cfg && negb (match prev with nil => true | _ => false end))%bool
  then firstn (Z.to_nat (Z.max 0 (sticky_keep cfg)))
         (filter (fun s => has_symbol s scored) prev)
  else nil.

(** Lines 427-430. *)
Fixpoint keep_sticky (pool : list string) (scored selected : list row) : list row :=
  match pool with
  | nil => selected
  | s :: rest =>
      match find (fun r => String.eqb (symbol r) s) scored with
      | Some r => keep_sticky rest scored (selected ++ r :: nil)%list
      | None => keep_sticky rest scored selected
      end
  end.

(** Lines 444-458: the scan of the symbols selected so far. *)
Fixpoint corr_scan (rs : rets) (selected : list row) (cw : list (string * Q))
  : bool * list (string * Q) :=
  match selected with
  | nil => (true, cw)
  | s2 :: rest =>
      if String.eqb (symbol s2) "" then corr_scan rs rest cw
      else
        match _get_rets (symbol s2) with
        | None => corr_scan rs rest cw
        | Some rs2 =>
            match _corr rs rs2 with
            | None => corr_scan rs rest cw
            | Some c =>
                let cw' := (cw ++ (symbol s2, c) :: nil)%list in
                if Qltb (max_corr cfg) (fabs c) then (false, cw')
                else corr_scan rs rest cw'
            end
        end
  end.

(** Lines 432-463: the greedy loop over the ranked candidates. *)
Fixpoint greedy (rows selected : list row) (excluded : list exclusion)
  : list row * list exclusion :=
  match rows with
  | nil => (selected, excluded)
  | r :: rest =>
      if (target_symbols cfg <=? Z.of_nat (length selected))%Z then (selected, excluded)
      else if has_symbol (symbol r) selected then greedy rest selected excluded
      else
        match _get_rets (symbol r) with
        | None =>
            greedy rest selected
              (excluded ++ mkExclusion (symbol r) "returns_unavailable" nil :: nil)%list
        | Some rs =>
            match corr_scan rs selected nil with
            | (true, _) => greedy rest (selected ++ r :: nil)%list excluded
            | (false, cw) =>
                greedy rest selected
                  (excluded ++ mkExclusion (symbol r) "high_correlation" cw :: nil)%list
            end
        end
  end.

(** The [selected] and [excluded] lists of the report, from the scored
    candidates, the previous selection and the exclusions so far. *)
Definition select (prev_selected : list string) (scored : list row)
    (excluded : list exclusion) : list row * list exclusion :=
  let prev := map normalise
                (filter (fun s => negb (String.eqb s "")) prev_selected) in
  let ranked := sort_desc scored in
  let selected := keep_sticky (sticky_pool prev ranked) ranked nil in
  greedy ranked selected excluded.

End Selection.

(** A universe of one symbol with the default sticky keep of two, and
    three scored candidates of which two were selected before. *)
Definition cfg_target_1 : UniverseConfigV3 := mkUniverseConfig 1 (85 # 100) true 2.

Definition scored_three : list row :=
  mkRow "BTCUSDT" 3 PNone :: mkRow "ETHUSDT" 2 PNone :: mkRow "SOLUSDT" 1 PNone :: nil.

Definition prev_two : list string := "ETHUSDT" :: "SOLUSDT" :: nil.

End UniverseSelectorV3.

(** ** Risk engine: the budget a plan is sized from *)

Module RiskBudget.

Import RiskEngineV1.

(** Lines 117-120 of [build_plan]: a fixed budget in USDT when one is
    configured and positive, else the percentage of equity. *)
Definition risk_budget (cfg : RiskConfig) (account : AccountState) : Q :=
  if is_pos (risk_per_trade_usdt cfg)
  then match risk_per_trade_usdt cfg with Some r => r | None => 0 end
  else equity_usdt account * (risk_per_trade_pct cfg / 100).

(** [(min_notional_policy or "skip").lower() == "override_with_cap"] *)
Definition overrides (cfg : RiskConfig) : bool :=
  String.eqb (lower (if String.eqb (min_notional_policy cfg) "" then "skip"
                     else min_notional_policy cfg)) "override_with_cap".

End RiskBudget.

(** ** Snapshots: dicts with numeric timestamps, stores written by [save] *)

Module SnapshotStoreInv.

Import Snapshot SnapshotRepo.

(** The dict gives both timestamps as numbers (ints, floats or bools). *)
Definition times_are_numbers (data : pyval) : Prop :=
  exists items a b,
    data = PDict items /\
    as_number (dict_get items "snapshot_time_utc") = Ok a /\
    as_number (dict_get items "observer_time_utc") = Ok b.


End SnapshotStoreInv.

(** ** trade_ai/domain/entities/execution_state.py: [validate] *)

Module ExecutionValidate.

Import Execution.

Definition is_none {A : Type} (o : option A) : bool :=
  match o with None => true | Some _ => false end.

(** [ExecutionState.validate()]; [ExecutionStateError] is reported as
    a [ValueError]. *)
Definition validate (self : ExecutionState) : result unit :=
  if negb (String.eqb (status self) "OPEN" || String.eqb (status self) "CLOSED") then
    Raise ValueError
  else if String.eqb (status self) "CLOSED" then
    if is_none (entry_time_utc self) || is_none (entry_fill_price self) then
      Raise ValueError
    else if is_none (exit_time_utc self) || is_none (exit_fill_price self) then
      Raise ValueError
    else Ok tt
  else Ok tt.

End ExecutionValidate.

(** ** trade_ai/application/ports/trade_repository.py,
       trade_ai/application/usecases/open_trade_usecase.py,
       trade_ai/application/usecases/resolve_trade_usecase.py,
       main.py: [InMemoryTradeRepo] *)

Module TradeUsecases.

Import Decision Execution Aggregate Snapshot SnapshotRepo Policies MfeMae Reward.
Import RewardEntity(RewardState).

(** Trade aggregates are mutable objects: a variable holds a reference,
    and the heap gives the current value of every object. Nothing is
    ever removed from the heap. *)
Definition ref : Type := positive.

Definition heap : Type := gmap ref TradeAggregate.

(** A new object. *)
Definition alloc (h : heap) (ta : TradeAggregate) : ref * heap :=
  let a := fresh (dom h) in (a, <[a := ta]> h).

(** [TradeRepositoryPort], as far as the two use cases call it. The
    writing methods read the object they are given and return the
    repository after the call; [get_open] returns a reference and the
    heap after the call, since an implementation that rebuilds the
    aggregate from storage creates a new object. *)
Class TradeRepositoryPort (T : Type) : Type := {
  save_open : T -> heap -> ref -> result unit * T;
  update_closed : T -> heap -> ref -> result unit * T;
  get_open : T -> heap -> string -> result (option ref) * heap
}.

(** [InMemoryTradeRepo]: [_open] maps trade ids to the objects
    themselves, [_closed] lists objects. *)
Record InMemoryTradeRepo : Type := mkInMemoryTradeRepo {
  _open : gmap string ref;
  _closed : list ref
}.

(** [InMemoryTradeRepo()] *)
Definition new_InMemoryTradeRepo : InMemoryTradeRepo := mkInMemoryTradeRepo empty nil.

(** A reference outside the heap does not occur in a run; the model
    raises [AttributeError] there. *)
Definition mem_save_open (self : InMemoryTradeRepo) (h : heap) (trade : ref)
  : result unit * InMemoryTradeRepo :=
  match h !! trade with
  | None => (Raise AttributeError, self)
  | Some ta =>
      (Ok tt, mkInMemoryTradeRepo (<[trade_id ta := trade]> (_open self)) (_closed self))
  end.

Definition mem_update_closed (self : InMemoryTradeRepo) (h : heap) (trade : ref)
  : result unit * InMemoryTradeRepo :=
  match h !! trade with
  | None => (Raise AttributeError, self)
  | Some ta =>
      (Ok tt, mkInMemoryTradeRepo (delete (trade_id ta) (_open self))
                (_closed self ++ trade :: nil)%list)
  end.

(** [self._open.get(trade_id)]: the stored object, not a copy. *)
Definition mem_get_open (self : InMemoryTradeRepo) (h : heap) (tid : string)
  : result (option ref) * heap :=
  (Ok (_open self !! tid), h).

#[export] Instance InMemoryTradeRepo_port : TradeRepositoryPort InMemoryTradeRepo := {
  save_open := mem_save_open;
  update_closed := mem_update_closed;
  get_open := mem_get_open
}.

(** The events published on the bus: topic and the aggregate whose
    dump, a deep copy made by [to_dict], is the payload. *)
Definition event_log : Type := list (string * TradeAggregate).

(** [if self.event_bus: self.event_bus.publish(topic, ta.to_dict())] *)
Definition publish (bus : option event_log) (topic : string) (ta : TradeAggregate)
  : option event_log :=
  match bus with
  | Some log => Some (log ++ (topic, ta) :: nil)%list
  | None => None
  end.

(** [trade.exit_snapshot_id = ...; trade.exit_snapshot_time_utc = ...] *)
Definition with_exit_snapshot (self : TradeAggregate) (sid : string) (t : Z)
  : TradeAggregate :=
  mkTradeAggregate (Aggregate.schema_version self) (trade_id self) (Aggregate.symbol self)
    (entry_snapshot_id self) (Some sid) (entry_snapshot_time_utc self) (Some t)
    (decision self) (execution_state self) (reward_state self) (policy_info self).

(** [OpenTradeUsecase.open_trade]; [uuid] is the draw for the trade id
    and [u] the one that [get] may need. Returns the new object. *)
Definition open_trade {S T P : Type}
    `{SnapshotRepositoryPort S} `{TradeRepositoryPort T} `{PolicyInterface P}
    (snapshot_repo : S) (trade_repo : T) (policy : P) (h : heap)
    (bus : option event_log)
    (entry_snapshot_id : string) (policy_info : pyval)
    (decision_override : option TradeDecision) (uuid u : Z)
  : result ref * T * heap * option event_log :=
  match get snapshot_repo entry_snapshot_id u with
  | Raise e => (Raise e, trade_repo, h, bus)
  | Ok None => (Raise ValueError, trade_repo, h, bus)
  | Ok (Some snap) =>
      match (match decision_override with
             | Some d => Ok d
             | None => decide policy snap
             end) with
      | Raise e => (Raise e, trade_repo, h, bus)
      | Ok d =>
          let ta := create_open (uuid_str uuid) (Snapshot.symbol snap)
                      (Snapshot.snapshot_id snap) (Snapshot.snapshot_time_utc snap)
                      d policy_info in
          let (a, h1) := alloc h ta in
          match save_open trade_repo h1 a with
          | (Raise e, repo') => (Raise e, repo', h1, bus)
          | (Ok _, repo') => (Ok a, repo', h1, publish bus "trade.open" ta)
          end
      end
  end.

(** [ResolveTradeUsecase.resolve_trade]: every change of [trade] is a
    change of the object that [get_open] returned. *)
Definition resolve_trade {T : Type} `{TradeRepositoryPort T}
    (trade_repo : T) (h : heap) (bus : option event_log)
    (tid : string) (execution : ExecutionState) (ohlc_bars : list bar)
    (exit_snapshot_id : string) (exit_snapshot_time_utc : Z)
  : result unit * T * heap * option event_log :=
  match get_open trade_repo h tid with
  | (Raise e, h1) => (Raise e, trade_repo, h1, bus)
  | (Ok None, h1) => (Raise ValueError, trade_repo, h1, bus)
  | (Ok (Some a), h1) =>
      match h1 !! a with
      | None => (Raise AttributeError, trade_repo, h1, bus)
      | Some trade =>
          match attach_execution trade execution with
          | (Raise e, trade1) => (Raise e, trade_repo, <[a := trade1]> h1, bus)
          | (Ok _, trade1) =>
              if String.eqb (status (execution_state trade1)) "CLOSED" then
                let trade2 := with_exit_snapshot trade1 exit_snapshot_id
                                exit_snapshot_time_utc in
                match calculate_reward (decision trade2) (execution_state trade2)
                        ohlc_bars with
                | Raise e => (Raise e, trade_repo, <[a := trade2]> h1, bus)
                | Ok reward =>
                    match attach_reward trade2 reward with
                    | (Raise e, trade3) => (Raise e, trade_repo, <[a := trade3]> h1, bus)
                    | (Ok _, trade3) =>
                        let h2 := <[a := trade3]> h1 in
                        match update_closed trade_repo h2 a with
                        | (Raise e, repo') => (Raise e, repo', h2, bus)
                        | (Ok _, repo') =>
                            (Ok tt, repo', h2, publish bus "trade.closed" trade3)
                        end
                    end
                end
              else
                let h2 := <[a := trade1]> h1 in
                match save_open trade_repo h2 a with
                | (Raise e, repo') => (Raise e, repo', h2, bus)
                | (Ok _, repo') => (Ok tt, repo', h2, bus)
                end
          end
      end
  end.

(** The objects of [_open] exist, each under its own trade id. *)
Definition open_wf (r : InMemoryTradeRepo) (h : heap) : Prop :=
  forall (tid : string) (a : ref),
    _open r !! tid = Some a -> exists ta, h !! a = Some ta /\ trade_id ta = tid.

End TradeUsecases.

(** ** A window mirrored about the entry price *)

Module Mirror.

Import MfeMae.

(** The bar whose high and low are the reflections of [b]'s low and
    high in [entry_price]; a missing entry stays missing. *)
Definition mirror_bar (entry_price : Q) (b : bar) : bar :=
  mkBar (option_map (fun l => 2 * entry_price - l) (low b))
        (option_map (fun h => 2 * entry_price - h) (high b)).

End Mirror.

(** ** trade_ai/infrastructure/market/snapshot_builder_v1.py: the
       candles given to [build] and the dict it returns *)

Module BuilderDict.

Import PyVal SnapshotBuilderV1.


(** The dict returned by [build] (lines 132-141 and 301-340): the
    head is fixed by the identity of the snapshot; the [ltf], [htf]
    and [context] blocks are dicts whose entries the admission of the
    snapshot does not read. *)
Definition build_dict (b : built) (ltf htf context : list (string * pyval)) : pyval :=
  PDict (("schema_version", PStr "v3") ::
         ("snapshot_id", PStr (snapshot_id b)) ::
         ("snapshot_time_utc", PInt (snapshot_time_utc b)) ::
         ("observer_time_utc", PInt (observer_time_utc b)) ::
         ("symbol", PStr (symbol b)) ::
         ("ltf", PDict ltf) :: ("htf", PDict htf) :: ("context", PDict context) :: nil).

End BuilderDict.

(** ** What the correlation-aware selection is to guarantee *)

Module SelectionGuarantee.

Import UniverseSelectorV3.

Section Guarantee.

Variable rets : Type.
Variable _get_rets : string -> option rets.
Variable _corr : rets -> rets -> option Q.
Variable cfg : UniverseConfigV3.

(** No row of [selected] with known returns is correlated with [rs]
    above the limit. *)
Definition low_corr (rs : rets) (selected : list row) : Prop :=
  forall s2, In s2 selected -> symbol s2 <> "" ->
  forall rs2 c, _get_rets (symbol s2) = Some rs2 -> _corr rs rs2 = Some c ->
  fabs c <= max_corr cfg.

(** What the greedy loop appends: rows of the ranked list, each new by
    symbol, with returns, and weakly correlated with all before it. *)
Definition well_added (rows selected added : list row) : Prop :=
  forall l1 r l2, added = (l1 ++ r :: l2)%list ->
    In r rows /\ has_symbol (symbol r) (selected ++ l1) = false /\
    exists rs, _get_rets (symbol r) = Some rs /\ low_corr rs (selected ++ l1).

End Guarantee.

End SelectionGuarantee.

(** ** trade_ai/domain/services/risk_guard_v1.py *)

Module RiskGuardV1.

Import PyVal Execution Aggregate.
Import RewardEntity(RewardState, pnl_usdt, pnl_raw).

Record RiskGuardConfig : Type := mkRiskGuardConfig {
  max_daily_loss_usdt : option Q;      (* default None *)
  max_daily_loss_pct : option Q;       (* default None; % of equity *)
  max_consecutive_losses : Z;          (* default 3 *)
  cooldown_sec : Z;                    (* default 0 *)
  max_trades_per_day : option Z        (* default None *)
}.

Record RiskGuardResult : Type := mkRiskGuardResult {
  ok : bool;
  reason : string;
  metrics : list (string * pyval)
}.

Definition _trade_pnl_usdt (t : TradeAggregate) : Q :=
  match reward_state t with
  | None => 0
  | Some r =>
      match pnl_usdt r with
      | Some pu => pu
      | None =>
          match Execution.qty (execution_state t) with
          | Some q => q * pnl_raw r
          | None => pnl_raw r
          end
      end
  end.

(** [t.execution_state and t.execution_state.exit_time_utc]: an exit
    time that is neither [None] nor 0. *)
Definition has_exit (t : TradeAggregate) : bool :=
  match exit_time_utc (execution_state t) with
  | Some z => negb (z =? 0)%Z
  | None => false
  end.

(** [int(t.execution_state.exit_time_utc or 0)] *)
Definition exit_key (t : TradeAggregate) : Z :=
  match exit_time_utc (execution_state t) with Some z => z | None => 0%Z end.

(** [sorted(..., key=exit_key)]: ascending and stable. *)
Fixpoint insert_by_exit (t : TradeAggregate) (sorted : list TradeAggregate)
  : list TradeAggregate :=
  match sorted with
  | nil => t :: nil
  | x :: rest => if (exit_key t <=? exit_key x)%Z then t :: sorted
                 else x :: insert_by_exit t rest
  end.

Definition sort_by_exit (l : list TradeAggregate) : list TradeAggregate :=
  fold_right insert_by_exit nil l.

(** Midnight UTC of the day of [now_utc], through [datetime], whose
    years run from 1 to 9999: outside of them [utcfromtimestamp]
    raises (reported as [ValueError]). *)
Definition day_start (now_utc : Z) : result Z :=
  if ((now_utc <? -62135596800) || (253402300799 <? now_utc))%Z then Raise ValueError
  else Ok (now_utc - now_utc mod 86400)%Z.

(** [sum(_trade_pnl_usdt(t) for t in today)] *)
Definition sum_pnl (l : list TradeAggregate) : Q :=
  fold_left (fun acc t => acc + _trade_pnl_usdt t) l 0.

(** Lines 104-116: the walk back from the latest exit. The result is
    the streak at which the guard blocks, if it does. *)
Fixpoint loss_streak (max_streak streak : Z) (latest_first : list TradeAggregate)
  : option Z :=
  match latest_first with
  | nil => None
  | t :: r =>
      if Qltb (_trade_pnl_usdt t) 0 then
        let streak := (streak + 1)%Z in
        if (max_streak <=? streak)%Z then Some streak
        else loss_streak max_streak streak r
      else None
  end.

Definition is_nil {A : Type} (l : list A) : bool :=
  match l with nil => true | _ => false end.

Definition check (cfg : RiskGuardConfig) (closed_trades : list TradeAggregate)
    (now_utc : Z) (equity_usdt : Q) : result RiskGuardResult :=
  let eq := equity_usdt in
  let* day_start_ts := day_start now_utc in
  let closed_sorted := sort_by_exit (List.filter has_exit closed_trades) in
  let today := List.filter (fun t => (day_start_ts <=? exit_key t)%Z) closed_sorted in
  let pnl_today := sum_pnl today in
  let n_today := Z.of_nat (length today) in
  let last_exit := match List.last (map Some closed_sorted) None with
                   | Some t => exit_key t
                   | None => 0%Z
                   end in
  if (negb (cooldown_sec cfg =? 0)%Z && negb (is_nil closed_sorted) &&
      negb (last_exit =? 0)%Z && (now_utc - last_exit <? cooldown_sec cfg)%Z)%bool then
    Ok (mkRiskGuardResult false "cooldown"
          (("cooldown_sec", PInt (cooldown_sec cfg)) ::
           ("seconds_since_last_exit", PInt (now_utc - last_exit)) :: nil))
  else if match max_trades_per_day cfg with
          | Some m => (m <=? n_today)%Z
          | None => false
          end then
    Ok (mkRiskGuardResult false "max_trades_per_day"
          (("trades_today", PInt n_today) ::
           ("max_trades_per_day",
            PInt (match max_trades_per_day cfg with Some m => m | None => 0%Z end)) :: nil))
  else if match max_daily_loss_usdt cfg with
          | Some m => Qltb 0 m && Qleb pnl_today (- fabs m)
          | None => false
          end then
    Ok (mkRiskGuardResult false "max_daily_loss_usdt"
          (("pnl_today_usdt", PFloat pnl_today) ::
           ("max_daily_loss_usdt",
            PFloat (match max_daily_loss_usdt cfg with Some m => m | None => 0 end)) :: nil))
  else if match max_daily_loss_pct cfg with
          | Some p => Qltb 0 p && Qltb 0 eq && Qleb pnl_today (- fabs (eq * (p / 100)))
          | None => false
          end then
    Ok (mkRiskGuardResult false "max_daily_loss_pct"
          (("pnl_today_usdt", PFloat pnl_today) ::
           ("cap_usdt",
            PFloat (eq * (match max_daily_loss_pct cfg with Some p => p | None => 0 end
                          / 100))) ::
           ("max_daily_loss_pct",
            PFloat (match max_daily_loss_pct cfg with Some p => p | None => 0 end)) :: nil))
  else
    match (if (0 <? max_consecutive_losses cfg)%Z
           then loss_streak (max_consecutive_losses cfg) 0 (rev closed_sorted)
           else None) with
    | Some streak =>
        Ok (mkRiskGuardResult false "max_consecutive_losses"
              (("loss_streak", PInt streak) ::
               ("max_consecutive_losses", PInt (max_consecutive_losses cfg)) :: nil))
    | None =>
        Ok (mkRiskGuardResult true "ok"
              (("pnl_today_usdt", PFloat pnl_today) ::
               ("trades_today", PInt n_today) :: nil))
    end.

(** The trades that count for today, and their number and result, read
    off the list as it is given. *)
Definition exited_today (day_start_ts : Z) (t : TradeAggregate) : bool :=
  (has_exit t && (day_start_ts <=? exit_key t)%Z)%bool.

Definition pnl_of (l : list TradeAggregate) : Q :=
  fold_right (fun t acc => _trade_pnl_usdt t + acc) 0 l.

(** A guard with the default streak limit and nothing else, and three
    closed trades, the last two of them losses. *)
Definition guard_default : RiskGuardConfig := mkRiskGuardConfig None None 3 0 None.

Definition closed_with (exit_t : Z) (pnl : Q) : TradeAggregate :=
  mkTradeAggregate "v3" "t" "BTCUSDT" "s" None 0 None
    (Decision.mkTradeDecision 1 "LONG" 100 99 102 2 1 None 0)
    (mkExecutionState "CLOSED" (Some (exit_t - 60)%Z) (Some 100) (Some exit_t) (Some 99)
       None 0 0 None None None None None None None None None None None)
    (Some (RewardEntity.mkRewardState pnl pnl 0 0 60 "v1" (Some pnl) None None None None))
    (PDict nil).

Definition three_losses : list TradeAggregate :=
  closed_with 1700000000 (- (1)) :: closed_with 1700000600 (- (2)) ::
  closed_with 1700001200 (- (1)) :: nil.

End RiskGuardV1.

(** ** apps/runtime_trader.py: the decision step of a cycle *)

Module RuntimeTrader.

Import Decision Snapshot ModelScorerV1 Policies.

(** The policy of the pipeline: a [HybridPolicyV1], which has the
    attributes [rule_policy], [mapper] and [scorer], or a policy
    without them. *)
Inductive runtime_policy (P : Type) : Type :=
| Hybrid (h : HybridPolicyV1 P)
| Plain (p : P).

Arguments Hybrid {P} h.
Arguments Plain {P} p.

(** [policy.decide(snap)] *)
Definition policy_decide {P : Type} `{PolicyInterface P}
    (policy : runtime_policy P) (snap : SnapshotV3) : result TradeDecision :=
  match policy with
  | Hybrid h => hybrid_decide h snap
  | Plain p => decide p snap
  end.

(** [float(x)] on a [ScoreOutput]: the dataclass has no [__float__]. *)
Definition float_of_score_output (out : ScoreOutput) : result Q := Raise TypeError.

(** [_hybrid_conf_components(policy, snap)] (lines 465-501): the
    triple [(rule_conf, model_score, final_conf)]. *)
Definition _hybrid_conf_components {P : Type} `{PolicyInterface P}
    (policy : runtime_policy P) (snap : SnapshotV3)
  : option Q * option Q * option Q :=
  match policy with
  | Plain _ => (None, None, None)
  | Hybrid h =>
      let rule_conf :=
        match decide (rule_policy h) snap with
        | Ok rd => match confidence rd with Some c => c | None => 1 end
        | Raise _ => 0
        end in
      let model_score :=
        match (let* feats := mapper_map h (to_dict snap) in
               let* out := score (scorer h) feats in
               float_of_score_output out) with
        | Ok s => Some s
        | Raise _ => None
        end in
      match model_score with
      | None => (Some rule_conf, None, Some rule_conf)
      | Some ms => (Some rule_conf, Some ms, Some (max2 0 (min2 1 (rule_conf * ms))))
      end
  end.

Definition is_some {A : Type} (o : option A) : bool :=
  match o with Some _ => true | None => false end.

(** Lines 904-911: the confidence chosen by [HYBRID_CONF_MODE]
    (stripped and in lower case, "mul" by default). *)
Definition chosen_conf (conf_mode : string) (decision : TradeDecision)
    (rule_conf model_score final_conf : option Q) : option Q :=
  if (String.eqb conf_mode "mul" && is_some final_conf)%bool then final_conf
  else if (String.eqb conf_mode "model" && is_some model_score)%bool then model_score
  else if (String.eqb conf_mode "rule" && is_some rule_conf)%bool then rule_conf
  else confidence decision.

(** [decision.confidence != chosen_conf], on floats or [None]. *)
Definition conf_differs (c : option Q) (chosen : Q) : bool :=
  match c with Some x => negb (Qeq_bool x chosen) | None => true end.

(** Lines 913-925: the decision rebuilt with the chosen confidence.
    The call [TradeDecision(action_type=..., ..., confidence=...)]
    gives eight of the nine fields, none of which has a default: it
    raises [TypeError] for the missing [decision_time_utc]. *)
Definition rebuild_decision (conf_mode : string) (decision : TradeDecision)
    (rule_conf model_score final_conf : option Q) : result TradeDecision :=
  match chosen_conf conf_mode decision rule_conf model_score final_conf with
  | Some c => if conf_differs (confidence decision) c then Raise TypeError
              else Ok decision
  | None => Ok decision
  end.

(** Lines 894-925 of [run_paper_or_live_loop]: the decision proposed
    for a snapshot, [None] when the policy raised. *)
Definition decision_step {P : Type} `{PolicyInterface P}
    (policy : runtime_policy P) (conf_mode : string) (snap : SnapshotV3)
  : result (option TradeDecision) :=
  let decision := match policy_decide policy snap with
                  | Ok d => Some d
                  | Raise _ => None
                  end in
  match _hybrid_conf_components policy snap with
  | (rule_conf, model_score, final_conf) =>
      match decision with
      | None => Ok None
      | Some d =>
          let* d' := rebuild_decision conf_mode d rule_conf model_score final_conf in
          Ok (Some d')
      end
  end.

(** A hybrid policy over the default rule policy whose estimator
    gives the probability 0.7. *)
Definition hybrid_scoring_07 : HybridPolicyV1 RulePolicyV1 :=
  mkHybridPolicy (mkRulePolicy 2 1) (fun _ => Ok (1 :: 2 :: nil))
    (mkScorer "m.pkl" "auto"
       (Some (mkModel (fun _ => Raise ValueError)
                (fun _ => Ok (((3 # 10) :: (7 # 10) :: nil) :: nil))))
       "joblib").

End RuntimeTrader.

(** ** trade_ai/domain/policies/risk_aware_policy_v1.py *)

Module RiskAwarePolicy.

Import PyVal Decision Snapshot Policies.

Record RiskAwarePolicyV1 : Type := mkRiskAwarePolicy {
  rr_map : list (string * Q);   (* default dead 1.0, normal 2.0, expansion 3.0 *)
  ra_atr_k : Q;                 (* atr_k, default 1.0 *)
  rr_floor : Q;                 (* default 0.5 *)
  rr_ceiling : Q;               (* default 10.0 *)
  vol_weight : Q;               (* default 1.0 *)
  atr_weight : Q;               (* default 1.0 *)
  funding_weight : Q            (* default 0.5 *)
}.



(** [_safe_get(d, path, default)], the path already split at the dots. *)
Fixpoint _safe_get (cur : pyval) (parts : list string) (default : pyval) : pyval :=
  match parts with
  | nil => cur
  | p :: r =>
      match cur with
      | PDict items =>
          match dict_lookup items p with
          | Some v => _safe_get v r default
          | None => default
          end
      | _ => default
      end
  end.

Fixpoint map_lookup (m : list (string * Q)) (k : string) : option Q :=
  match m with
  | nil => None
  | (k', v) :: r => if String.eqb k' k then Some v else map_lookup r k
  end.

(** [self.rr_map.get(vol_regime, self.rr_map.get("normal", 2.0))]:
    the keys are strings; a list or a dict cannot be hashed. *)
Definition base_rr_of (m : list (string * Q)) (vol_regime : pyval) : result Q :=
  let normal := match map_lookup m "normal" with Some v => v | None => 2 end in
  match vol_regime with
  | PStr s => Ok (match map_lookup m s with Some v => v | None => normal end)
  | PList _ | PDict _ => Raise TypeError
  | _ => Ok normal
  end.

Definition _compute_rr (self : RiskAwarePolicyV1) (snapshot : SnapshotV3) : result Q :=
  let vol_regime :=
    _safe_get (to_dict snapshot) ("ltf" :: "price" :: "volatility_regime" :: nil) PNone in
  let* base_rr := base_rr_of (rr_map self) vol_regime in
  let atr_pct :=
    or_else (_safe_get (to_dict snapshot) ("ltf" :: "price" :: "atr_pct" :: nil) (PFloat 0))
      (PFloat 0) in
  let* a := as_number atr_pct in
  let atr_term := 1 + atr_weight self * (a * 100) in
  let funding_z :=
    or_else (_safe_get (to_dict snapshot) ("context" :: "funding_zscore" :: nil) (PFloat 0))
      (PFloat 0) in
  let* fz := py_float funding_z in
  let funding_adj := 1 - funding_weight self * fz in
  let rr := base_rr * (1 * vol_weight self) * atr_term * funding_adj in
  Ok (max2 (rr_floor self) (min2 (rr_ceiling self) rr)).

Definition risk_aware_decide (self : RiskAwarePolicyV1) (snapshot : SnapshotV3)
  : result TradeDecision :=
  let data := to_dict snapshot in
  let* entry0 := py_float (_safe_get data ("ltf" :: "price" :: "close" :: nil) (PFloat 0)) in
  let entry_price := if Qeq_bool entry0 0 then 1 else entry0 in
  let* atr_pct :=
    py_float (or_else (_safe_get data ("ltf" :: "price" :: "atr_pct" :: nil) (PFloat 0))
                (PFloat 0)) in
  let sl_distance :=
    if (negb (Qeq_bool atr_pct 0) && Qltb 0 atr_pct)%bool
    then max2 (ra_atr_k self * atr_pct * entry_price) (1 # 100000000)
    else max2 ((1 # 1000) * entry_price) (1 # 100000000) in
  let* rr := _compute_rr self snapshot in
  let* h1 := get_in (htf snapshot) "1h" (PDict nil) in
  let htf1 := or_else h1 (PDict nil) in
  let* trend_raw := get_in htf1 "trend" PNone in
  let* trend := lower_of (or_else trend_raw (PStr "unknown")) in
  let long := String.eqb trend "up" in
  let sl_price := if long then entry_price - sl_distance else entry_price + sl_distance in
  let tp_price := if long then entry_price + rr * sl_distance
                  else entry_price - rr * sl_distance in
  let risk_unit0 := fabs (entry_price - sl_price) in
  let risk_unit := if negb (Qltb 0 risk_unit0)
                   then max2 (1 # 100000000) (fabs entry_price * (1 # 1000000))
                   else risk_unit0 in
  post_init (mkTradeDecision (if long then 1 else 0) (if long then "LONG" else "SHORT")
               entry_price sl_price tp_price rr risk_unit (Some 1)
               (snapshot_time_utc snapshot)).

#[export] Instance RiskAwarePolicyV1_policy : PolicyInterface RiskAwarePolicyV1 := {
  decide := risk_aware_decide
}.


End RiskAwarePolicy.

(** ** trade_ai/infrastructure/market/snapshot_builder_v1.py: [_atr] *)

Module BuilderAtr.

Import SnapshotBuilderV1.






End BuilderAtr.

(** * Properties *)

(** ** Comparisons and rounding *)

Section Numeric.

Lemma Qltb_true (x y : Q) : Qltb x y = true <-> x < y.
Proof. unfold Qltb, Qlt. apply Z.ltb_lt. Qed.

Lemma Qltb_false (x y : Q) : Qltb x y = false <-> y <= x.
Proof. unfold Qltb, Qle. rewrite Z.ltb_ge. reflexivity. Qed.

Lemma Qleb_true (x y : Q) : Qleb x y = true <-> x <= y.
Proof. unfold Qleb, Qle. apply Z.leb_le. Qed.

Lemma Qleb_false (x y : Q) : Qleb x y = false <-> y < x.
Proof. unfold Qleb, Qlt. rewrite Z.leb_gt. reflexivity. Qed.

Lemma max2_ge_l (a b : Q) : a <= max2 a b.
Proof.
  unfold max2. destruct (Qltb a b) eqn:E.
  - apply Qltb_true in E. lra.
  - lra.
Qed.

Lemma max2_ge_r (a b : Q) : b <= max2 a b.
Proof.
  unfold max2. destruct (Qltb a b) eqn:E.
  - lra.
  - apply Qltb_false in E. exact E.
Qed.

Lemma min2_le_l (a b : Q) : min2 a b <= a.
Proof.
  unfold min2. destruct (Qltb b a) eqn:E.
  - apply Qltb_true in E. lra.
  - lra.
Qed.

Lemma min2_le_r (a b : Q) : min2 a b <= b.
Proof.
  unfold min2. destruct (Qltb b a) eqn:E.
  - lra.
  - apply Qltb_false in E. exact E.
Qed.


Lemma truediv_ok (a b q : Q) : truediv a b = Ok q -> ~ b == 0 /\ q = a / b.
Proof.
  unfold truediv. destruct (Qeq_bool b 0) eqn:E; intro H; [discriminate|].
  inversion H; subst. split; [|reflexivity].
  intro Hb. apply Qeq_bool_neq in E. contradiction.
Qed.


End Numeric.

(** ** Risk engine: step rounding *)

Section RiskEngineSteps.

Import RiskEngineV1 Decision.

Variable step : Q.
Hypothesis step_pos : 0 < step.








End RiskEngineSteps.

(** ** Risk engine: accepted plans *)

Section RiskEnginePlans.

Import RiskEngineV1 Decision.


End RiskEnginePlans.

Section RiskEngineClaims.

Import RiskEngineV1 Decision.




End RiskEngineClaims.

Section RiskEngineScenarios.

Import RiskEngineV1 Decision.



(** C7: equity 100, free 100, risk 0.25 percent, entry 30000, stop 29970,
    no quantity step or minimum quantity, minimum notional 5, margin
    utilization 0.3, default leverage 3 and maximum leverage 10. The
    notional is 250, the margin at leverage 3 exceeds the limit of 30,
    the needed leverage is ceil(250/30) = 9, and the plan is accepted
    with leverage 9 and a risk of 0.25 USDT. *)
Theorem build_plan_raises_leverage_to_9 (conf : option Q) (tp rr_ : Q) (t : Z) :
  Qltb (match conf with Some c => c | None => 1 end) (55 # 100) = false ->
  exists plan q n r,
    build_plan default_RiskConfig (mkAccountState 100 100)
      (mkMarketConstraints 5 None None) (decision_30000 conf tp rr_ t) = Ok plan /\
    ok plan = true /\ reason plan = r_ok /\
    leverage plan = Some 9%Z /\
    qty plan = Some q /\ q == 1 / 120 /\
    notional_usdt plan = Some n /\ n == 250 /\
    risk_usdt plan = Some r /\ r == 25 # 100 /\
    30 < n / 3 /\ n / 9 <= 30 /\ Qceiling (n / 30) = 9%Z /\
    (9 <= max_leverage default_RiskConfig)%Z.
Proof.
  intro Hconf.
  unfold build_plan. cbn [confidence decision_30000 min_confidence default_RiskConfig].
  rewrite Hconf.
  eexists. exists (2500 # 300000), (75000000 # 300000), (75000 # 300000).
  split; [vm_compute; reflexivity|].
  repeat split; try reflexivity; try (vm_compute; congruence).
Qed.

Lemma build_plan_raises_leverage_to_9_witness :
  exists plan q n r,
    build_plan default_RiskConfig (mkAccountState 100 100)
      (mkMarketConstraints 5 None None) (decision_30000 None 30060 2 0) = Ok plan /\
    ok plan = true /\ reason plan = r_ok /\
    leverage plan = Some 9%Z /\
    qty plan = Some q /\ q == 1 / 120 /\
    notional_usdt plan = Some n /\ n == 250 /\
    risk_usdt plan = Some r /\ r == 25 # 100 /\
    30 < n / 3 /\ n / 9 <= 30 /\ Qceiling (n / 30) = 9%Z /\
    (9 <= max_leverage default_RiskConfig)%Z.
Proof.
  apply (build_plan_raises_leverage_to_9 None 30060 2 0). reflexivity.
Defined.

End RiskEngineScenarios.

(** ** Snapshots: admission *)

Section SnapshotAdmission.

Import Snapshot SnapshotRepo Observer.

Lemma is_forbidden_In (k : string) : In k _forbidden_keys -> is_forbidden k = true.
Proof.
  intro Hk. unfold is_forbidden. apply existsb_exists.
  exists k. split; [exact Hk | apply String.eqb_refl].
Qed.

Lemma keys_overlap_In (items : list (string * pyval)) (k : string) :
  In k _forbidden_keys -> In k (keys items) -> keys_overlap items = true.
Proof.
  intros Hf Hk. unfold keys_overlap. apply existsb_exists.
  exists k. split; [exact Hk | apply is_forbidden_In; exact Hf].
Qed.

(** Every key that the code forbids is one that the specification
    forbids. *)
Lemma is_forbidden_spec_forbidden (k : string) :
  is_forbidden k = true -> spec_forbidden k = true.
Proof.
  unfold is_forbidden. intro H. apply existsb_exists in H.
  destruct H as (x & Hin & Hx). apply String.eqb_eq in Hx. subst x.
  cbn in Hin.
  repeat (destruct Hin as [<-|Hin]; [reflexivity|]). contradiction.
Qed.

(** C5 (amended): a dict with one of the twelve keys
    decision, execution_state, reward_state, risk_unit, pnl, pnl_raw,
    pnl_r, exit_price, exit_time_utc, tp_price, sl_price, rr among its
    top-level keys is refused by [from_dict] with a validation error,
    and [create_snapshot] raises the same error and leaves the
    repository as it was: no record is stored. *)
Theorem forbidden_key_rejected
    (R : Type) (port : SnapshotRepositoryPort R) (r : R)
    (items : list (string * pyval)) (k : string) (u u' : Z) :
  In k _forbidden_keys -> In k (keys items) ->
  from_dict (PDict items) u =
    Raise (SnapshotValidationError "Forbidden fields in snapshot") /\
  create_snapshot r (PDict items) u u' =
    (Raise (SnapshotValidationError "Forbidden fields in snapshot"), r).
Proof.
  intros Hf Hk.
  assert (Hfd : from_dict (PDict items) u =
                Raise (SnapshotValidationError "Forbidden fields in snapshot")).
  { unfold from_dict. rewrite (keys_overlap_In items k Hf Hk). reflexivity. }
  split; [exact Hfd|].
  unfold create_snapshot. rewrite Hfd. reflexivity.
Qed.

Lemma forbidden_key_rejected_witness :
  from_dict (PDict (("schema_version", PStr "v3") :: ("decision", PDict nil) :: nil)) 7 =
    Raise (SnapshotValidationError "Forbidden fields in snapshot") /\
  create_snapshot (mkRepo ∅)
    (PDict (("schema_version", PStr "v3") :: ("decision", PDict nil) :: nil)) 7 8 =
    (Raise (SnapshotValidationError "Forbidden fields in snapshot"), mkRepo ∅).
Proof.
  apply (forbidden_key_rejected SnapshotRepoFSJson _ (mkRepo ∅)
           (("schema_version", PStr "v3") :: ("decision", PDict nil) :: nil)
           "decision" 7 8).
  - simpl. left. reflexivity.
  - simpl. right. left. reflexivity.
Defined.

(** C5 as stated fails: [pnl_usdt] is a PnL field, yet a dict carrying
    it is accepted, and the snapshot is stored. *)
Lemma pnl_usdt_key_accepted : ~ forbidden_keys_as_specified.
Proof.
  intro Hall.
  destruct (Hall (match raw_with_pnl_usdt with PDict items => items | _ => nil end)
              "pnl_usdt" 0%Z) as (msg & Hmsg).
  - reflexivity.
  - cbn. tauto.
  - vm_compute in Hmsg. discriminate.
Qed.

(** The same dict goes through [create_snapshot] and lands in the store. *)
Lemma pnl_usdt_snapshot_stored :
  exists s r,
    create_snapshot (mkRepo ∅) raw_with_pnl_usdt 0 1 = (Ok s, r) /\
    files r !! snapshot_id s = Some (to_dict s).
Proof.
  destruct (from_dict raw_with_pnl_usdt 0) as [s|] eqn:E; [|vm_compute in E; discriminate].
  exists s, (mkRepo (<[snapshot_id s := to_dict s]> ∅)). split.
  - unfold create_snapshot. rewrite E. cbn [save SnapshotRepoFSJson_port].
    unfold fs_save. cbn [files]. rewrite lookup_empty. reflexivity.
  - cbn. apply lookup_insert_eq.
Qed.

End SnapshotAdmission.

(** ** Snapshots: what [from_dict] returns, and reading back a stored one *)

Section SnapshotRoundTrip.

Import Snapshot SnapshotRepo Observer.

Lemma append_nonempty (s : string) (c : ascii) (r : string) : s ++ String c r <> "".
Proof. destruct s; simpl; discriminate. Qed.

Lemma uuid_str_nonempty (u : Z) : uuid_str u <> "".
Proof.
  unfold uuid_str.
  match goal with
  | |- ?a ++ "-" ++ ?b <> _ => change (a ++ String "-"%char b <> "")
  end.
  apply append_nonempty.
Qed.

Lemma string_of_uint_nonempty (d : Decimal.uint) :
  d <> Decimal.Nil -> NilZero.string_of_uint d <> "".
Proof. destruct d; simpl; intro H; congruence. Qed.

Lemma str_of_Z_nonempty (z : Z) : str_of_Z z <> "".
Proof.
  unfold str_of_Z. destruct z as [|p|p]; simpl.
  - discriminate.
  - apply string_of_uint_nonempty, DecimalPos.Unsigned.to_uint_nonnil.
  - discriminate.
Qed.

Lemma py_str_truthy_nonempty (v : pyval) : truthy v = true -> py_str v <> "".
Proof.
  destruct v as [|b|z|q|s|l|items]; simpl; intro H; try discriminate.
  - destruct b; discriminate.
  - apply str_of_Z_nonempty.
  - destruct (str_of_Z (Qnum q)); simpl; discriminate.
  - apply negb_true_iff in H. intro Hs. subst s. discriminate.
Qed.

(** Truncation toward zero of a rational. *)
Lemma trunc_mono (a b : Q) :
  a <= b ->
  (Z.quot (Qnum a) (Zpos (Qden a)) <= Z.quot (Qnum b) (Zpos (Qden b)))%Z.
Proof.
  destruct a as [n1 d1], b as [n2 d2]. unfold Qle. simpl. intro H.
  rewrite <- (Z.quot_mul_cancel_r n1 (Zpos d1) (Zpos d2)) by lia.
  rewrite <- (Z.quot_mul_cancel_r n2 (Zpos d2) (Zpos d1)) by lia.
  rewrite (Z.mul_comm (Zpos d2) (Zpos d1)).
  apply Z.quot_le_mono; lia.
Qed.

Lemma py_int_as_number (v : pyval) (q : Q) (z : Z) :
  as_number v = Ok q -> py_int v = Ok z -> z = Z.quot (Qnum q) (Zpos (Qden q)).
Proof.
  destruct v as [|b|n|f|s|l|items]; simpl; intros Hq Hz; try discriminate;
    inversion Hq; inversion Hz; subst; simpl.
  - destruct b; reflexivity.
  - rewrite Z.quot_1_r. reflexivity.
  - reflexivity.
Qed.

Lemma from_dict_wf (data : pyval) (u : Z) (s : SnapshotV3) :
  from_dict data u = Ok s -> wf_snapshot s.
Proof.
  unfold from_dict. destruct data as [| | | | | |items]; try discriminate.
  destruct (keys_overlap items); [discriminate|].
  destruct (negb _); [discriminate|].
  set (sid := if truthy (dict_get items "snapshot_id") then _ else _).
  assert (Hsid : py_str sid <> "").
  { subst sid. destruct (truthy (dict_get items "snapshot_id")) eqn:E.
    - apply py_str_truthy_nonempty. exact E.
    - simpl. apply uuid_str_nonempty. }
  set (st := dict_get items "snapshot_time_utc").
  set (ot := dict_get items "observer_time_utc").
  assert (Hcore :
    (let* a := as_number st in
     let* b := as_number ot in
     if Qltb b a then
       Raise (SnapshotValidationError "snapshot_time_utc must be <= observer_time_utc")
     else
       match dict_get items "ltf" with
       | PDict _ =>
           let* sti := py_int st in
           let* oti := py_int ot in
           Ok (mkSnapshotV3 "v3" (py_str sid) sti
                 (py_str (dict_get_default items "symbol" (PStr ""))) oti
                 (dict_get items "ltf")
                 (dict_get_default items "htf" (PDict nil))
                 (dict_get_default items "context" (PDict nil)))
       | _ => Raise (SnapshotValidationError "ltf must be dict")
       end) = Ok s -> wf_snapshot s).
  { destruct (as_number st) as [a|] eqn:Ea; [|discriminate].
    destruct (as_number ot) as [b|] eqn:Eb; [|discriminate].
    cbn [bind]. destruct (Qltb b a) eqn:Eab; [discriminate|].
    apply Qltb_false in Eab.
    destruct (dict_get items "ltf") as [| | | | | |litems] eqn:El; try discriminate.
    destruct (py_int st) as [sti|] eqn:Esti; [|discriminate].
    destruct (py_int ot) as [oti|] eqn:Eoti; [|discriminate].
    cbn [bind]. intro H. inversion H; subst s; clear H.
    unfold wf_snapshot. cbn.
    repeat split; try assumption.
    - rewrite (py_int_as_number st a sti Ea Esti).
      rewrite (py_int_as_number ot b oti Eb Eoti).
      apply trunc_mono. exact Eab.
    - exists litems. reflexivity. }
  destruct st, ot; try discriminate; exact Hcore.
Qed.

Lemma from_dict_to_dict (s : SnapshotV3) (u : Z) :
  wf_snapshot s -> from_dict (to_dict s) u = Ok s.
Proof.
  destruct s as [sv sid st sym ot l h c].
  unfold wf_snapshot. cbn. intros (Hsv & Hid & Ht & (litems & Hl)). subst sv l.
  unfold from_dict, to_dict. cbn.
  assert (Hn : negb (String.eqb sid "") = true).
  { apply negb_true_iff. apply String.eqb_neq. exact Hid. }
  rewrite Hn. cbn.
  assert (Hlt : Qltb (inject_Z ot) (inject_Z st) = false).
  { apply Qltb_false. rewrite <- Zle_Qle. exact Ht. }
  rewrite Hlt. reflexivity.
Qed.

End SnapshotRoundTrip.

(** ** Snapshots: write-once storage *)

Section SnapshotStore.

Import Snapshot SnapshotRepo Observer.







End SnapshotStore.

(** ** Trade aggregate: CLOSED is terminal, rewards need CLOSED *)

Section AggregateLifecycle.

Import Decision Execution Aggregate.
Import RewardEntity(RewardState).

Lemma attach_execution_closed (self : TradeAggregate) (e : ExecutionState) :
  is_closed self ->
  attach_execution self e =
    (Raise (TradeAggregateError "execution already closed"), self).
Proof.
  unfold is_closed, attach_execution. intro H. rewrite H. reflexivity.
Qed.

Lemma attach_reward_not_closed (self : TradeAggregate) (r : RewardState) :
  ~ is_closed self ->
  attach_reward self r =
    (Raise (TradeAggregateError "cannot attach reward unless trade is CLOSED"), self).
Proof.
  unfold is_closed, attach_reward. intro H.
  destruct (String.eqb_spec (status (execution_state self)) "CLOSED") as [E|E].
  - contradiction.
  - reflexivity.
Qed.

Lemma attach_reward_ok (self self' : TradeAggregate) (r : RewardState) :
  attach_reward self r = (Ok tt, self') ->
  is_closed self /\ self' = with_reward self (Some r).
Proof.
  unfold is_closed, attach_reward.
  destruct (String.eqb_spec (status (execution_state self)) "CLOSED") as [E|E];
    cbn; intro H; inversion H.
  split; [exact E | reflexivity].
Qed.

Lemma step_keeps_closed (self : TradeAggregate) (c : command) :
  is_closed self -> is_closed (snd (step self c)).
Proof.
  intro H. destruct c as [e|r]; cbn [step].
  - rewrite (attach_execution_closed self e H). exact H.
  - unfold attach_reward, is_closed in *. rewrite H. exact H.
Qed.

Lemma step_keeps_reward_invariant (self : TradeAggregate) (c : command) :
  reward_only_when_closed self -> reward_only_when_closed (snd (step self c)).
Proof.
  intro Hinv.
  destruct (String.eqb_spec (status (execution_state self)) "CLOSED") as [E|E].
  - right. apply step_keeps_closed. exact E.
  - destruct Hinv as [Hnone|Hc]; [|contradiction].
    destruct c as [e|r]; cbn [step].
    + left. unfold attach_execution.
      destruct (String.eqb_spec (status (execution_state self)) "CLOSED");
        [contradiction|].
      destruct (String.eqb (status e) "OPEN"); cbn; exact Hnone.
    + rewrite (attach_reward_not_closed self r E). left. exact Hnone.
Qed.

Lemma run_keeps_reward_invariant (cs : list command) (self : TradeAggregate) :
  reward_only_when_closed self -> reward_only_when_closed (run self cs).
Proof.
  revert self. induction cs as [|c cs IH]; intros self H; cbn.
  - exact H.
  - apply IH. apply step_keeps_reward_invariant. exact H.
Qed.

Lemma run_keeps_closed (cs : list command) (self : TradeAggregate) :
  is_closed self -> is_closed (run self cs).
Proof.
  revert self. induction cs as [|c cs IH]; intros self H; cbn.
  - exact H.
  - apply IH. apply step_keeps_closed. exact H.
Qed.

(** C3: on a CLOSED aggregate [attach_execution] raises and the
    aggregate is unchanged, and no later command reopens it;
    [attach_reward] raises (aggregate unchanged) unless the status is
    CLOSED, it succeeds only on a CLOSED aggregate, and along every
    command sequence from [create_open] a reward is present only once
    the trade is CLOSED. *)
Theorem closed_terminal_reward_after_close
    (self : TradeAggregate) (e : ExecutionState) (r : RewardState) :
  (is_closed self ->
     attach_execution self e =
       (Raise (TradeAggregateError "execution already closed"), self) /\
     forall cs, is_closed (run self cs)) /\
  (~ is_closed self ->
     attach_reward self r =
       (Raise (TradeAggregateError "cannot attach reward unless trade is CLOSED"), self)) /\
  (forall self', attach_reward self r = (Ok tt, self') ->
     is_closed self /\ is_closed self' /\ reward_state self' = Some r) /\
  (forall tid sym sid t d info cs,
     reward_only_when_closed (run (create_open tid sym sid t d info) cs)).
Proof.
  repeat split.
  - apply attach_execution_closed. assumption.
  - intro cs. apply run_keeps_closed. assumption.
  - apply attach_reward_not_closed.
  - apply attach_reward_ok in H. tauto.
  - apply attach_reward_ok in H. destruct H as [Hc ->]. exact Hc.
  - apply attach_reward_ok in H. destruct H as [Hc ->]. reflexivity.
  - intros. apply run_keeps_reward_invariant. left. reflexivity.
Qed.

Lemma closed_terminal_reward_after_close_witness :
  attach_execution trade_closed execution_closing =
    (Raise (TradeAggregateError "execution already closed"), trade_closed) /\
  attach_reward trade_opened reward_of_trade =
    (Raise (TradeAggregateError "cannot attach reward unless trade is CLOSED"),
     trade_opened).
Proof.
  split.
  - apply (proj1 (closed_terminal_reward_after_close
                    trade_closed execution_closing reward_of_trade)).
    reflexivity.
  - apply (proj1 (proj2 (closed_terminal_reward_after_close
                           trade_opened execution_closing reward_of_trade))).
    unfold is_closed. simpl. discriminate.
Defined.

End AggregateLifecycle.

(** ** MFE and MAE over an OHLC window *)

Section Excursions.

Import MfeMae.

Lemma fold_max2_spec (r : list Q) (x : Q) :
  In (fold_left max2 r x) (x :: r) /\
  forall y, In y (x :: r) -> y <= fold_left max2 r x.
Proof.
  revert x. induction r as [|a r IH]; intro x; cbn [fold_left].
  - split; [left; reflexivity|]. intros y [<-|[]]. apply Qle_refl.
  - destruct (IH (max2 x a)) as [Hin Hub]. split.
    + destruct Hin as [Hm|Hm].
      * rewrite <- Hm. unfold max2. destruct (Qltb x a);
          [right; left; reflexivity | left; reflexivity].
      * right. right. exact Hm.
    + intros y Hy.
      assert (Hxa : max2 x a <= fold_left max2 r (max2 x a))
        by (apply Hub; left; reflexivity).
      destruct Hy as [<-|[<-|Hy]].
      * pose proof (max2_ge_l x a). lra.
      * pose proof (max2_ge_r x a). lra.
      * apply Hub. right. exact Hy.
Qed.

Lemma fold_min2_spec (r : list Q) (x : Q) :
  In (fold_left min2 r x) (x :: r) /\
  forall y, In y (x :: r) -> fold_left min2 r x <= y.
Proof.
  revert x. induction r as [|a r IH]; intro x; cbn [fold_left].
  - split; [left; reflexivity|]. intros y [<-|[]]. apply Qle_refl.
  - destruct (IH (min2 x a)) as [Hin Hlb]. split.
    + destruct Hin as [Hm|Hm].
      * rewrite <- Hm. unfold min2. destruct (Qltb a x);
          [right; left; reflexivity | left; reflexivity].
      * right. right. exact Hm.
    + intros y Hy.
      assert (Hxa : fold_left min2 r (min2 x a) <= min2 x a)
        by (apply Hlb; left; reflexivity).
      destruct Hy as [<-|[<-|Hy]].
      * pose proof (min2_le_l x a). lra.
      * pose proof (min2_le_r x a). lra.
      * apply Hlb. right. exact Hy.
Qed.

Lemma py_max_is_max (xs : list Q) :
  xs <> nil -> exists m, py_max xs = Ok m /\ is_max_of m xs.
Proof.
  destruct xs as [|x r]; [congruence|]. intros _.
  exists (fold_left max2 r x). split; [reflexivity|].
  destruct (fold_max2_spec r x) as [Hin Hub]. split; [|exact Hub].
  exists (fold_left max2 r x). split; [exact Hin | reflexivity].
Qed.

Lemma py_min_is_min (xs : list Q) :
  xs <> nil -> exists m, py_min xs = Ok m /\ is_min_of m xs.
Proof.
  destruct xs as [|x r]; [congruence|]. intros _.
  exists (fold_left min2 r x). split; [reflexivity|].
  destruct (fold_min2_spec r x) as [Hin Hlb]. split; [|exact Hlb].
  exists (fold_left min2 r x). split; [exact Hin | reflexivity].
Qed.

Lemma map_nonnil {A B : Type} (f : A -> B) (l : list A) : l <> nil -> map f l <> nil.
Proof. destruct l; [congruence | discriminate]. Qed.

(** C4 (amended): on a non-empty window, for LONG the MFE is the
    maximum of (high - entry), non-negative as soon as one bar's high
    reaches the entry; for SHORT the MFE is the maximum of
    (entry - low), non-negative as soon as one bar's low reaches the
    entry, and the MAE is the negated minimum of (entry - high), which
    is non-negative and equal to |min(entry - high)| as soon as one
    bar's high reaches the entry. *)
Theorem mfe_mae_excursions (e : Q) (bars : list bar) :
  bars <> nil ->
  (exists mfe mae,
     calculate_mfe_mae_from_ohlc e "LONG" bars = Ok (mfe, mae) /\
     is_max_of mfe (map (fun h => h - e) (map (bar_high e) bars)) /\
     ((exists b, In b bars /\ e <= bar_high e b) -> 0 <= mfe)) /\
  (exists mfe mae,
     calculate_mfe_mae_from_ohlc e "SHORT" bars = Ok (mfe, mae) /\
     is_max_of mfe (map (fun l => e - l) (map (bar_low e) bars)) /\
     (exists m, is_min_of m (map (fun h => e - h) (map (bar_high e) bars)) /\
                mae == - m) /\
     ((exists b, In b bars /\ bar_low e b <= e) -> 0 <= mfe) /\
     ((exists b, In b bars /\ e <= bar_high e b) ->
        0 <= mae /\
        exists m, is_min_of m (map (fun h => e - h) (map (bar_high e) bars)) /\
                  mae == Qabs m)).
Proof.
  intro Hne.
  set (highs := map (bar_high e) bars).
  set (lows := map (bar_low e) bars).
  assert (Hh : highs <> nil) by (apply map_nonnil; exact Hne).
  assert (Hl : lows <> nil) by (apply map_nonnil; exact Hne).
  destruct (py_max_is_max (map (fun h => h - e) highs)) as (M1 & EM1 & HM1);
    [apply map_nonnil; exact Hh|].
  destruct (py_min_is_min (map (fun l => l - e) lows)) as (m1 & Em1 & Hm1);
    [apply map_nonnil; exact Hl|].
  destruct (py_max_is_max (map (fun l => e - l) lows)) as (M2 & EM2 & HM2);
    [apply map_nonnil; exact Hl|].
  destruct (py_min_is_min (map (fun h => e - h) highs)) as (m2 & Em2 & Hm2);
    [apply map_nonnil; exact Hh|].
  assert (Hcalc : forall d,
    calculate_mfe_mae_from_ohlc e d bars =
    if String.eqb (upper d) "LONG" then
      let* mfe := py_max (map (fun h => h - e) highs) in
      let* mae := py_min (map (fun l => l - e) lows) in Ok (mfe, mae)
    else
      let* mfe := py_max (map (fun l => e - l) lows) in
      let* mae := py_min (map (fun h => e - h) highs) in Ok (mfe, - mae)).
  { intro d. unfold calculate_mfe_mae_from_ohlc.
    destruct bars; [congruence | reflexivity]. }
  split.
  - exists M1, m1. split; [|split].
    + rewrite Hcalc. cbn [upper String.eqb]. simpl. rewrite EM1, Em1. reflexivity.
    + exact HM1.
    + intros (b & Hb & Hge). destruct HM1 as [_ Hub].
      assert (Hin : In (bar_high e b - e) (map (fun h => h - e) highs)).
      { apply (in_map (fun h => h - e)). apply in_map. exact Hb. }
      specialize (Hub _ Hin). lra.
  - exists M2, (- m2). split; [|split; [|split; [|split]]].
    + rewrite Hcalc. simpl. rewrite EM2, Em2. reflexivity.
    + exact HM2.
    + exists m2. split; [exact Hm2 | reflexivity].
    + intros (b & Hb & Hle). destruct HM2 as [_ Hub].
      assert (Hin : In (e - bar_low e b) (map (fun l => e - l) lows)).
      { apply (in_map (fun l => e - l)). apply in_map. exact Hb. }
      specialize (Hub _ Hin). lra.
    + intros (b & Hb & Hge).
      assert (Hin : In (e - bar_high e b) (map (fun h => e - h) highs)).
      { apply (in_map (fun h => e - h)). apply in_map. exact Hb. }
      pose proof (proj2 Hm2 _ Hin) as Hlb.
      assert (Hneg : m2 <= 0) by lra.
      split; [lra|]. exists m2. split; [exact Hm2|].
      rewrite (Qabs_neg m2 Hneg). reflexivity.
Qed.

Lemma mfe_mae_excursions_witness :
  exists mfe mae,
    calculate_mfe_mae_from_ohlc 100 "SHORT"
      (mkBar (Some 103) (Some 98) :: mkBar (Some 101) (Some 94) :: nil) = Ok (mfe, mae) /\
    mfe == 6 /\ mae == 3.
Proof.
  destruct (mfe_mae_excursions 100
              (mkBar (Some 103) (Some 98) :: mkBar (Some 101) (Some 94) :: nil))
    as [_ (mfe & mae & Hc & _)].
  - discriminate.
  - exists mfe, mae. split; [exact Hc|].
    vm_compute in Hc. inversion Hc. split; reflexivity.
Defined.

(** C4 as stated fails: for a LONG entered at 100 and a window whose
    only bar ranges from 90 to 95, the computed MFE is -5 and the
    computed MAE is -10, both negative. *)
Lemma mfe_negative_below_entry : ~ mfe_mae_as_specified.
Proof.
  intro Hall.
  destruct (Hall 100 (mkBar (Some 95) (Some 90) :: nil)) as [Hlong _];
    [discriminate|].
  destruct Hlong as (mfe & mae & Hc & _ & Hmfe & _).
  vm_compute in Hc. inversion Hc; subst mfe mae.
  revert Hmfe. unfold Qle. simpl. lia.
Qed.

End Excursions.

(** ** Model scorer *)

Section Scorer.

Import ModelScorerV1.

Lemma clamp01_bounds (s : Q) : 0 <= clamp01 s /\ clamp01 s <= 1.
Proof.
  unfold clamp01. split; [apply max2_ge_l|].
  unfold max2. destruct (Qltb 0 (min2 1 s)); [apply min2_le_l | lra].
Qed.

Lemma score_without_model (self : ModelScorerV1) (features : list Q) :
  _model self = None ->
  score self features = Ok (mkScoreOutput 1 "none" (model_path self)).
Proof. intro H. unfold score. rewrite H. reflexivity. Qed.

(** With no path configured nothing is loaded. *)
Lemma init_without_path (env : loaders) (mtype : string) :
  _model (init env None mtype) = None.
Proof. reflexivity. Qed.

(** When the file is missing, or every loader raises, no model is left. *)
Lemma load_failure_leaves_no_model (env : loaders) (self : ModelScorerV1) :
  (is_file env (model_path self) = false \/
   (is_ok (xgb_load env (model_path self)) = false /\
    is_ok (lgb_load env (model_path self)) = false /\
    is_ok (joblib_load env (model_path self)) = false)) ->
  _model (_load_best_effort env self) = None.
Proof.
  unfold _load_best_effort. intros [Hf | (H1 & H2 & H3)].
  - rewrite Hf. reflexivity.
  - destruct (negb (is_file env (model_path self))); [reflexivity|].
    unfold try_load.
    destruct (xgb_load env (model_path self)); [discriminate|].
    destruct (lgb_load env (model_path self)); [discriminate|].
    destruct (joblib_load env (model_path self)); [discriminate|].
    repeat match goal with |- context [if ?c then _ else _] => destruct c end;
      reflexivity.
Qed.

(** Whenever [score] returns, the score lies in [0, 1]. *)
Lemma score_in_unit_interval (self : ModelScorerV1) (features : list Q) (out : ScoreOutput) :
  score self features = Ok out -> 0 <= score_value out /\ score_value out <= 1.
Proof.
  unfold score. destruct (_model self) as [m|].
  - destruct (String.eqb (_loaded_type self) "xgb_booster").
    { destruct (predict m features); cbn [bind]; intro H; inversion H; subst.
      apply clamp01_bounds. }
    destruct (String.eqb (_loaded_type self) "lgb_booster").
    { destruct (predict m features); cbn [bind]; intro H; inversion H; subst.
      apply clamp01_bounds. }
    destruct (String.eqb (_loaded_type self) "joblib").
    { destruct (let* proba := predict_proba m features in proba_class1 proba).
      - intro H; inversion H; subst. apply clamp01_bounds.
      - destruct (let* pred := predict m features in first pred).
        + intro H; inversion H; subst. cbn.
          destruct (Qleb (1 # 2) a); split; discriminate.
        + intro H; inversion H; subst. cbn. split; discriminate. }
    intro H; inversion H; subst. cbn. split; discriminate.
  - intro H; inversion H; subst. cbn. split; discriminate.
Qed.

(** A pickled estimator never lets an exception out of [score]. *)
Lemma score_joblib_returns (self : ModelScorerV1) (features : list Q) :
  _loaded_type self = "joblib" -> exists out, score self features = Ok out.
Proof.
  intro Ht. unfold score. destruct (_model self) as [m|]; [|eexists; reflexivity].
  rewrite Ht. cbn.
  destruct (let* proba := predict_proba m features in proba_class1 proba);
    [eexists; reflexivity|].
  destruct (let* pred := predict m features in first pred); eexists; reflexivity.
Qed.

(** C8, at the failing input: an xgboost booster that loaded and whose
    [predict] raises makes [score] raise the same exception instead
    of returning the neutral score. *)
Theorem score_booster_predict_failure :
  _loaded_type scorer_with_booster = "xgb_booster" /\
  score scorer_with_booster (1 :: 2 :: nil) = Raise ValueError.
Proof. split; reflexivity. Qed.

End Scorer.

(** ** Hybrid policy: only the confidence changes *)

Section Hybrid.

Import Decision Snapshot ModelScorerV1 Policies.

(** Replacing the confidence of a valid decision by a value of [0, 1]
    gives a valid decision. *)
Lemma post_init_with_confidence (base : TradeDecision) (c : Q) :
  post_init base = Ok base -> 0 <= c -> c <= 1 ->
  let d := mkTradeDecision (action_type base) (direction base) (entry_price base)
             (sl_price base) (tp_price base) (rr base) (risk_unit base)
             (Some c) (decision_time_utc base) in
  post_init d = Ok d.
Proof.
  intros Hb H0 H1 d. subst d. unfold post_init in *. cbn.
  destruct (negb ((action_type base =? 0)%Z || (action_type base =? 1)%Z));
    [discriminate|].
  destruct (negb (String.eqb (upper (direction base))
                    (if (action_type base =? 1)%Z then "LONG" else "SHORT")));
    [discriminate|].
  destruct (negb (Qltb 0 (risk_unit base))); [discriminate|].
  destruct (negb (isclose (fabs (entry_price base - sl_price base)) (risk_unit base)
                    (1 # 1000000000) (1 # 1000000000000))); [discriminate|].
  destruct (match confidence base with
            | Some c0 => negb (Qleb 0 c0 && Qleb c0 1)
            | None => false
            end); [discriminate|].
  destruct (Qltb (rr base) 0); [discriminate|].
  apply Qleb_true in H0, H1. rewrite H0, H1. reflexivity.
Qed.

Lemma post_init_returns_argument (d d' : TradeDecision) :
  post_init d = Ok d' -> d' = d.
Proof.
  unfold post_init. intro H.
  repeat match type of H with
         | (if ?c then _ else _) = _ => destruct c; [discriminate|]
         end.
  inversion H. reflexivity.
Qed.

(** The rule policy only returns decisions that passed [post_init]. *)
Lemma rule_decide_valid (self : RulePolicyV1) (snapshot : SnapshotV3)
    (base : TradeDecision) :
  rule_decide self snapshot = Ok base -> post_init base = Ok base.
Proof.
  unfold rule_decide. intro H.
  repeat match type of H with
         | bind ?x _ = Ok _ => destruct x; cbn [bind] in H; [|discriminate]
         end.
  pose proof (post_init_returns_argument _ _ H) as E.
  rewrite <- E in H at 1. exact H.
Qed.

(** C10: when the wrapped rule policy returns a decision, the hybrid
    policy returns a decision with the same action type, direction,
    entry, stop, target, rr, risk unit and decision time; its
    confidence is the model score clamped into [0, 1], and when the
    feature mapping or the scoring raises it is the rule decision's
    confidence (1 when that is null), clamped likewise. *)
Theorem hybrid_decide_frame
    (P : Type) (policy : PolicyInterface P)
    (self : HybridPolicyV1 P) (snapshot : SnapshotV3) (base : TradeDecision) :
  decide (rule_policy self) snapshot = Ok base ->
  post_init base = Ok base ->
  exists d c,
    hybrid_decide self snapshot = Ok d /\
    action_type d = action_type base /\ direction d = direction base /\
    entry_price d = entry_price base /\ sl_price d = sl_price base /\
    tp_price d = tp_price base /\ rr d = rr base /\
    risk_unit d = risk_unit base /\
    decision_time_utc d = decision_time_utc base /\
    confidence d = Some c /\ 0 <= c /\ c <= 1 /\
    (forall s, model_score self snapshot = Ok s -> c = max2 0 (min2 1 s)) /\
    ((is_ok (mapper_map self (to_dict snapshot)) = false \/
      is_ok (model_score self snapshot) = false) ->
     c = max2 0 (min2 1 (match confidence base with Some c0 => c0 | None => 1 end))).
Proof.
  intros Hrule Hvalid.
  set (c := max2 0 (min2 1 (raw_confidence self snapshot base))).
  destruct (clamp01_bounds (raw_confidence self snapshot base)) as [H0 H1].
  fold c in H0, H1.
  exists (mkTradeDecision (action_type base) (direction base) (entry_price base)
            (sl_price base) (tp_price base) (rr base) (risk_unit base)
            (Some c) (decision_time_utc base)), c.
  split.
  { unfold hybrid_decide. rewrite Hrule. cbn [bind].
    apply (post_init_with_confidence base c Hvalid H0 H1). }
  cbn. repeat split; try assumption.
  - intros s Hs. subst c. unfold raw_confidence. rewrite Hs. reflexivity.
  - intros Hfail. subst c. unfold raw_confidence.
    assert (Hms : is_ok (model_score self snapshot) = false).
    { destruct Hfail as [Hm|Hm]; [|exact Hm].
      unfold model_score. destruct (mapper_map self (to_dict snapshot));
        [discriminate | reflexivity]. }
    destruct (model_score self snapshot); [discriminate | reflexivity].
Qed.

Lemma hybrid_decide_frame_witness :
  exists base d c,
    rule_decide (mkRulePolicy 2 1) snapshot_uptrend = Ok base /\
    hybrid_decide hybrid_mapper_failing snapshot_uptrend = Ok d /\
    entry_price d = entry_price base /\ sl_price d = sl_price base /\
    confidence d = Some c /\ c == 1.
Proof.
  assert (Hb : exists base,
             decide (rule_policy hybrid_mapper_failing) snapshot_uptrend = Ok base /\
             post_init base = Ok base /\ confidence base = Some 1).
  { eexists. split; [vm_compute; reflexivity|]. split; vm_compute; reflexivity. }
  destruct Hb as (base & Hb1 & Hb2 & Hb3).
  destruct (hybrid_decide_frame RulePolicyV1 _ hybrid_mapper_failing snapshot_uptrend
              base Hb1 Hb2)
    as (d & c & Hd & _ & _ & He & Hs & _ & _ & _ & _ & Hc & _ & _ & _ & Hfall).
  exists base, d, c. repeat split; try assumption.
  rewrite Hfall by (left; reflexivity). rewrite Hb3. reflexivity.
Defined.

End Hybrid.

(** ** Snapshot builder: the id of a built snapshot *)

Section SnapshotId.

Import Text SnapshotBuilderV1.

Lemma length_append (a b : string) :
  String.length (a ++ b) = (String.length a + String.length b)%nat.
Proof. induction a as [|c a IH]; simpl; [reflexivity | rewrite IH; reflexivity]. Qed.

Lemma hex_fixed_length (n : nat) (z : Z) : String.length (hex_fixed n z) = n.
Proof.
  revert z. induction n as [|n IH]; intro z; simpl; [reflexivity|].
  rewrite length_append, IH. simpl. lia.
Qed.

Lemma hexdigest_length (s : string) : String.length (Sha1.hexdigest s) = 40%nat.
Proof.
  unfold Sha1.hexdigest. cbv zeta.
  repeat rewrite length_append. repeat rewrite hex_fixed_length. reflexivity.
Qed.

(** Under the hard lock of the configuration the LTF lasts 300 s. *)
Lemma tf_to_sec_locked (cfg cfg' : SnapshotBuilderConfig) :
  config_post_init cfg = Ok cfg' -> _tf_to_sec (ltf_tf cfg) = Ok 300%Z.
Proof.
  unfold config_post_init.
  destruct (String.eqb_spec (lower (strip (ltf_tf cfg))) "5m") as [E|E];
    [|discriminate].
  intros _. unfold _tf_to_sec. rewrite E. reflexivity.
Qed.

Lemma last_of_nonempty {A : Type} (l : list A) :
  l <> nil -> exists x, List.last (map Some l) None = Some x /\ In x l.
Proof.
  induction l as [|a l IH]; [congruence|]. intros _.
  destruct l as [|b l].
  - exists a. split; [reflexivity | left; reflexivity].
  - destruct IH as (x & Hx & Hin); [discriminate|].
    exists x. split; [exact Hx | right; exact Hin].
Qed.

Lemma removelast_incl {A : Type} (l : list A) (x : A) :
  In x (removelast l) -> In x l.
Proof.
  induction l as [|a l IH]; [intros []|].
  destruct l as [|b l]; [intros []|].
  intros [<-|H]; [left; reflexivity | right; apply IH; exact H].
Qed.

Lemma closed_candles_nonempty (now_ms tf_ms : Z) (l : list candle) :
  l <> nil ->
  closed_candles now_ms tf_ms l <> nil /\
  forall x, In x (closed_candles now_ms tf_ms l) -> In x l.
Proof.
  intro Hne. unfold closed_candles.
  destruct (List.last (map Some l) None) as [x|]; [|split; [exact Hne | tauto]].
  destruct ((now_ms <? ts x + tf_ms)%Z && (2 <=? length l)%nat)%bool eqn:E;
    [|split; [exact Hne | tauto]].
  apply andb_true_iff in E. destruct E as [_ E]. apply Nat.leb_le in E.
  split.
  - destruct l as [|a [|b r]]; simpl in E; try lia. discriminate.
  - intro y. apply removelast_incl.
Qed.

(** C2 (amended): from non-empty LTF candles and a configuration that
    passed its lock, [build] returns a snapshot whose id is the full
    40-character hex SHA-1 of "exchange|symbol|tf|close|v3", where
    close is the snapshot time: the close of the last closed bar. The
    id depends on nothing else. *)
Theorem build_snapshot_id
    (exchange_id : option string) (cfg : SnapshotBuilderConfig)
    (now_utc now_ms : Z) (ltf_ohlcv : list candle) (u : Z) (sym : string) :
  ltf_ohlcv <> nil -> config_post_init cfg = Ok cfg ->
  exists b,
    build exchange_id cfg now_utc now_ms ltf_ohlcv u sym = Ok b /\
    snapshot_id b =
      Sha1.hexdigest
        (snap_key (match exchange_id with Some e => e | None => "unknown" end)
           sym (ltf_tf cfg) (snapshot_time_utc b)) /\
    String.length (snapshot_id b) = 40%nat /\
    observer_time_utc b = now_utc /\
    exists l, In l ltf_ohlcv /\ snapshot_time_utc b = Z.quot (ts l + 300000) 1000.
Proof.
  intros Hne Hcfg. unfold build.
  rewrite (tf_to_sec_locked cfg cfg Hcfg). cbn [bind].
  change (300 * 1000)%Z with 300000%Z.
  destruct (closed_candles_nonempty now_ms 300000 ltf_ohlcv Hne) as [Hc Hincl].
  destruct (last_of_nonempty _ Hc) as (l & Hl & Hin).
  rewrite Hl. eexists. split; [reflexivity|]. cbn.
  split; [reflexivity|]. split; [apply hexdigest_length|]. split; [reflexivity|].
  exists l. split; [apply Hincl; exact Hin | reflexivity].
Qed.

Lemma build_snapshot_id_witness :
  exists b,
    build (Some "binance") default_config 1700000101 1700000101000 bar_1700000100 0
      "BTCUSDT" = Ok b /\
    snapshot_time_utc b = 1700000100%Z /\
    snapshot_id b = Sha1.hexdigest "binance|BTCUSDT|5m|1700000100|v3" /\
    snapshot_id b = "0b88e89760b7f3b015e15a0f412649351820db58".
Proof.
  destruct (build_snapshot_id (Some "binance") default_config 1700000101 1700000101000
              bar_1700000100 0 "BTCUSDT") as (b & Hb & _).
  - discriminate.
  - reflexivity.
  - exists b. split; [exact Hb|].
    vm_compute in Hb. inversion Hb. repeat split; vm_compute; reflexivity.
Defined.

(** C2 as stated fails: the id built for the binance BTCUSDT 5m bar
    closing at 1700000100 has 40 hex characters, not 20. *)
Lemma build_snapshot_id_not_20 : ~ snapshot_id_as_specified.
Proof.
  intro H.
  destruct (H (mkBuilt "0b88e89760b7f3b015e15a0f412649351820db58" 1700000100
                 1700000101 "BTCUSDT")) as [_ Hlen].
  - vm_compute. reflexivity.
  - vm_compute in Hlen. discriminate.
Qed.

End SnapshotId.

(** ** Universe selector: size of the selection *)

Section UniverseSize.

Import UniverseSelectorV3.

Variable rets : Type.
Variable _get_rets : string -> option rets.
Variable _corr : rets -> rets -> option Q.
Variable cfg : UniverseConfigV3.

Lemma greedy_length (rows selected : list row) (excluded : list exclusion) :
  (Z.of_nat (length (fst (greedy rets _get_rets _corr cfg rows selected excluded)))
   <= Z.max (target_symbols cfg) (Z.of_nat (length selected)))%Z.
Proof.
  revert selected excluded. induction rows as [|r rest IH]; intros selected excluded.
  - cbn. lia.
  - cbn [greedy].
    destruct (target_symbols cfg <=? Z.of_nat (length selected))%Z eqn:E.
    + cbn. lia.
    + apply Z.leb_gt in E.
      destruct (has_symbol (symbol r) selected); [apply IH|].
      destruct (_get_rets (symbol r)) as [rs|]; [|apply IH].
      destruct (corr_scan rets _get_rets _corr cfg rs selected nil) as [[|] cw];
        [|apply IH].
      specialize (IH (selected ++ r :: nil)%list excluded).
      rewrite length_app in IH. cbn [length] in IH. lia.
Qed.

Lemma keep_sticky_length (pool : list string) (scored selected : list row) :
  (length (keep_sticky pool scored selected) <= length selected + length pool)%nat.
Proof.
  revert selected. induction pool as [|s pool IH]; intro selected; cbn.
  - lia.
  - destruct (find _ scored).
    + specialize (IH (selected ++ r :: nil)%list). rewrite length_app in IH.
      cbn [length] in IH. lia.
    + specialize (IH selected). lia.
Qed.

Lemma sticky_pool_length (prev : list string) (scored : list row) :
  (Z.of_nat (length (sticky_pool cfg prev scored)) <= Z.max 0 (sticky_keep cfg))%Z.
Proof.
  unfold sticky_pool. destruct (_ && _)%bool; [|cbn; lia].
  rewrite length_firstn. lia.
Qed.

(** What the selection guarantees: at most [target_symbols] symbols, or
    the sticky ones when those are more. *)
Lemma select_length (prev_selected : list string) (scored : list row)
    (excluded : list exclusion) :
  (Z.of_nat (length (fst (select rets _get_rets _corr cfg prev_selected scored excluded)))
   <= Z.max (target_symbols cfg) (Z.max 0 (sticky_keep cfg)))%Z.
Proof.
  unfold select.
  set (prev := map normalise _). set (ranked := sort_desc scored).
  pose proof (greedy_length ranked
                (keep_sticky (sticky_pool cfg prev ranked) ranked nil) excluded) as Hg.
  pose proof (keep_sticky_length (sticky_pool cfg prev ranked) ranked nil) as Hk.
  pose proof (sticky_pool_length prev ranked) as Hp.
  cbn [length] in Hk. lia.
Qed.

End UniverseSize.

Section UniverseScenario.

Import UniverseSelectorV3.

(** C9, at the failing input: with [target_symbols = 1], the default
    [sticky_keep = 2] and two previously selected symbols that are
    scored again, both are prepended and the report selects two
    symbols, one more than the target. *)
Theorem select_sticky_exceeds_target :
  map symbol
    (fst (select (list Q) (fun _ => None) (fun _ _ => None) cfg_target_1
            prev_two scored_three nil)) = "ETHUSDT" :: "SOLUSDT" :: nil /\
  (target_symbols cfg_target_1 <
   Z.of_nat (length (fst (select (list Q) (fun _ => None) (fun _ _ => None) cfg_target_1
                            prev_two scored_three nil))))%Z.
Proof. split; vm_compute; reflexivity. Qed.

End UniverseScenario.

(** * Further properties of the modelled code *)

(** ** Risk engine: rounding to the quantity step *)

Section StepRounding.

Import RiskEngineV1.




End StepRounding.

(** ** Risk engine: what a plan can be, and how much it risks *)

Section RiskEnginePlanFacts.

Import RiskEngineV1 Decision RiskBudget.


(** What the override branch hands back: a rejection, or a quantity
    whose risk is within the multiplied budget. *)
Lemma min_notional_override_inv
    (cfg : RiskConfig) (constraints : MarketConstraints)
    (entry stop_dist risk_budget min_notional margin_limit : Q) (lev : Z)
    (res : RiskPlan + Q * Q * Z) :
  min_notional_override cfg constraints entry stop_dist risk_budget
    min_notional margin_limit lev = Ok res ->
  match res with
  | inl p => exists r, p = reject r /\ r <> r_ok
  | inr (q, n, l) =>
      overrides cfg = true /\ n = q * entry /\
      q * stop_dist <= risk_budget * max_risk_multiplier_on_override cfg
  end.
Proof.
  unfold min_notional_override, overrides. intro H.
  destruct (String.eqb (lower _) "override_with_cap"); cbn [negb] in H.
  2:{ inversion H; subst res. eexists. split; [reflexivity | discriminate]. }
  destruct (truediv min_notional entry) as [q0|]; [|discriminate].
  cbn [bind] in H.
  set (qty2 := bump_min_qty constraints (_ceil_to_step q0 (qty_step constraints))) in H.
  destruct (Qltb (risk_budget * max_risk_multiplier_on_override cfg) (qty2 * stop_dist))
    eqn:Erisk.
  { inversion H; subst res. eexists. split; [reflexivity | discriminate]. }
  apply Qltb_false in Erisk.
  destruct (match max_risk_override_usdt cfg with Some _ => _ | None => _ end).
  { inversion H; subst res. eexists. split; [reflexivity | discriminate]. }
  destruct (Qltb margin_limit (qty2 * entry / inject_Z lev)).
  - destruct (truediv (qty2 * entry) _) as [m|]; [|discriminate].
    cbn [bind] in H. destruct (Qltb margin_limit m).
    + inversion H; subst res. eexists. split; [reflexivity | discriminate].
    + inversion H; subst res. repeat split; try reflexivity; exact Erisk.
  - inversion H; subst res. repeat split; try reflexivity; exact Erisk.
Qed.

(** X2: a plan is either accepted, with reason "ok" and every number
    filled in (the risk being quantity times stop distance, the risk
    percentage that risk over equity times 100), or rejected, with a
    reason other than "ok" and no number at all. *)
Theorem plan_accepted_or_empty
    (cfg : RiskConfig) (account : AccountState) (constraints : MarketConstraints)
    (decision : TradeDecision) (plan : RiskPlan) :
  build_plan cfg account constraints decision = Ok plan ->
  (ok plan = true /\ reason plan = r_ok /\
   exists q l,
     qty plan = Some q /\ leverage plan = Some l /\
     notional_usdt plan = Some (q * entry_price decision) /\
     risk_usdt plan = Some (q * fabs (entry_price decision - sl_price decision)) /\
     risk_pct plan =
       Some (q * fabs (entry_price decision - sl_price decision)
             / equity_usdt account * 100)) \/
  (ok plan = false /\ reason plan <> r_ok /\
   qty plan = None /\ notional_usdt plan = None /\ leverage plan = None /\
   risk_usdt plan = None /\ risk_pct plan = None).
Proof.
  assert (Hrej : forall r, r <> r_ok ->
            ok (reject r) = false /\ reason (reject r) <> r_ok /\
            qty (reject r) = None /\ notional_usdt (reject r) = None /\
            leverage (reject r) = None /\ risk_usdt (reject r) = None /\
            risk_pct (reject r) = None).
  { intros r Hr. cbn. repeat split; try reflexivity. exact Hr. }
  intro H. unfold build_plan in H.
  destruct (Qltb _ (min_confidence cfg));
    [inversion H; right; apply Hrej; discriminate|].
  destruct (negb (Qltb 0 (equity_usdt account) && Qltb 0 (free_usdt account))) eqn:Ebal;
    [inversion H; right; apply Hrej; discriminate|].
  apply negb_false_iff, andb_true_iff in Ebal. destruct Ebal as [Heq _].
  destruct (negb (Qltb 0 _)); [inversion H; right; apply Hrej; discriminate|].
  destruct (negb (Qltb 0 (fabs _))); [inversion H; right; apply Hrej; discriminate|].
  destruct (negb (Qltb 0 (bump_min_qty _ _)));
    [inversion H; right; apply Hrej; discriminate|].
  match type of H with
  | bind ?c _ = _ => destruct c as [qty1|]; [|discriminate]
  end.
  cbn [bind] in H.
  destruct (Qleb _ 0); [inversion H; right; apply Hrej; discriminate|].
  match type of H with
  | bind ?c _ = _ => destruct c as [qty2|]; [|discriminate]
  end.
  cbn [bind] in H.
  destruct (Qltb _ (qty2 * entry_price decision / _));
    [inversion H; right; apply Hrej; discriminate|].
  destruct (negb (Qltb 0 qty2)); [inversion H; right; apply Hrej; discriminate|].
  match type of H with
  | bind ?c _ = _ => destruct c as [[p | [[q n] l]]|] eqn:Efinal; [| |discriminate]
  end; cbn [bind] in H.
  - destruct (Qltb (qty2 * entry_price decision) _); [|discriminate].
    apply min_notional_override_inv in Efinal. destruct Efinal as (r & -> & Hr).
    inversion H. right. apply Hrej. exact Hr.
  - assert (Hn : n = q * entry_price decision).
    { destruct (Qltb (qty2 * entry_price decision) _).
      - apply min_notional_override_inv in Efinal. tauto.
      - inversion Efinal. reflexivity. }
    subst n. rewrite Heq in H. inversion H. left. cbn.
    split; [reflexivity|]. split; [reflexivity|].
    exists q, l. repeat split; reflexivity.
Qed.

Lemma plan_accepted_or_empty_witness :
  exists plan,
    build_plan default_RiskConfig (mkAccountState 100 100)
      (mkMarketConstraints 5 None None) (decision_30000 None 30060 2 0) = Ok plan /\
    ok plan = true /\ reason plan = r_ok.
Proof.
  eexists. split; [vm_compute; reflexivity|].
  destruct (plan_accepted_or_empty default_RiskConfig (mkAccountState 100 100)
              (mkMarketConstraints 5 None None) (decision_30000 None 30060 2 0) _
              eq_refl) as [(Hok & Hr & _) | (Hno & _)].
  - split; assumption.
  - vm_compute in Hno. discriminate.
Defined.





End RiskEnginePlanFacts.

(** ** Snapshots: admission invariant and stability *)

Section SnapshotFacts.

Import Snapshot SnapshotRepo Observer SnapshotStoreInv.

(** X5: a snapshot that [from_dict] returns for a dict with numeric
    timestamps has schema version "v3", a non-empty id, a snapshot time
    not after its observer time and a dict as LTF block; its dump has
    none of the forbidden keys, and reading the dump back gives the
    same snapshot, whatever uuid is drawn. *)
Theorem from_dict_invariant_and_stability (data : pyval) (u : Z) (s : SnapshotV3) :
  times_are_numbers data ->
  from_dict data u = Ok s ->
  schema_version s = "v3" /\ snapshot_id s <> "" /\
  (snapshot_time_utc s <= observer_time_utc s)%Z /\
  (exists items, ltf s = PDict items) /\
  (exists items, to_dict s = PDict items /\ keys_overlap items = false) /\
  forall u', from_dict (to_dict s) u' = Ok s.
Proof.
  intros _ H. pose proof (from_dict_wf data u s H) as Hwf.
  destruct Hwf as (Hsv & Hid & Ht & Hl).
  repeat split; try assumption.
  - eexists. split; reflexivity.
  - intro u'. apply from_dict_to_dict. repeat split; assumption.
Qed.

Lemma from_dict_invariant_and_stability_witness :
  from_dict raw_bar_first 1 = Ok snapshot_bar_first /\
  (snapshot_time_utc snapshot_bar_first <= observer_time_utc snapshot_bar_first)%Z /\
  from_dict (to_dict snapshot_bar_first) 9 = Ok snapshot_bar_first.
Proof.
  assert (Hn : times_are_numbers raw_bar_first).
  { eexists _, _, _. split; [reflexivity|]. split; reflexivity. }
  destruct (from_dict_invariant_and_stability raw_bar_first 1 snapshot_bar_first
              Hn eq_refl) as (_ & _ & Ht & _ & _ & Hrt).
  split; [reflexivity|]. split; [exact Ht | apply Hrt].
Defined.









End SnapshotFacts.

(** ** Trade aggregate: what an execution update changes *)

Section AggregateUpdates.

Import Decision Execution Aggregate ExecutionValidate.
Import RewardEntity(RewardState).

Lemma not_closed_eqb (self : TradeAggregate) :
  ~ is_closed self -> String.eqb (status (execution_state self)) "CLOSED" = false.
Proof. intro H. apply String.eqb_neq. exact H. Qed.

(** X9: on a trade that is not CLOSED, [attach_execution] always
    succeeds; the trade becomes CLOSED exactly when the update's status
    is not "OPEN"; an "OPEN" update leaves status and exit fields as
    they were; fees and funding are replaced by the update's, entry
    time and entry fill are replaced only when the update gives them;
    decision, reward, ids, snapshot references and policy info are
    untouched. *)
Theorem attach_execution_on_open_trade (self : TradeAggregate) (e : ExecutionState) :
  ~ is_closed self ->
  exists self',
    attach_execution self e = (Ok tt, self') /\
    (is_closed self' <-> status e <> "OPEN") /\
    (status e = "OPEN" ->
       status (execution_state self') = status (execution_state self) /\
       exit_time_utc (execution_state self') = exit_time_utc (execution_state self) /\
       exit_fill_price (execution_state self') = exit_fill_price (execution_state self) /\
       exit_type (execution_state self') = exit_type (execution_state self)) /\
    fees_total (execution_state self') = fees_total e /\
    funding_paid (execution_state self') = funding_paid e /\
    entry_time_utc (execution_state self') =
      if_given (entry_time_utc e) (entry_time_utc (execution_state self)) /\
    entry_fill_price (execution_state self') =
      if_given (entry_fill_price e) (entry_fill_price (execution_state self)) /\
    decision self' = decision self /\ reward_state self' = reward_state self /\
    trade_id self' = trade_id self /\ symbol self' = symbol self /\
    entry_snapshot_id self' = entry_snapshot_id self /\
    entry_snapshot_time_utc self' = entry_snapshot_time_utc self /\
    exit_snapshot_id self' = exit_snapshot_id self /\
    exit_snapshot_time_utc self' = exit_snapshot_time_utc self /\
    policy_info self' = policy_info self.
Proof.
  intro Hopen. unfold attach_execution. rewrite (not_closed_eqb self Hopen).
  destruct (String.eqb_spec (status e) "OPEN") as [E|E].
  - eexists. split; [reflexivity|]. cbn. unfold is_closed. cbn.
    repeat split; try reflexivity; try tauto.
  - eexists. split; [reflexivity|]. cbn. unfold is_closed. cbn.
    repeat split; try reflexivity; try tauto.
Qed.

Lemma attach_execution_on_open_trade_witness :
  exists self',
    attach_execution trade_opened execution_closing = (Ok tt, self') /\
    is_closed self' /\ decision self' = decision trade_opened.
Proof.
  destruct (attach_execution_on_open_trade trade_opened execution_closing)
    as (self' & Ha & Hc & _ & _ & _ & _ & _ & Hd & _).
  - unfold is_closed. simpl. discriminate.
  - exists self'. split; [exact Ha|]. split; [|exact Hd].
    apply Hc. simpl. discriminate.
Defined.

(** X10: [attach_execution] does not validate what it closes: after a
    closing update of a trade that was not CLOSED, the stored state
    passes [validate] exactly when an entry time and an entry fill are
    known, from the update or from before, and the update carries an
    exit time and an exit fill. *)
Theorem closing_passes_validate_iff
    (self self' : TradeAggregate) (e : ExecutionState) :
  ~ is_closed self -> status e <> "OPEN" ->
  attach_execution self e = (Ok tt, self') ->
  (validate (execution_state self') = Ok tt <->
   if_given (entry_time_utc e) (entry_time_utc (execution_state self)) <> None /\
   if_given (entry_fill_price e) (entry_fill_price (execution_state self)) <> None /\
   exit_time_utc e <> None /\ exit_fill_price e <> None).
Proof.
  intros Hopen Hst H. unfold attach_execution in H.
  rewrite (not_closed_eqb self Hopen) in H.
  destruct (String.eqb_spec (status e) "OPEN") as [E|E]; [contradiction|].
  inversion H; subst self'; clear H. unfold validate. cbn.
  destruct (if_given (entry_time_utc e) (entry_time_utc (execution_state self)));
  destruct (if_given (entry_fill_price e) (entry_fill_price (execution_state self)));
  destruct (exit_time_utc e); destruct (exit_fill_price e); cbn;
    split; intro Hx; try discriminate; try reflexivity;
    try (repeat split; discriminate);
    try (destruct Hx as (H1 & H2 & H3 & H4); congruence).
Qed.

Lemma closing_passes_validate_iff_witness :
  validate (execution_state trade_closed) = Ok tt.
Proof.
  apply (proj2 (closing_passes_validate_iff trade_opened trade_closed execution_closing
                  ltac:(unfold is_closed; simpl; discriminate)
                  ltac:(simpl; discriminate) eq_refl)).
  repeat split; simpl; discriminate.
Defined.

End AggregateUpdates.

(** ** Reward of a closed trade *)

Section RewardFacts.

Import Decision Execution MfeMae Reward.
Import RewardEntity.

Lemma calculate_mfe_mae_returns (entry_price : Q) (direction : string) (bars : list bar) :
  exists mm, calculate_mfe_mae_from_ohlc entry_price direction bars = Ok mm.
Proof.
  unfold calculate_mfe_mae_from_ohlc. destruct bars as [|b bars].
  - eexists; reflexivity.
  - destruct (String.eqb (upper direction) "LONG"); cbn; eexists; reflexivity.
Qed.

(** X11: [calculate_reward] returns a reward exactly when the execution
    is CLOSED, carries both fills and both times, and the decision's
    risk unit is positive; in every other case it raises. *)
Theorem calculate_reward_returns_iff
    (d : TradeDecision) (e : ExecutionState) (bars : list bar) :
  (exists r, calculate_reward d e bars = Ok r) <->
  (status e = "CLOSED" /\ entry_fill_price e <> None /\ exit_fill_price e <> None /\
   entry_time_utc e <> None /\ exit_time_utc e <> None /\ 0 < risk_unit d).
Proof.
  unfold calculate_reward.
  destruct (String.eqb_spec (status e) "CLOSED") as [E|E]; cbn.
  2:{ split; [intros [r H]; discriminate | intros (H & _); contradiction]. }
  destruct (entry_fill_price e) as [p|]; cbn.
  2:{ split; [intros [r H]; discriminate | intros (_ & H & _); congruence]. }
  destruct (exit_fill_price e) as [x|]; cbn.
  2:{ split; [intros [r H]; discriminate | intros (_ & _ & H & _); congruence]. }
  destruct (exit_time_utc e) as [tx|]; cbn.
  2:{ split; [intros [r H]; discriminate | intros (_ & _ & _ & _ & H & _); congruence]. }
  destruct (entry_time_utc e) as [te|]; cbn.
  2:{ split; [intros [r H]; discriminate | intros (_ & _ & _ & H & _); congruence]. }
  destruct (Qleb (risk_unit d) 0) eqn:Er.
  - apply Qleb_true in Er.
    split; [intros [r H]; discriminate | intros (_ & _ & _ & _ & _ & H); lra].
  - apply Qleb_false in Er.
    destruct (calculate_mfe_mae_returns p (direction d) bars) as [mm Hmm].
    rewrite Hmm. cbn. split.
    + intros _. repeat split; try discriminate; try exact E; lra.
    + intros _. eexists; reflexivity.
Qed.

(** X12: the figures of a computed reward agree with each other: the
    R multiple times the risk unit is the raw PnL; the holding time is
    exit time minus entry time; with a positive quantity the PnL and
    risk in USDT are the quantity times the per-unit figures, so the
    PnL in USDT is the R multiple times the risk in USDT; without a
    positive quantity neither USDT figure is set. *)
Theorem calculate_reward_figures
    (d : TradeDecision) (e : ExecutionState) (bars : list bar) (r : RewardState) :
  calculate_reward d e bars = Ok r ->
  pnl_r r * risk_unit d == pnl_raw r /\
  (forall te tx, entry_time_utc e = Some te -> exit_time_utc e = Some tx ->
     holding_seconds r = (tx - te)%Z) /\
  (forall q, Execution.qty e = Some q -> 0 < q ->
     exists pu ru, pnl_usdt r = Some pu /\ risk_usdt r = Some ru /\
       pu == q * pnl_raw r /\ ru == q * risk_unit d /\ pu == pnl_r r * ru) /\
  ((forall q, Execution.qty e = Some q -> q <= 0) ->
     pnl_usdt r = None /\ risk_usdt r = None) /\
  fees_usdt r = Some (fees_total e) /\ funding_usdt r = Some (funding_paid e).
Proof.
  unfold calculate_reward.
  destruct (String.eqb (status e) "CLOSED"); cbn; [|discriminate].
  destruct (entry_fill_price e) as [p|]; cbn; [|discriminate].
  destruct (exit_fill_price e) as [x|]; cbn; [|discriminate].
  destruct (exit_time_utc e) as [tx|]; cbn; [|discriminate].
  destruct (entry_time_utc e) as [te|]; cbn; [|discriminate].
  destruct (Qleb (risk_unit d) 0) eqn:Er; [discriminate|].
  apply Qleb_false in Er.
  destruct (calculate_mfe_mae_returns p (direction d) bars) as [mm Hmm].
  rewrite Hmm. cbn. intro H. inversion H; subst r; clear H. cbn.
  assert (Hne : ~ risk_unit d == 0) by lra.
  split; [field; exact Hne|].
  split; [intros te' tx' E1 E2; congruence|].
  split.
  - intros q Eq Hq. rewrite Eq.
    assert (Hb : Qltb 0 q = true) by (apply Qltb_true; exact Hq).
    rewrite Hb. do 2 eexists. split; [reflexivity|]. split; [reflexivity|].
    assert (Hq0 : ~ q == 0) by lra.
    repeat split; try reflexivity; field; auto.
  - split; [|split; reflexivity].
    intro Hall. destruct (Execution.qty e) as [q|]; [|split; reflexivity].
    assert (Hb : Qltb 0 q = false).
    { apply Qltb_false. apply Hall. reflexivity. }
    rewrite Hb. split; reflexivity.
Qed.

Lemma calculate_reward_figures_witness :
  exists r,
    calculate_reward (Aggregate.decision Aggregate.trade_opened)
      Aggregate.execution_closing nil = Ok r /\
    pnl_r r * risk_unit (Aggregate.decision Aggregate.trade_opened) == pnl_raw r.
Proof.
  eexists. split; [vm_compute; reflexivity|].
  exact (proj1 (calculate_reward_figures (Aggregate.decision Aggregate.trade_opened)
                  Aggregate.execution_closing nil _ eq_refl)).
Defined.

End RewardFacts.

(** ** Excursions of a SHORT against those of a LONG *)

Section ExcursionMirror.

Import MfeMae Mirror.

Lemma is_max_of_unique (m m' : Q) (xs ys : list Q) :
  is_max_of m xs -> is_max_of m' ys ->
  (forall x, In x xs -> exists y, In y ys /\ x == y) ->
  (forall y, In y ys -> exists x, In x xs /\ x == y) ->
  m == m'.
Proof.
  intros [(x & Hx & Ex) Hub] [(y & Hy & Ey) Hub'] Hxy Hyx.
  destruct (Hxy x Hx) as (y0 & Hy0 & E0). specialize (Hub' y0 Hy0).
  destruct (Hyx y Hy) as (x0 & Hx0 & E1). specialize (Hub x0 Hx0).
  lra.
Qed.

Lemma is_min_of_unique (m m' : Q) (xs ys : list Q) :
  is_min_of m xs -> is_min_of m' ys ->
  (forall x, In x xs -> exists y, In y ys /\ x == y) ->
  (forall y, In y ys -> exists x, In x xs /\ x == y) ->
  m == m'.
Proof.
  intros [(x & Hx & Ex) Hlb] [(y & Hy & Ey) Hlb'] Hxy Hyx.
  destruct (Hxy x Hx) as (y0 & Hy0 & E0). specialize (Hlb' y0 Hy0).
  destruct (Hyx y Hy) as (x0 & Hx0 & E1). specialize (Hlb x0 Hx0).
  lra.
Qed.

Lemma mirror_high (e : Q) (b : bar) : bar_high e (mirror_bar e b) - e == e - bar_low e b.
Proof. unfold bar_high, bar_low, mirror_bar. cbn. destruct (low b); cbn; ring. Qed.

Lemma mirror_low (e : Q) (b : bar) : bar_low e (mirror_bar e b) - e == e - bar_high e b.
Proof. unfold bar_high, bar_low, mirror_bar. cbn. destruct (high b); cbn; ring. Qed.

Lemma in_map_map {A B : Type} (f : A -> Q) (g : B -> A) (l : list B) (x : Q) :
  In x (map f (map g l)) -> exists b, In b l /\ x = f (g b).
Proof.
  rewrite map_map. intro H. apply in_map_iff in H. destruct H as (b & E & Hb).
  exists b. split; [exact Hb | symmetry; exact E].
Qed.

(** X13: the two directions use opposite signs for the adverse
    excursion: on a non-empty window the SHORT figures are those of a
    LONG on the window mirrored about the entry price, with the same
    MFE and the MAE negated; and every direction other than LONG, in
    any letter case, is computed as SHORT. *)
Theorem short_mirrors_long (e : Q) (direction : string) (bars : list bar) :
  bars <> nil -> upper direction <> "LONG" ->
  exists mfe mae mfe' mae',
    calculate_mfe_mae_from_ohlc e direction bars = Ok (mfe, mae) /\
    calculate_mfe_mae_from_ohlc e "LONG" (map (mirror_bar e) bars) = Ok (mfe', mae') /\
    mfe == mfe' /\ mae == - mae'.
Proof.
  intros Hne Hdir.
  set (bars' := map (mirror_bar e) bars).
  assert (Hne' : bars' <> nil) by (apply map_nonnil; exact Hne).
  destruct (py_max_is_max (map (fun l => e - l) (map (bar_low e) bars)))
    as (M & EM & HM); [do 2 apply map_nonnil; exact Hne|].
  destruct (py_min_is_min (map (fun h => e - h) (map (bar_high e) bars)))
    as (m & Em & Hm); [do 2 apply map_nonnil; exact Hne|].
  destruct (py_max_is_max (map (fun h => h - e) (map (bar_high e) bars')))
    as (M' & EM' & HM'); [do 2 apply map_nonnil; exact Hne'|].
  destruct (py_min_is_min (map (fun l => l - e) (map (bar_low e) bars')))
    as (m' & Em' & Hm'); [do 2 apply map_nonnil; exact Hne'|].
  exists M, (- m), M', m'. split; [|split; [|split]].
  - unfold calculate_mfe_mae_from_ohlc. destruct bars as [|b bs]; [congruence|].
    destruct (String.eqb_spec (upper direction) "LONG") as [E|_]; [contradiction|].
    rewrite EM, Em. reflexivity.
  - unfold calculate_mfe_mae_from_ohlc. fold bars'.
    destruct bars' as [|b bs] eqn:Eb; [congruence|].
    change (String.eqb (upper "LONG") "LONG") with true. cbv iota.
    rewrite EM', Em'. reflexivity.
  - apply (is_max_of_unique _ _ _ _ HM HM').
    + intros x Hx. apply in_map_map in Hx. destruct Hx as (b & Hb & ->).
      exists (bar_high e (mirror_bar e b) - e). split.
      * unfold bars'. rewrite !map_map.
        apply (in_map (fun b => bar_high e (mirror_bar e b) - e)). exact Hb.
      * symmetry. apply mirror_high.
    + intros y Hy. apply in_map_map in Hy. destruct Hy as (b' & Hb' & ->).
      unfold bars' in Hb'. apply in_map_iff in Hb'. destruct Hb' as (b & <- & Hb).
      exists (e - bar_low e b). split.
      * rewrite map_map. apply (in_map (fun b => e - bar_low e b)). exact Hb.
      * symmetry. apply mirror_high.
  - assert (Hmm : m == m').
    { apply (is_min_of_unique _ _ _ _ Hm Hm').
      - intros x Hx. apply in_map_map in Hx. destruct Hx as (b & Hb & ->).
        exists (bar_low e (mirror_bar e b) - e). split.
        + unfold bars'. rewrite !map_map.
          apply (in_map (fun b => bar_low e (mirror_bar e b) - e)). exact Hb.
        + symmetry. apply mirror_low.
      - intros y Hy. apply in_map_map in Hy. destruct Hy as (b' & Hb' & ->).
        unfold bars' in Hb'. apply in_map_iff in Hb'. destruct Hb' as (b & <- & Hb).
        exists (e - bar_high e b). split.
        + rewrite map_map. apply (in_map (fun b => e - bar_high e b)). exact Hb.
        + symmetry. apply mirror_low. }
    rewrite Hmm. reflexivity.
Qed.

Lemma short_mirrors_long_witness :
  exists mfe mae mfe' mae',
    calculate_mfe_mae_from_ohlc 100 "short"
      (mkBar (Some 103) (Some 98) :: mkBar None (Some 94) :: nil) = Ok (mfe, mae) /\
    calculate_mfe_mae_from_ohlc 100 "LONG"
      (map (mirror_bar 100) (mkBar (Some 103) (Some 98) :: mkBar None (Some 94) :: nil))
      = Ok (mfe', mae') /\
    mfe == mfe' /\ mae == - mae'.
Proof.
  apply (short_mirrors_long 100 "short"
           (mkBar (Some 103) (Some 98) :: mkBar None (Some 94) :: nil)).
  - discriminate.
  - vm_compute. discriminate.
Defined.

End ExcursionMirror.

(** ** Opening and resolving trades *)

Section TradeFlow.

Import Decision Execution Aggregate Snapshot SnapshotRepo Policies MfeMae Reward.
Import TradeUsecases.
Import RewardEntity(RewardState).

Lemma attach_execution_open_ok (trade : TradeAggregate) (e : ExecutionState) :
  ~ is_closed trade ->
  exists upd, attach_execution trade e = (Ok tt, upd) /\
    (status e = "OPEN" -> ~ is_closed upd) /\
    (status e <> "OPEN" -> is_closed upd) /\
    decision upd = decision trade /\ trade_id upd = trade_id trade /\
    reward_state upd = reward_state trade.
Proof.
  intro Hopen. unfold attach_execution.
  assert (Hb : String.eqb (status (execution_state trade)) "CLOSED" = false)
    by (apply String.eqb_neq; exact Hopen).
  rewrite Hb.
  destruct (String.eqb_spec (status e) "OPEN") as [E|E];
    eexists; (split; [reflexivity|]); unfold is_closed; cbn;
    repeat split; try reflexivity; try tauto.
Qed.

(** X14: [resolve_trade] on a trade that the repository returns ends in
    one of three ways. A trade already CLOSED: "execution already
    closed" is raised, repository, object and bus untouched. An "OPEN"
    update: the object takes the update, stays open and is handed to
    [save_open], nothing is published. Any other update: the object is
    closed and given the exit snapshot; if the reward calculation
    raises, that error is raised with the repository and the bus
    untouched and the object left closed without a reward; otherwise
    the reward is attached, the object handed to [update_closed], and
    "trade.closed" published if that call returns. *)
Theorem resolve_trade_outcome {T : Type} `{TradeRepositoryPort T}
    (repo : T) (h : heap) (bus : option event_log) (tid : string)
    (e : ExecutionState) (bars : list bar) (sid : string) (t : Z)
    (a : ref) (h1 : heap) (trade : TradeAggregate)
    (res : result unit) (repo' : T) (h' : heap) (bus' : option event_log) :
  get_open repo h tid = (Ok (Some a), h1) -> h1 !! a = Some trade ->
  resolve_trade repo h bus tid e bars sid t = (res, repo', h', bus') ->
  (is_closed trade /\ res = Raise (TradeAggregateError "execution already closed") /\
   repo' = repo /\ h' = h1 /\ bus' = bus) \/
  (~ is_closed trade /\ status e = "OPEN" /\
   exists upd, attach_execution trade e = (Ok tt, upd) /\ ~ is_closed upd /\
     h' = <[a := upd]> h1 /\ save_open repo h' a = (res, repo') /\ bus' = bus) \/
  (~ is_closed trade /\ status e <> "OPEN" /\
   exists closed, h' = <[a := closed]> h1 /\ is_closed closed /\
     exit_snapshot_id closed = Some sid /\ exit_snapshot_time_utc closed = Some t /\
     decision closed = decision trade /\ trade_id closed = trade_id trade /\
     ((exists ex,
         calculate_reward (decision trade) (execution_state closed) bars = Raise ex /\
         res = Raise ex /\ repo' = repo /\ bus' = bus /\
         reward_state closed = reward_state trade) \/
      (exists reward,
         calculate_reward (decision trade) (execution_state closed) bars = Ok reward /\
         reward_state closed = Some reward /\
         update_closed repo h' a = (res, repo') /\
         bus' = match res with
                | Ok _ => publish bus "trade.closed" closed
                | Raise _ => bus
                end))).
Proof.
  intros Hget Hlk. unfold resolve_trade. rewrite Hget, Hlk.
  destruct (String.eqb_spec (status (execution_state trade)) "CLOSED") as [Hc|Hc].
  - rewrite (attach_execution_closed trade e Hc). intro Hr. inversion Hr; subst.
    left. repeat split; try reflexivity; try exact Hc.
    apply insert_id. exact Hlk.
  - destruct (attach_execution_open_ok trade e Hc)
      as (upd & Ha & Hopen & Hclosed & Hd & Hid & Hrw).
    rewrite Ha.
    destruct (String.eqb_spec (status e) "OPEN") as [E|E].
    + specialize (Hopen E).
      assert (Hb : String.eqb (status (execution_state upd)) "CLOSED" = false)
        by (apply String.eqb_neq; exact Hopen).
      rewrite Hb. intro Hr. right. left.
      split; [exact Hc|]. split; [exact E|]. exists upd.
      destruct (save_open repo (<[a:=upd]> h1) a) as [[[]|ex] r1] eqn:Es;
        inversion Hr; subst; repeat split; try reflexivity; try exact Hopen; exact Es.
    + specialize (Hclosed E).
      assert (Hb : String.eqb (status (execution_state upd)) "CLOSED" = true)
        by (apply String.eqb_eq; exact Hclosed).
      rewrite Hb. cbn [with_exit_snapshot decision execution_state].
      intro Hr. right. right. split; [exact Hc|]. split; [exact E|].
      destruct (calculate_reward (decision upd) (execution_state upd) bars)
        as [reward|ex] eqn:Ecr.
      * assert (Hb2 : String.eqb
                        (status (execution_state (with_exit_snapshot upd sid t)))
                        "CLOSED" = true) by exact Hb.
        unfold attach_reward in Hr. rewrite Hb2 in Hr. cbn [negb] in Hr.
        set (closed := with_reward (with_exit_snapshot upd sid t) (Some reward)) in *.
        exists closed.
        assert (Hcl : is_closed closed) by exact Hclosed.
        destruct (update_closed repo (<[a:=closed]> h1) a) as [[[]|ex] r1] eqn:Eu;
          inversion Hr; subst; (split; [reflexivity|]); (split; [exact Hcl|]);
          (split; [reflexivity|]); (split; [reflexivity|]); (split; [exact Hd|]);
          (split; [exact Hid|]); right; exists reward; rewrite <- Hd;
          repeat split; try reflexivity; try exact Ecr; exact Eu.
      * inversion Hr; subst. exists (with_exit_snapshot upd sid t).
        split; [reflexivity|]. split; [exact Hclosed|].
        split; [reflexivity|]. split; [reflexivity|]. split; [exact Hd|].
        split; [exact Hid|]. left. exists ex. rewrite <- Hd.
        repeat split; try reflexivity; try exact Ecr. exact Hrw.
Qed.

Lemma resolve_trade_outcome_witness :
  exists res repo' h' bus',
    resolve_trade (mkInMemoryTradeRepo (<["t-1" := 1%positive]> empty) nil)
      (<[1%positive := trade_opened]> empty) None "t-1" execution_closing nil
      "x" 1700000400 = (res, repo', h', bus') /\
    exists closed, h' = <[1%positive := closed]> (<[1%positive := trade_opened]> empty) /\
      is_closed closed.
Proof.
  destruct (resolve_trade (mkInMemoryTradeRepo (<["t-1" := 1%positive]> empty) nil)
              (<[1%positive := trade_opened]> empty) None "t-1" execution_closing nil
              "x" 1700000400) as [[[res repo'] h'] bus'] eqn:E.
  exists res, repo', h', bus'. split; [reflexivity|].
  assert (Hget : get_open (mkInMemoryTradeRepo (<["t-1" := 1%positive]> empty) nil)
                   (<[1%positive := trade_opened]> empty) "t-1"
                 = (Ok (Some 1%positive), <[1%positive := trade_opened]> empty)).
  { cbn. unfold mem_get_open. cbn. rewrite lookup_insert_eq. reflexivity. }
  assert (Hlk : (<[1%positive := trade_opened]> empty : heap) !! 1%positive
                = Some trade_opened) by apply lookup_insert_eq.
  destruct (resolve_trade_outcome
              (mkInMemoryTradeRepo (<["t-1" := 1%positive]> empty) nil)
              (<[1%positive := trade_opened]> empty) None "t-1" execution_closing nil
              "x" 1700000400 1%positive (<[1%positive := trade_opened]> empty)
              trade_opened res repo' h' bus' Hget Hlk E)
    as [(Hc & _)|[(_ & Ho & _)|(_ & _ & closed & Hh & Hcl & _)]].
  - exfalso. revert Hc. unfold is_closed. simpl. discriminate.
  - exfalso. revert Ho. simpl. discriminate.
  - exists closed. split; [exact Hh | exact Hcl].
Defined.

(** X15: [InMemoryTradeRepo] hands out the stored object itself, so a
    resolve that fails leaves its mark: when a closing update is given
    for an open trade and the reward calculation raises on the closed
    state, [resolve_trade] raises that error and leaves the repository
    as it was, but the object it still lists as open is now CLOSED and
    without a reward, and every later [resolve_trade] of that trade id
    raises "execution already closed". *)
Theorem in_memory_failed_resolve_sticks
    (r : InMemoryTradeRepo) (h : heap) (bus : option event_log) (tid : string)
    (a : ref) (trade : TradeAggregate) (e : ExecutionState) (bars : list bar)
    (sid : string) (t : Z) (ex : exn) :
  _open r !! tid = Some a -> h !! a = Some trade ->
  ~ is_closed trade -> status e <> "OPEN" ->
  calculate_reward (decision trade) (execution_state (snd (attach_execution trade e)))
    bars = Raise ex ->
  exists closed,
    resolve_trade r h bus tid e bars sid t = (Raise ex, r, <[a := closed]> h, bus) /\
    is_closed closed /\ reward_state closed = reward_state trade /\
    get_open r (<[a := closed]> h) tid = (Ok (Some a), <[a := closed]> h) /\
    forall bus2 e2 bars2 sid2 t2,
      resolve_trade r (<[a := closed]> h) bus2 tid e2 bars2 sid2 t2 =
        (Raise (TradeAggregateError "execution already closed"), r,
         <[a := closed]> h, bus2).
Proof.
  intros Hopen Hlk Hnc Hst Hcr.
  destruct (attach_execution_open_ok trade e Hnc)
    as (upd & Ha & _ & Hclosed & Hd & _ & Hrw).
  specialize (Hclosed Hst). rewrite Ha in Hcr. cbn [snd] in Hcr.
  assert (Hb : String.eqb (status (execution_state upd)) "CLOSED" = true)
    by (apply String.eqb_eq; exact Hclosed).
  exists (with_exit_snapshot upd sid t).
  split; [|split; [exact Hclosed|split; [exact Hrw|split]]].
  - unfold resolve_trade. cbn [get_open InMemoryTradeRepo_port mem_get_open].
    unfold mem_get_open. rewrite Hopen, Hlk, Ha, Hb.
    cbn [with_exit_snapshot decision execution_state].
    rewrite Hd, Hcr. reflexivity.
  - cbn. unfold mem_get_open. rewrite Hopen. reflexivity.
  - intros bus2 e2 bars2 sid2 t2.
    unfold resolve_trade. cbn [get_open InMemoryTradeRepo_port].
    unfold mem_get_open. rewrite Hopen.
    assert (Hl2 : <[a := with_exit_snapshot upd sid t]> h !! a
                  = Some (with_exit_snapshot upd sid t)) by apply lookup_insert_eq.
    rewrite Hl2.
    rewrite (attach_execution_closed (with_exit_snapshot upd sid t) e2 Hclosed).
    assert (Hi2 : <[a := with_exit_snapshot upd sid t]>
                    (<[a := with_exit_snapshot upd sid t]> h)
                  = <[a := with_exit_snapshot upd sid t]> h) by apply insert_insert_eq.
    rewrite Hi2. reflexivity.
Qed.

Lemma in_memory_failed_resolve_sticks_witness :
  exists closed,
    resolve_trade (mkInMemoryTradeRepo (<["t-1" := 1%positive]> empty) nil)
      (<[1%positive := trade_opened]> empty) None "t-1"
      (mkExecutionState "CLOSED" (Some 1700000101%Z) (Some 100) (Some 1700000401%Z) None
         (Some "TP") 0 0 None None None None None None None None None None None)
      nil "x" 1700000400
    = (Raise TypeError, mkInMemoryTradeRepo (<["t-1" := 1%positive]> empty) nil,
       <[1%positive := closed]> (<[1%positive := trade_opened]> empty), None) /\
    is_closed closed.
Proof.
  destruct (in_memory_failed_resolve_sticks
              (mkInMemoryTradeRepo (<["t-1" := 1%positive]> empty) nil)
              (<[1%positive := trade_opened]> empty) None "t-1" 1%positive trade_opened
              (mkExecutionState "CLOSED" (Some 1700000101%Z) (Some 100)
                 (Some 1700000401%Z) None (Some "TP") 0 0
                 None None None None None None None None None None None)
              nil "x" 1700000400 TypeError)
    as (closed & Hr & Hc & _).
  - apply lookup_insert_eq.
  - apply lookup_insert_eq.
  - unfold is_closed. simpl. discriminate.
  - simpl. discriminate.
  - vm_compute. reflexivity.
  - exists closed. split; [exact Hr | exact Hc].
Defined.

(** X16: [open_trade] stores nothing and publishes nothing when the
    entry snapshot is missing (a [ValueError]) or when reading it or
    the policy raises; when it returns, the trade is a new object, OPEN
    and without reward or exit snapshot, carrying the drawn id, the
    snapshot's id, time and symbol and the given policy info; its
    decision is the override when one is given and the policy's
    decision otherwise; that object was accepted by [save_open] and
    "trade.open" was published. *)
Theorem open_trade_outcome {S T P : Type}
    `{SnapshotRepositoryPort S} `{TradeRepositoryPort T} `{PolicyInterface P}
    (snapshot_repo : S) (trade_repo : T) (policy : P) (h : heap)
    (bus : option event_log) (sid : string) (info : pyval)
    (override : option TradeDecision) (uuid u : Z)
    (res : result ref) (trade_repo' : T) (h' : heap) (bus' : option event_log) :
  open_trade snapshot_repo trade_repo policy h bus sid info override uuid u
    = (res, trade_repo', h', bus') ->
  (get snapshot_repo sid u = Ok None -> res = Raise ValueError) /\
  ((forall snap, get snapshot_repo sid u <> Ok (Some snap)) \/
   (override = None /\
    forall snap d, get snapshot_repo sid u = Ok (Some snap) -> decide policy snap <> Ok d) ->
   (exists ex, res = Raise ex) /\ trade_repo' = trade_repo /\ h' = h /\ bus' = bus) /\
  (forall a, res = Ok a ->
     exists snap ta,
       get snapshot_repo sid u = Ok (Some snap) /\
       h !! a = None /\ h' = <[a := ta]> h /\
       trade_id ta = uuid_str uuid /\
       Aggregate.symbol ta = Snapshot.symbol snap /\
       entry_snapshot_id ta = Snapshot.snapshot_id snap /\
       entry_snapshot_time_utc ta = Snapshot.snapshot_time_utc snap /\
       policy_info ta = info /\
       status (execution_state ta) = "OPEN" /\
       reward_state ta = None /\ exit_snapshot_id ta = None /\
       match override with
       | Some d => decision ta = d
       | None => decide policy snap = Ok (decision ta)
       end /\
       save_open trade_repo h' a = (Ok tt, trade_repo') /\
       bus' = publish bus "trade.open" ta).
Proof.
  unfold open_trade.
  destruct (get snapshot_repo sid u) as [[snap|]|ex] eqn:Eg.
  2:{ intro Hr; inversion Hr; subst. split; [reflexivity|]. split.
      - intros _. repeat split; try reflexivity. eexists; reflexivity.
      - intros a Ha; discriminate. }
  2:{ intro Hr; inversion Hr; subst. split; [discriminate|]. split.
      - intros _. repeat split; try reflexivity. eexists; reflexivity.
      - intros a Ha; discriminate. }
  destruct (match override with Some d => Ok d | None => decide policy snap end)
    as [d|ex] eqn:Ed.
  2:{ intro Hr; inversion Hr; subst. split; [discriminate|]. split.
      - intros _. repeat split; try reflexivity. eexists; reflexivity.
      - intros a Ha; discriminate. }
  unfold alloc.
  set (ta := create_open (uuid_str uuid) (Snapshot.symbol snap)
               (Snapshot.snapshot_id snap) (Snapshot.snapshot_time_utc snap) d info).
  set (a0 := fresh (dom h)).
  assert (Hfresh : h !! a0 = None) by (apply not_elem_of_dom; apply is_fresh).
  destruct (save_open trade_repo (<[a0:=ta]> h) a0) as [[[]|ex] r1] eqn:Es;
    intro Hr; inversion Hr; subst.
  - split; [discriminate|]. split.
    + intros [Hno|[Hov Hno]].
      * exfalso. exact (Hno snap eq_refl).
      * exfalso. subst override. exact (Hno snap d eq_refl Ed).
    + intros a Ha. inversion Ha; subst a. exists snap, ta.
      split; [reflexivity|]. split; [exact Hfresh|].
      repeat split; try reflexivity; try exact Es.
      destruct override as [d0|]; [inversion Ed; reflexivity | exact Ed].
  - split; [discriminate|]. split.
    + intros [Hno|[Hov Hno]].
      * exfalso. exact (Hno snap eq_refl).
      * exfalso. subst override. exact (Hno snap d eq_refl Ed).
    + intros a Ha; discriminate.
Qed.

Lemma open_trade_outcome_witness :
  fst (fst (fst (open_trade (mkRepo empty) new_InMemoryTradeRepo (mkRulePolicy 2 1)
                   empty None "absent" (PDict nil) None 7 8))) = Raise ValueError.
Proof.
  destruct (open_trade (mkRepo empty) new_InMemoryTradeRepo (mkRulePolicy 2 1)
              empty None "absent" (PDict nil) None 7 8) as [[[res r'] h'] b'] eqn:E.
  cbn [fst].
  apply (proj1 (open_trade_outcome (mkRepo empty) new_InMemoryTradeRepo (mkRulePolicy 2 1)
                  empty None "absent" (PDict nil) None 7 8 res r' h' b' E)).
  cbn. unfold fs_get. cbn. rewrite lookup_empty. reflexivity.
Defined.

(** X17: with [InMemoryTradeRepo], a trade opened on a stored snapshot
    and then resolved with a closing update that carries entry and
    exit fills and times, under a decision of positive risk unit, goes
    through: both calls return, the trade leaves [_open] and its object
    is appended to [_closed]; that object is CLOSED, keeps the decision
    and the entry snapshot, carries the exit snapshot and the reward
    that [calculate_reward] gives for it, whose holding time is exit
    time minus entry time; "trade.open" and then "trade.closed" are
    published. *)
Theorem in_memory_open_then_resolve {S P : Type}
    `{SnapshotRepositoryPort S} `{PolicyInterface P}
    (snapshot_repo : S) (policy : P) (r : InMemoryTradeRepo) (h : heap)
    (bus : option event_log) (sid : string) (info : pyval)
    (override : option TradeDecision) (uuid u : Z)
    (snap : SnapshotV3) (d : TradeDecision)
    (e : ExecutionState) (bars : list bar) (sid2 : string) (t2 : Z)
    (te tx : Z) (pe px : Q) :
  get snapshot_repo sid u = Ok (Some snap) ->
  match override with Some d' => d' = d | None => decide policy snap = Ok d end ->
  0 < risk_unit d ->
  status e <> "OPEN" ->
  entry_time_utc e = Some te -> entry_fill_price e = Some pe ->
  exit_time_utc e = Some tx -> exit_fill_price e = Some px ->
  exists a opened closed reward,
    h !! a = None /\
    open_trade snapshot_repo r policy h bus sid info override uuid u =
      (Ok a, mkInMemoryTradeRepo (<[uuid_str uuid := a]> (_open r)) (_closed r),
       <[a := opened]> h, publish bus "trade.open" opened) /\
    resolve_trade (mkInMemoryTradeRepo (<[uuid_str uuid := a]> (_open r)) (_closed r))
      (<[a := opened]> h) (publish bus "trade.open" opened) (uuid_str uuid) e bars
      sid2 t2 =
      (Ok tt,
       mkInMemoryTradeRepo (delete (uuid_str uuid) (_open r)) (_closed r ++ a :: nil)%list,
       <[a := closed]> h,
       publish (publish bus "trade.open" opened) "trade.closed" closed) /\
    is_closed closed /\ trade_id closed = uuid_str uuid /\ decision closed = d /\
    entry_snapshot_id closed = Snapshot.snapshot_id snap /\
    exit_snapshot_id closed = Some sid2 /\ exit_snapshot_time_utc closed = Some t2 /\
    reward_state closed = Some reward /\
    calculate_reward d (execution_state closed) bars = Ok reward /\
    RewardEntity.holding_seconds reward = (tx - te)%Z.
Proof.
  intros Hget Hdec Hrisk Hst Hte Hpe Htx Hpx.
  set (opened := create_open (uuid_str uuid) (Snapshot.symbol snap)
                   (Snapshot.snapshot_id snap) (Snapshot.snapshot_time_utc snap) d info).
  set (a := fresh (dom h)).
  assert (Hfresh : h !! a = None) by (apply not_elem_of_dom; apply is_fresh).
  assert (Hnc : ~ is_closed opened) by (unfold is_closed; cbn; discriminate).
  destruct (attach_execution_open_ok opened e Hnc)
    as (upd & Ha & _ & Hclosed & Hd & Hid & Hrw).
  specialize (Hclosed Hst).
  assert (Hb : String.eqb (status (execution_state upd)) "CLOSED" = true)
    by (apply String.eqb_eq; exact Hclosed).
  assert (Hes : execution_state upd =
                mkExecutionState "CLOSED" (Some te) (Some pe) (Some tx) (Some px)
                  (exit_type e) (fees_total e) (funding_paid e)
                  (exchange (execution_state upd)) (account_type (execution_state upd))
                  (margin_mode (execution_state upd))
                  (position_mode (execution_state upd))
                  (leverage (execution_state upd)) (Execution.qty (execution_state upd))
                  (notional (execution_state upd))
                  (entry_order_id (execution_state upd))
                  (tp_order_id (execution_state upd))
                  (sl_order_id (execution_state upd))
                  (client_order_id (execution_state upd))).
  { revert Ha. unfold attach_execution. cbn [opened create_open execution_state].
    change (String.eqb (status (new_ExecutionState "OPEN")) "CLOSED") with false.
    cbv iota.
    destruct (String.eqb_spec (status e) "OPEN") as [E|_]; [contradiction|].
    intro Ha. inversion Ha. cbn. rewrite Hte, Hpe, Htx, Hpx. reflexivity. }
  destruct (calculate_mfe_mae_returns pe (direction d) bars) as [mm Hmm].
  assert (Hq : Qleb (risk_unit d) 0 = false) by (apply Qleb_false; exact Hrisk).
  assert (Hcr : exists reward,
             calculate_reward d (execution_state upd) bars = Ok reward /\
             RewardEntity.holding_seconds reward = (tx - te)%Z).
  { rewrite Hes. unfold calculate_reward. cbn. rewrite Hq, Hmm. cbn.
    eexists. split; reflexivity. }
  destruct Hcr as (reward & Hcr & Hhold).
  set (closed := with_reward (with_exit_snapshot upd sid2 t2) (Some reward)).
  exists a, opened, closed, reward.
  split; [exact Hfresh|]. split; [|split].
  - unfold open_trade. rewrite Hget.
    assert (Hdd : match override with Some d0 => Ok d0 | None => decide policy snap end
                  = Ok d).
    { destruct override as [d'|]; [rewrite Hdec; reflexivity | exact Hdec]. }
    rewrite Hdd. unfold alloc. fold a. fold opened.
    cbn [save_open InMemoryTradeRepo_port]. unfold mem_save_open.
    assert (Hl : <[a := opened]> h !! a = Some opened) by apply lookup_insert_eq.
    rewrite Hl. reflexivity.
  - unfold resolve_trade. cbn [get_open InMemoryTradeRepo_port]. unfold mem_get_open.
    cbn [_open].
    assert (Hl0 : <[uuid_str uuid := a]> (_open r) !! uuid_str uuid = Some a)
      by apply lookup_insert_eq.
    rewrite Hl0.
    assert (Hl : <[a := opened]> h !! a = Some opened) by apply lookup_insert_eq.
    rewrite Hl, Ha, Hb.
    cbn [with_exit_snapshot decision execution_state].
    rewrite Hd. change (decision opened) with d. rewrite Hcr.
    assert (Hb2 : String.eqb
                    (status (execution_state (with_exit_snapshot upd sid2 t2)))
                    "CLOSED" = true) by exact Hb.
    unfold attach_reward. rewrite Hb2. cbn [negb].
    fold closed. cbn [update_closed InMemoryTradeRepo_port]. unfold mem_update_closed.
    assert (Hi : <[a := closed]> (<[a := opened]> h) = <[a := closed]> h)
      by apply insert_insert_eq.
    rewrite Hi.
    assert (Hl2 : <[a := closed]> h !! a = Some closed) by apply lookup_insert_eq.
    rewrite Hl2. cbn [_open _closed].
    assert (Htid : trade_id closed = uuid_str uuid) by exact Hid.
    rewrite Htid.
    assert (Hdel : delete (uuid_str uuid) (<[uuid_str uuid := a]> (_open r))
                   = delete (uuid_str uuid) (_open r)) by apply delete_insert_eq.
    rewrite Hdel. reflexivity.
  - split; [exact Hclosed|]. split; [exact Hid|]. split; [exact Hd|].
    assert (Hsnap : entry_snapshot_id upd = Snapshot.snapshot_id snap).
    { revert Ha. unfold attach_execution.
      destruct (String.eqb (status (execution_state opened)) "CLOSED");
        [intro Ha; inversion Ha; reflexivity|].
      destruct (String.eqb (status e) "OPEN"); intro Ha; inversion Ha; reflexivity. }
    split; [exact Hsnap|]. split; [reflexivity|]. split; [reflexivity|].
    split; [reflexivity|]. split; [exact Hcr | exact Hhold].
Qed.

Lemma in_memory_open_then_resolve_witness :
  exists a opened closed reward,
    resolve_trade (mkInMemoryTradeRepo (<[uuid_str 7 := a]> empty) nil)
      (<[a := opened]> empty) None (uuid_str 7) execution_closing nil "x" 1700000400 =
      (Ok tt, mkInMemoryTradeRepo (delete (uuid_str 7) empty) (a :: nil),
       <[a := closed]> empty, None) /\
    reward_state closed = Some reward /\
    RewardEntity.holding_seconds reward = 300%Z.
Proof.
  destruct (in_memory_open_then_resolve
              (mkRepo (<[Snapshot.snapshot_id Observer.snapshot_bar_first
                         := to_dict Observer.snapshot_bar_first]> empty))
              (mkRulePolicy 2 1) new_InMemoryTradeRepo empty None
              (Snapshot.snapshot_id Observer.snapshot_bar_first) (PDict nil)
              (Some RiskEngineV1.decision_100) 7 5 Observer.snapshot_bar_first
              RiskEngineV1.decision_100 execution_closing nil "x" 1700000400
              1700000101 1700000401 100 102)
    as (a & opened & closed & reward & _ & _ & Hres & _ & _ & _ & _ & _ & _ & Hrw & _ & Hh).
  - cbn [get SnapshotRepoFSJson_port]. unfold fs_get. cbn [files].
    rewrite lookup_insert_eq. vm_compute. reflexivity.
  - reflexivity.
  - reflexivity.
  - simpl. discriminate.
  - reflexivity.
  - reflexivity.
  - reflexivity.
  - reflexivity.
  - exists a, opened, closed, reward. split; [exact Hres|]. split; [exact Hrw | exact Hh].
Defined.

End TradeFlow.

(** ** Validated inputs of the reward, scorer failures, rule decisions *)

Section ValidatedFlow.

Import Decision Execution ExecutionValidate MfeMae Reward Snapshot ModelScorerV1 Policies.

(** X18: the two validators together make the reward calculation safe:
    for a decision accepted by [__post_init__] and a CLOSED execution
    state accepted by [validate], [calculate_reward] returns, whatever
    the OHLC window; its own checks of the status and of the risk unit
    cannot fire. *)
Theorem reward_of_validated_inputs
    (d : TradeDecision) (e : ExecutionState) (bars : list bar) :
  post_init d = Ok d -> validate e = Ok tt -> status e = "CLOSED" ->
  exists r, calculate_reward d e bars = Ok r /\
            RewardEntity.pnl_r r * risk_unit d == RewardEntity.pnl_raw r.
Proof.
  intros Hd Hv Hs.
  assert (Hru : 0 < risk_unit d).
  { revert Hd. unfold post_init.
    destruct (negb ((action_type d =? 0)%Z || (action_type d =? 1)%Z)); [discriminate|].
    destruct (negb (String.eqb (upper (direction d))
                      (if (action_type d =? 1)%Z then "LONG" else "SHORT")));
      [discriminate|].
    destruct (Qltb 0 (risk_unit d)) eqn:E; [|discriminate].
    intros _. apply Qltb_true. exact E. }
  revert Hv. unfold validate, calculate_reward. rewrite Hs. cbn.
  destruct (entry_time_utc e) as [te|]; cbn; [|discriminate].
  destruct (entry_fill_price e) as [pe|]; cbn; [|discriminate].
  destruct (exit_time_utc e) as [tx|]; cbn; [|discriminate].
  destruct (exit_fill_price e) as [px|]; cbn; [|discriminate].
  intros _.
  assert (Hq : Qleb (risk_unit d) 0 = false) by (apply Qleb_false; exact Hru).
  rewrite Hq.
  destruct (calculate_mfe_mae_returns pe (direction d) bars) as [mm Hmm].
  rewrite Hmm. cbn. eexists. split; [reflexivity|]. cbn.
  field. lra.
Qed.

Lemma reward_of_validated_inputs_witness :
  exists r, calculate_reward RiskEngineV1.decision_100 Aggregate.execution_closing nil = Ok r /\
            RewardEntity.pnl_r r * risk_unit RiskEngineV1.decision_100
            == RewardEntity.pnl_raw r.
Proof.
  apply (reward_of_validated_inputs RiskEngineV1.decision_100
           Aggregate.execution_closing nil); reflexivity.
Defined.

(** X19: [score] lets an exception out in one case only: a model is
    loaded as an xgboost or lightgbm booster and its [predict] raises,
    and then it is that exception. In every other case it returns, and
    whenever it returns the score lies in [0, 1] and the reported model
    type is "none" without a model and the loaded type with one. *)
Theorem score_raises_iff (self : ModelScorerV1) (features : list Q) :
  (forall ex,
     score self features = Raise ex <->
     exists m, _model self = Some m /\
       (_loaded_type self = "xgb_booster" \/ _loaded_type self = "lgb_booster") /\
       predict m features = Raise ex) /\
  (forall out,
     score self features = Ok out ->
     0 <= score_value out /\ score_value out <= 1 /\
     out_model_type out =
       match _model self with None => "none" | Some _ => _loaded_type self end).
Proof.
  unfold score. destruct (_model self) as [m|].
  2:{ split.
      - intro ex. split; [discriminate | intros (m & Hm & _); discriminate].
      - intros out H. inversion H; subst. cbn. repeat split; discriminate. }
  destruct (String.eqb_spec (_loaded_type self) "xgb_booster") as [E1|E1].
  { split.
    - intro ex. destruct (predict m features) as [pred|ex'] eqn:Ep; cbn [bind]; split.
      + discriminate.
      + intros (m' & Hm & _ & Hp). inversion Hm; subst m'. congruence.
      + intro H. inversion H; subst. exists m. repeat split; auto.
      + intros (m' & Hm & _ & Hp). inversion Hm; subst m'. congruence.
    - intros out. destruct (predict m features); cbn [bind]; intro H; inversion H; subst.
      cbn. destruct (clamp01_bounds (first_or_half a)). repeat split; auto. }
  destruct (String.eqb_spec (_loaded_type self) "lgb_booster") as [E2|E2].
  { split.
    - intro ex. destruct (predict m features) as [pred|ex'] eqn:Ep; cbn [bind]; split.
      + discriminate.
      + intros (m' & Hm & _ & Hp). inversion Hm; subst m'. congruence.
      + intro H. inversion H; subst. exists m. repeat split; auto.
      + intros (m' & Hm & _ & Hp). inversion Hm; subst m'. congruence.
    - intros out. destruct (predict m features); cbn [bind]; intro H; inversion H; subst.
      cbn. destruct (clamp01_bounds (first_or_half a)). repeat split; auto. }
  destruct (String.eqb_spec (_loaded_type self) "joblib") as [E3|E3].
  { split.
    - intro ex. split.
      + destruct (let* proba := predict_proba m features in proba_class1 proba);
          [discriminate|].
        destruct (let* pred := predict m features in first pred); discriminate.
      + intros (_ & _ & [H|H] & _); congruence.
    - intros out.
      destruct (let* proba := predict_proba m features in proba_class1 proba).
      + intro H; inversion H; subst. cbn. destruct (clamp01_bounds a).
        repeat split; auto.
      + destruct (let* pred := predict m features in first pred);
          intro H; inversion H; subst; cbn.
        * destruct (Qleb (1 # 2) a); repeat split; auto; discriminate.
        * repeat split; auto; discriminate. }
  split.
  - intro ex. split; [discriminate | intros (_ & _ & [H|H] & _); congruence].
  - intros out H. inversion H; subst. cbn. repeat split; discriminate.
Qed.


Lemma fabs_of_nonneg (x : Q) : 0 <= x -> fabs x == x.
Proof. intro H. unfold fabs. destruct (Qltb x 0) eqn:E.
  - apply Qltb_true in E. lra.
  - reflexivity.
Qed.

Lemma fabs_opp (x : Q) : fabs (- x) == fabs x.
Proof.
  unfold fabs. destruct (Qltb (- x) 0) eqn:E1; destruct (Qltb x 0) eqn:E2;
    try apply Qltb_true in E1; try apply Qltb_false in E1;
    try apply Qltb_true in E2; try apply Qltb_false in E2; lra.
Qed.




End ValidatedFlow.

(** ** Snapshot builder: closed candles only, and admission of its output *)

Section BuilderFacts.

Import PyVal SnapshotBuilderV1 BuilderDict.





Lemma build_id_nonempty
    (exchange_id : option string) (cfg : SnapshotBuilderConfig)
    (now_utc now_ms : Z) (ltf_ohlcv : list candle) (u : Z) (sym : string) (b : built) :
  build exchange_id cfg now_utc now_ms ltf_ohlcv u sym = Ok b ->
  String.eqb (snapshot_id b) "" = false /\ observer_time_utc b = now_utc.
Proof.
  unfold build. destruct (_tf_to_sec (ltf_tf cfg)) as [tf|]; cbn [bind]; [|discriminate].
  destruct (List.last (map Some (closed_candles now_ms (tf * 1000) ltf_ohlcv)) None);
    intro H; inversion H; subst; cbn; (split; [|reflexivity]); apply String.eqb_neq.
  - intro E. pose proof (hexdigest_length
      (snap_key (match exchange_id with Some e => e | None => "unknown" end) sym
         (ltf_tf cfg) (Z.quot (ts c + tf * 1000) 1000))) as Hl.
    rewrite E in Hl. discriminate.
  - apply uuid_str_nonempty.
Qed.

(** X22: what [build] returns goes through [SnapshotV3.from_dict]
    exactly when its snapshot time is not after the observer's clock
    reading; the admitted snapshot then has the built id, times and
    symbol and the three blocks unchanged, and otherwise the error is
    "snapshot_time_utc must be <= observer_time_utc": a snapshot built
    on a candle that closes after the clock reading is refused at
    admission. *)
Theorem built_snapshot_admission
    (exchange_id : option string) (cfg : SnapshotBuilderConfig)
    (now_utc now_ms : Z) (ltf_ohlcv : list candle) (u : Z) (sym : string) (b : built)
    (ltf htf context : list (string * pyval)) (u' : Z) :
  build exchange_id cfg now_utc now_ms ltf_ohlcv u sym = Ok b ->
  Snapshot.from_dict (build_dict b ltf htf context) u' =
    if (snapshot_time_utc b <=? now_utc)%Z then
      Ok (Snapshot.mkSnapshotV3 "v3" (snapshot_id b) (snapshot_time_utc b) (symbol b)
            now_utc (PDict ltf) (PDict htf) (PDict context))
    else Raise (SnapshotValidationError "snapshot_time_utc must be <= observer_time_utc").
Proof.
  intro Hb. destruct (build_id_nonempty _ _ _ _ _ _ _ _ Hb) as [Hid Hobs].
  unfold Snapshot.from_dict, build_dict.
  change (Snapshot.keys_overlap _) with false. cbv iota.
  cbn [dict_get dict_lookup String.eqb Ascii.eqb Bool.eqb is_str negb truthy
       dict_get_default as_number py_int bind py_str].
  rewrite Hid. cbn [negb]. rewrite Hobs.
  destruct (snapshot_time_utc b <=? now_utc)%Z eqn:E.
  - apply Z.leb_le in E.
    assert (Hq : Qltb (inject_Z now_utc) (inject_Z (snapshot_time_utc b)) = false).
    { apply Qltb_false. rewrite <- Zle_Qle. exact E. }
    rewrite Hq. reflexivity.
  - apply Z.leb_gt in E.
    assert (Hq : Qltb (inject_Z now_utc) (inject_Z (snapshot_time_utc b)) = true).
    { apply Qltb_true. rewrite <- Zlt_Qlt. exact E. }
    rewrite Hq. reflexivity.
Qed.

Lemma built_snapshot_admission_witness :
  exists b s,
    build (Some "binance") default_config 1700000101 1700000101000 bar_1700000100 0
      "BTCUSDT" = Ok b /\
    Snapshot.from_dict (build_dict b nil nil nil) 9 = Ok s /\
    Snapshot.snapshot_id s = "0b88e89760b7f3b015e15a0f412649351820db58".
Proof.
  destruct (build (Some "binance") default_config 1700000101 1700000101000
              bar_1700000100 0 "BTCUSDT") as [b|] eqn:E; [|vm_compute in E; discriminate].
  pose proof (built_snapshot_admission (Some "binance") default_config 1700000101
                1700000101000 bar_1700000100 0 "BTCUSDT" b nil nil nil 9 E) as H.
  vm_compute in E. inversion E; subst b. clear E.
  eexists. eexists. split; [reflexivity|]. split; [exact H | reflexivity].
Defined.

End BuilderFacts.

(** ** Universe selection: size, provenance and correlation *)

Section UniverseFacts.

Import UniverseSelectorV3 SelectionGuarantee.

Variable rets : Type.
Variable _get_rets : string -> option rets.
Variable _corr : rets -> rets -> option Q.
Variable cfg : UniverseConfigV3.

Lemma corr_scan_true (rs : rets) (selected : list row) (cw cw' : list (string * Q)) :
  corr_scan rets _get_rets _corr cfg rs selected cw = (true, cw') ->
  low_corr rets _get_rets _corr cfg rs selected.
Proof.
  revert cw. induction selected as [|s sel IH]; intros cw H.
  - intros s2 [].
  - cbn [corr_scan] in H. intros s2 [<-|Hin] Hne rs2 c Hg Hc.
    + destruct (String.eqb_spec (symbol s) "") as [E|_]; [contradiction|].
      rewrite Hg, Hc in H.
      destruct (Qltb (max_corr cfg) (fabs c)) eqn:Eq; [discriminate|].
      apply Qltb_false in Eq. exact Eq.
    + destruct (String.eqb (symbol s) ""); [exact (IH _ H s2 Hin Hne rs2 c Hg Hc)|].
      destruct (_get_rets (symbol s)) as [rsx|];
        [|exact (IH _ H s2 Hin Hne rs2 c Hg Hc)].
      destruct (_corr rs rsx) as [cx|]; [|exact (IH _ H s2 Hin Hne rs2 c Hg Hc)].
      destruct (Qltb (max_corr cfg) (fabs cx)); [discriminate|].
      exact (IH _ H s2 Hin Hne rs2 c Hg Hc).
Qed.

Lemma greedy_added (rows selected : list row) (excluded : list exclusion) :
  exists added,
    fst (greedy rets _get_rets _corr cfg rows selected excluded) = (selected ++ added)%list /\
    well_added rets _get_rets _corr cfg rows selected added.
Proof.
  revert selected excluded. induction rows as [|r rest IH]; intros selected excluded.
  - exists nil. split; [cbn; rewrite app_nil_r; reflexivity|].
    intros l1 x l2 E. destruct l1; discriminate.
  - cbn [greedy].
    assert (Hweak : forall sel exc,
              (exists added,
                 fst (greedy rets _get_rets _corr cfg rest sel exc) = (sel ++ added)%list /\
                 well_added rets _get_rets _corr cfg rest sel added) ->
              exists added,
                fst (greedy rets _get_rets _corr cfg rest sel exc) = (sel ++ added)%list /\
                well_added rets _get_rets _corr cfg (r :: rest) sel added).
    { intros sel exc (added & E & Hw). exists added. split; [exact E|].
      intros l1 x l2 El. destruct (Hw l1 x l2 El) as (Hin & Hrest).
      split; [right; exact Hin | exact Hrest]. }
    destruct (target_symbols cfg <=? Z.of_nat (length selected))%Z.
    { exists nil. split; [cbn; rewrite app_nil_r; reflexivity|].
      intros l1 x l2 E. destruct l1; discriminate. }
    destruct (has_symbol (symbol r) selected) eqn:Ehas; [apply Hweak, IH|].
    destruct (_get_rets (symbol r)) as [rs|] eqn:Eg; [|apply Hweak, IH].
    destruct (corr_scan rets _get_rets _corr cfg rs selected nil) as [[|] cw] eqn:Ec;
      [|apply Hweak, IH].
    destruct (IH (selected ++ r :: nil)%list excluded) as (added & E & Hw).
    exists (r :: added). split.
    { rewrite E. rewrite <- app_assoc. reflexivity. }
    intros l1 x l2 El. destruct l1 as [|y l1].
    + cbn in El. inversion El; subst x l2. rewrite app_nil_r.
      split; [left; reflexivity|]. split; [exact Ehas|].
      exists rs. split; [exact Eg | exact (corr_scan_true _ _ _ _ Ec)].
    + cbn in El. inversion El; subst y.
      destruct (Hw l1 x l2 H1) as (Hin & Hnew & rsx & Hgx & Hlow).
      rewrite <- app_assoc in Hnew, Hlow. cbn in Hnew, Hlow.
      split; [right; exact Hin|]. split; [exact Hnew|].
      exists rsx. split; [exact Hgx | exact Hlow].
Qed.

Lemma insert_desc_In (r x : row) (l : list row) :
  In x (insert_desc r l) -> x = r \/ In x l.
Proof.
  induction l as [|a l IH]; cbn.
  - intros [<-|[]]. left; reflexivity.
  - destruct (Qleb (score a) (score r)).
    + intros [<-|H]; [left; reflexivity | right; exact H].
    + intros [<-|H]; [right; left; reflexivity|].
      destruct (IH H) as [->|Hin]; [left; reflexivity | right; right; exact Hin].
Qed.

Lemma sort_desc_In (x : row) (l : list row) : In x (sort_desc l) -> In x l.
Proof.
  induction l as [|a l IH]; cbn; [tauto|].
  intro H. destruct (insert_desc_In _ _ _ H) as [->|Hin];
    [left; reflexivity | right; apply IH; exact Hin].
Qed.

Lemma keep_sticky_In (pool : list string) (scored selected : list row) (x : row) :
  In x (keep_sticky pool scored selected) -> In x selected \/ In x scored.
Proof.
  revert selected. induction pool as [|s pool IH]; intro selected; cbn; [tauto|].
  destruct (find (fun r => String.eqb (symbol r) s) scored) as [r|] eqn:Ef.
  - intro H. destruct (IH _ H) as [Hin|Hin]; [|right; exact Hin].
    apply in_app_or in Hin. destruct Hin as [Hin|[<-|[]]]; [left; exact Hin|].
    right. apply find_some in Ef. exact (proj1 Ef).
  - apply IH.
Qed.

(** X23: what the correlation-aware selection guarantees. The selected
    list is the sticky rows followed by the rows the greedy loop added;
    every selected row is one of the scored candidates; and every
    added row has a symbol that no row before it has, has returns, and
    its correlation with each earlier row of non-empty symbol whose
    returns and correlation are both available is at most [max_corr]
    in absolute value. The sticky rows themselves are not checked. *)
Theorem select_low_correlation
    (prev_selected : list string) (scored : list row) (excluded : list exclusion) :
  exists sticky added,
    fst (select rets _get_rets _corr cfg prev_selected scored excluded)
      = (sticky ++ added)%list /\
    (Z.of_nat (length sticky) <= Z.max 0 (sticky_keep cfg))%Z /\
    (sticky_enabled cfg = false \/ prev_selected = nil -> sticky = nil) /\
    (forall r, In r (sticky ++ added) -> In r scored) /\
    forall l1 r l2, added = (l1 ++ r :: l2)%list ->
      has_symbol (symbol r) (sticky ++ l1) = false /\
      exists rs, _get_rets (symbol r) = Some rs /\
        forall s2, In s2 (sticky ++ l1) -> symbol s2 <> "" ->
        forall rs2 c, _get_rets (symbol s2) = Some rs2 -> _corr rs rs2 = Some c ->
        fabs c <= max_corr cfg.
Proof.
  unfold select.
  set (prev := map normalise _). set (ranked := sort_desc scored).
  set (sticky := keep_sticky (sticky_pool cfg prev ranked) ranked nil).
  destruct (greedy_added ranked sticky excluded) as (added & E & Hw).
  exists sticky, added. split; [exact E|]. split; [|split; [|split]].
  - pose proof (keep_sticky_length (sticky_pool cfg prev ranked) ranked nil) as Hk.
    pose proof (sticky_pool_length cfg prev ranked) as Hp.
    fold sticky in Hk. cbn [length] in Hk. lia.
  - intros [Hoff|Hnil]; unfold sticky, sticky_pool.
    + rewrite Hoff. reflexivity.
    + unfold prev. rewrite Hnil. cbn. rewrite andb_false_r. reflexivity.
  - intros r Hin. apply sort_desc_In. fold ranked.
    apply in_app_or in Hin. destruct Hin as [Hin|Hin].
    + destruct (keep_sticky_In _ _ _ _ Hin) as [[]|H]. exact H.
    + apply in_split in Hin. destruct Hin as (l1 & l2 & El).
      exact (proj1 (Hw l1 r l2 El)).
  - intros l1 r l2 El. destruct (Hw l1 r l2 El) as (_ & Hnew & rs & Hg & Hlow).
    split; [exact Hnew|]. exists rs. split; [exact Hg | exact Hlow].
Qed.

(** X24: the size the selection does guarantee: the report selects at
    most [target_symbols] symbols or, when more rows are kept as
    sticky, at most [sticky_keep]; with stickiness off or no previous
    selection, at most [target_symbols] (none when that is not
    positive). *)
Theorem select_size_bound
    (prev_selected : list string) (scored : list row) (excluded : list exclusion) :
  (Z.of_nat (length (fst (select rets _get_rets _corr cfg prev_selected scored excluded)))
   <= Z.max (target_symbols cfg) (Z.max 0 (sticky_keep cfg)))%Z /\
  (sticky_enabled cfg = false \/ prev_selected = nil ->
   (Z.of_nat (length (fst (select rets _get_rets _corr cfg prev_selected scored excluded)))
    <= Z.max 0 (target_symbols cfg))%Z).
Proof.
  split; [apply select_length|].
  intros Hoff. unfold select.
  set (prev := map normalise _). set (ranked := sort_desc scored).
  assert (Hs : keep_sticky (sticky_pool cfg prev ranked) ranked nil = nil).
  { unfold sticky_pool. destruct Hoff as [Hoff|Hnil].
    - rewrite Hoff. reflexivity.
    - unfold prev. rewrite Hnil. cbn. rewrite andb_false_r. reflexivity. }
  rewrite Hs.
  pose proof (greedy_length rets _get_rets _corr cfg ranked nil excluded) as Hg.
  cbn [length] in Hg. lia.
Qed.

End UniverseFacts.

(** ** Risk guard *)

Section RiskGuardFacts.

Import Execution Aggregate RiskGuardV1.

Lemma day_start_in_range (now_utc : Z) :
  (-62135596800 <= now_utc <= 253402300799)%Z ->
  day_start now_utc = Ok (now_utc - now_utc mod 86400)%Z.
Proof.
  intro H. unfold day_start.
  assert (E : ((now_utc <? -62135596800) || (253402300799 <? now_utc))%Z = false).
  { apply orb_false_iff. split; apply Z.ltb_ge; lia. }
  rewrite E. reflexivity.
Qed.

Lemma day_start_ok (now_utc ds : Z) :
  day_start now_utc = Ok ds ->
  ds = (now_utc - now_utc mod 86400)%Z /\ (ds <= now_utc < ds + 86400)%Z.
Proof.
  unfold day_start.
  destruct ((now_utc <? -62135596800) || (253402300799 <? now_utc))%Z; [discriminate|].
  intro H. inversion H. split; [reflexivity|].
  pose proof (Z.mod_pos_bound now_utc 86400 ltac:(lia)). lia.
Qed.

(** X25: a block for consecutive losses does not expire: if [check]
    answers "max_consecutive_losses" for a list of closed trades, then
    for the same list it answers not ok at every other time and for
    every equity (times within the years of [datetime]); only a new
    closed trade or another configuration lifts it. *)
Theorem streak_block_does_not_expire
    (cfg : RiskGuardConfig) (closed_trades : list TradeAggregate)
    (now_utc : Z) (equity_usdt : Q) (res : RiskGuardResult) :
  check cfg closed_trades now_utc equity_usdt = Ok res ->
  reason res = "max_consecutive_losses" ->
  forall (now' : Z) (equity' : Q),
    (-62135596800 <= now' <= 253402300799)%Z ->
    exists res', check cfg closed_trades now' equity' = Ok res' /\ ok res' = false.
Proof.
  intros Hc Hr now' equity' Hrange.
  assert (Hs : exists s,
             (if (0 <? max_consecutive_losses cfg)%Z
              then loss_streak (max_consecutive_losses cfg) 0
                     (rev (sort_by_exit (List.filter has_exit closed_trades)))
              else None) = Some s).
  { revert Hc. unfold check.
    destruct (day_start now_utc) as [ds|]; cbn [bind]; [|discriminate].
    cbv zeta.
    repeat match goal with
           | |- (if ?c then _ else _) = _ -> _ =>
               destruct c; [intro H; inversion H; subst res; discriminate|]
           end.
    match goal with
    | |- match ?x with _ => _ end = _ -> _ => destruct x as [s|]
    end.
    - intros _. exists s. reflexivity.
    - intro H; inversion H; subst res; discriminate. }
  destruct Hs as [s Hs].
  unfold check. rewrite (day_start_in_range now' Hrange). cbn [bind]. cbv zeta.
  repeat match goal with
         | |- exists _, (if ?c then _ else _) = _ /\ _ =>
             destruct c; [eexists; split; reflexivity|]
         end.
  rewrite Hs. eexists; split; reflexivity.
Qed.

Lemma streak_block_does_not_expire_witness :
  exists res', check guard_default three_losses 1800000000 1000 = Ok res' /\
               ok res' = false.
Proof.
  apply (streak_block_does_not_expire guard_default three_losses 1700001300 100
           (mkRiskGuardResult false "max_consecutive_losses"
              (("loss_streak", PyVal.PInt 3) ::
               ("max_consecutive_losses", PyVal.PInt 3) :: nil))).
  - vm_compute. reflexivity.
  - reflexivity.
  - lia.
Defined.

Lemma insert_by_exit_In (t x : TradeAggregate) (l : list TradeAggregate) :
  In x (insert_by_exit t l) <-> x = t \/ In x l.
Proof.
  induction l as [|a l IH]; cbn.
  - split; [intros [<-|[]]; left; reflexivity | intros [->|[]]; left; reflexivity].
  - destruct (exit_key t <=? exit_key a)%Z; cbn.
    + split; [intros [<-|H]; [left; reflexivity | right; exact H]
             | intros [->|H]; [left; reflexivity | right; exact H]].
    + rewrite IH. split.
      * intros [<-|[->|H]]; [right; left | left | right; right]; auto.
      * intros [->|[<-|H]]; [right; left | left | right; right]; auto.
Qed.

Lemma sort_by_exit_In (x : TradeAggregate) (l : list TradeAggregate) :
  In x (sort_by_exit l) <-> In x l.
Proof.
  induction l as [|a l IH]; cbn; [tauto|].
  rewrite insert_by_exit_In, IH. split; intros [H|H]; auto.
Qed.

Lemma insert_by_exit_filter_length (p : TradeAggregate -> bool) (t : TradeAggregate)
    (l : list TradeAggregate) :
  length (List.filter p (insert_by_exit t l)) = length (List.filter p (t :: l)).
Proof.
  induction l as [|a l IH]; [reflexivity|]. cbn [insert_by_exit].
  destruct (exit_key t <=? exit_key a)%Z; [reflexivity|].
  cbn [List.filter] in *. destruct (p a); destruct (p t); cbn [length] in *; lia.
Qed.

Lemma sort_by_exit_filter_length (p : TradeAggregate -> bool) (l : list TradeAggregate) :
  length (List.filter p (sort_by_exit l)) = length (List.filter p l).
Proof.
  induction l as [|a l IH]; [reflexivity|]. cbn [sort_by_exit fold_right].
  rewrite insert_by_exit_filter_length. cbn [List.filter].
  fold (sort_by_exit l). destruct (p a); cbn [length]; lia.
Qed.

Lemma insert_by_exit_filter_pnl (p : TradeAggregate -> bool) (t : TradeAggregate)
    (l : list TradeAggregate) :
  pnl_of (List.filter p (insert_by_exit t l)) == pnl_of (List.filter p (t :: l)).
Proof.
  induction l as [|a l IH]; [reflexivity|]. cbn [insert_by_exit].
  destruct (exit_key t <=? exit_key a)%Z; [reflexivity|].
  cbn [List.filter] in *. destruct (p a); destruct (p t);
    cbn [pnl_of fold_right] in *; fold (pnl_of (List.filter p l)) in *;
    fold (pnl_of (List.filter p (insert_by_exit t l))) in *; lra.
Qed.

Lemma sort_by_exit_filter_pnl (p : TradeAggregate -> bool) (l : list TradeAggregate) :
  pnl_of (List.filter p (sort_by_exit l)) == pnl_of (List.filter p l).
Proof.
  induction l as [|a l IH]; [reflexivity|]. cbn [sort_by_exit fold_right].
  rewrite insert_by_exit_filter_pnl. fold (sort_by_exit l). cbn [List.filter].
  destruct (p a); cbn [pnl_of fold_right];
    fold (pnl_of (List.filter p l)); fold (pnl_of (List.filter p (sort_by_exit l)));
    lra.
Qed.

Lemma sum_pnl_acc (l : list TradeAggregate) (acc : Q) :
  fold_left (fun a t => a + _trade_pnl_usdt t) l acc == acc + pnl_of l.
Proof.
  revert acc. induction l as [|t l IH]; intro acc; cbn.
  - ring.
  - rewrite IH. fold (pnl_of l). ring.
Qed.

Lemma sum_pnl_pnl_of (l : list TradeAggregate) : sum_pnl l == pnl_of l.
Proof. unfold sum_pnl. rewrite sum_pnl_acc. ring. Qed.

Lemma filter_filter_and {A : Type} (p q : A -> bool) (l : list A) :
  List.filter p (List.filter q l) = List.filter (fun x => (q x && p x)%bool) l.
Proof.
  induction l as [|a l IH]; [reflexivity|]. cbn.
  destruct (q a); cbn; [destruct (p a)|]; rewrite IH; reflexivity.
Qed.

(** The trades of today as [check] computes them against the list as given. *)
Lemma today_length (ds : Z) (l : list TradeAggregate) :
  length (List.filter (fun t => (ds <=? exit_key t)%Z)
            (sort_by_exit (List.filter has_exit l)))
  = length (List.filter (exited_today ds) l).
Proof.
  rewrite sort_by_exit_filter_length, filter_filter_and. reflexivity.
Qed.

Lemma today_pnl (ds : Z) (l : list TradeAggregate) :
  sum_pnl (List.filter (fun t => (ds <=? exit_key t)%Z)
             (sort_by_exit (List.filter has_exit l)))
  == pnl_of (List.filter (exited_today ds) l).
Proof.
  rewrite sum_pnl_pnl_of, sort_by_exit_filter_pnl, filter_filter_and. reflexivity.
Qed.

Lemma last_cons2 {A : Type} (a b : A) (l : list A) :
  List.last (map Some (a :: b :: l)) None = List.last (map Some (b :: l)) None.
Proof. reflexivity. Qed.

Lemma insert_by_exit_last_max (t : TradeAggregate) (l : list TradeAggregate) :
  (forall x, List.last (map Some l) None = Some x ->
             forall y, In y l -> (exit_key y <= exit_key x)%Z) ->
  forall x, List.last (map Some (insert_by_exit t l)) None = Some x ->
            forall y, In y (insert_by_exit t l) -> (exit_key y <= exit_key x)%Z.
Proof.
  induction l as [|a l IH]; intros Hmax x Hx y Hy.
  - cbn in Hx, Hy. inversion Hx; subst x. destruct Hy as [<-|[]]. lia.
  - cbn [insert_by_exit] in Hx, Hy.
    destruct (exit_key t <=? exit_key a)%Z eqn:E.
    + apply Z.leb_le in E. rewrite last_cons2 in Hx.
      pose proof (Hmax x Hx) as Hm.
      destruct Hy as [<-|Hy]; [|exact (Hm y Hy)].
      specialize (Hm a (or_introl eq_refl)). lia.
    + apply Z.leb_gt in E.
      assert (Hrest : forall x0, List.last (map Some l) None = Some x0 ->
                        forall y0, In y0 l -> (exit_key y0 <= exit_key x0)%Z).
      { intros x0 Hx0 y0 Hy0. destruct l as [|b l]; [destruct Hy0|].
        apply (Hmax x0); [rewrite last_cons2; exact Hx0 | right; exact Hy0]. }
      assert (Hins : exists z r, insert_by_exit t l = z :: r).
      { destruct l as [|b l]; cbn; [eexists _, _; reflexivity|].
        destruct (exit_key t <=? exit_key b)%Z; eexists _, _; reflexivity. }
      destruct Hins as (z & r & Ez). rewrite Ez in Hx. rewrite last_cons2 in Hx.
      rewrite <- Ez in Hx.
      pose proof (IH Hrest x Hx) as Hm.
      destruct Hy as [<-|Hy]; [|exact (Hm y Hy)].
      assert (Ht : In t (insert_by_exit t l)) by (apply insert_by_exit_In; left; reflexivity).
      specialize (Hm t Ht). lia.
Qed.

Lemma sort_by_exit_last_max (l : list TradeAggregate) (x : TradeAggregate) :
  List.last (map Some (sort_by_exit l)) None = Some x ->
  forall y, In y l -> (exit_key y <= exit_key x)%Z.
Proof.
  intros Hx y Hy. apply (proj2 (sort_by_exit_In y l)) in Hy. revert x Hx y Hy.
  induction l as [|a l IH]; [intros x Hx; discriminate|].
  cbn [sort_by_exit fold_right]. fold (sort_by_exit l).
  apply insert_by_exit_last_max. exact IH.
Qed.

Lemma loss_streak_none (m s : Z) (l : list TradeAggregate) :
  loss_streak m s l = None -> (s < m)%Z ->
  forall losses rest, l = (losses ++ rest)%list ->
    (s + Z.of_nat (length losses) = m)%Z ->
    exists t, In t losses /\ 0 <= _trade_pnl_usdt t.
Proof.
  revert s. induction l as [|t l IH]; intros s H Hlt losses rest El Hlen.
  - destruct losses; [cbn in Hlen; lia | discriminate].
  - destruct losses as [|x losses]; [cbn in Hlen; lia|].
    cbn in El. inversion El; subst x l. cbn [loss_streak] in H.
    destruct (Qltb (_trade_pnl_usdt t) 0) eqn:Eq.
    + destruct (m <=? s + 1)%Z eqn:Em; [discriminate|]. apply Z.leb_gt in Em.
      destruct (IH (s + 1)%Z H Em losses rest eq_refl) as (t' & Hin & Hp).
      { cbn [length] in Hlen. lia. }
      exists t'. split; [right; exact Hin | exact Hp].
    + apply Qltb_false in Eq. exists t. split; [left; reflexivity | exact Eq].
Qed.

(** X26: what an "ok" of [check] means, read off the list of closed
    trades as it is given (floats as exact rationals): every trade
    with an exit time left at least [cooldown_sec] ago when a cooldown
    is set; fewer trades than [max_trades_per_day] exited since
    midnight UTC; the summed result of those trades is above minus the
    daily loss cap in USDT, and above minus the cap in percent of a
    positive equity, where these are set and positive; and with a
    positive [max_consecutive_losses], the that many latest exits are
    not all losses. *)
Theorem check_ok_sound
    (cfg : RiskGuardConfig) (closed_trades : list TradeAggregate)
    (now_utc : Z) (equity_usdt : Q) (res : RiskGuardResult) :
  check cfg closed_trades now_utc equity_usdt = Ok res -> ok res = true ->
  exists ds,
    day_start now_utc = Ok ds /\ reason res = "ok" /\
    (cooldown_sec cfg <> 0%Z ->
     forall t, In t closed_trades -> has_exit t = true ->
               (cooldown_sec cfg <= now_utc - exit_key t)%Z) /\
    (forall m, max_trades_per_day cfg = Some m ->
       (Z.of_nat (length (List.filter (exited_today ds) closed_trades)) < m)%Z) /\
    (forall m, max_daily_loss_usdt cfg = Some m -> 0 < m ->
       - m < pnl_of (List.filter (exited_today ds) closed_trades)) /\
    (forall p, max_daily_loss_pct cfg = Some p -> 0 < p -> 0 < equity_usdt ->
       - (equity_usdt * (p / 100))
       < pnl_of (List.filter (exited_today ds) closed_trades)) /\
    ((0 < max_consecutive_losses cfg)%Z ->
     forall losses rest,
       rev (sort_by_exit (List.filter has_exit closed_trades)) = (losses ++ rest)%list ->
       Z.of_nat (length losses) = max_consecutive_losses cfg ->
       exists t, In t losses /\ 0 <= _trade_pnl_usdt t).
Proof.
  unfold check.
  destruct (day_start now_utc) as [ds|] eqn:Eds; cbn [bind]; [|discriminate].
  cbv zeta.
  set (sorted := sort_by_exit (List.filter has_exit closed_trades)).
  destruct (negb (cooldown_sec cfg =? 0)%Z && negb (is_nil sorted) &&
            negb (match List.last (map Some sorted) None with
                  | Some t => exit_key t | None => 0%Z end =? 0)%Z &&
            (now_utc - match List.last (map Some sorted) None with
                       | Some t => exit_key t | None => 0%Z end <? cooldown_sec cfg)%Z)%bool
    eqn:Ecool; [intros H Hok; inversion H; subst res; discriminate|].
  destruct (match max_trades_per_day cfg with
            | Some m => (m <=? _)%Z | None => false end) eqn:Emax;
    [intros H Hok; inversion H; subst res; discriminate|].
  destruct (match max_daily_loss_usdt cfg with
            | Some m => _ | None => false end) eqn:Eloss;
    [intros H Hok; inversion H; subst res; discriminate|].
  destruct (match max_daily_loss_pct cfg with
            | Some p => _ | None => false end) eqn:Epct;
    [intros H Hok; inversion H; subst res; discriminate|].
  destruct (if (0 <? max_consecutive_losses cfg)%Z then _ else None) as [s|] eqn:Estreak;
    [intros H Hok; inversion H; subst res; discriminate|].
  intros H _. inversion H; subst res; clear H. cbn [reason].
  exists ds. split; [reflexivity|]. split; [reflexivity|].
  split; [|split; [|split; [|split]]].
  - intros Hcd t Hin Hex.
    assert (Hts : In t sorted).
    { unfold sorted. apply (proj2 (sort_by_exit_In t _)). apply filter_In.
      split; assumption. }
    destruct (last_of_nonempty sorted) as (x & Hx & Hxin).
    { intro E. rewrite E in Hts. destruct Hts. }
    rewrite Hx in Ecool.
    assert (Hxe : has_exit x = true).
    { unfold sorted in Hxin. apply (proj1 (sort_by_exit_In x _)) in Hxin.
      apply filter_In in Hxin. exact (proj2 Hxin). }
    assert (Hx0 : exit_key x <> 0%Z).
    { unfold has_exit in Hxe. unfold exit_key.
      destruct (exit_time_utc (execution_state x)) as [z|]; [|discriminate].
      apply negb_true_iff, Z.eqb_neq in Hxe. exact Hxe. }
    assert (Hle : (exit_key t <= exit_key x)%Z).
    { apply (sort_by_exit_last_max _ x Hx). apply filter_In. split; assumption. }
    assert (E1 : negb (cooldown_sec cfg =? 0)%Z = true)
      by (apply negb_true_iff, Z.eqb_neq; exact Hcd).
    assert (E2 : negb (is_nil sorted) = true)
      by (destruct sorted; [destruct Hts | reflexivity]).
    assert (E3 : negb (exit_key x =? 0)%Z = true)
      by (apply negb_true_iff, Z.eqb_neq; exact Hx0).
    rewrite E1, E2, E3 in Ecool. cbn [andb] in Ecool.
    apply Z.ltb_ge in Ecool. lia.
  - intros m Hm. rewrite Hm in Emax. apply Z.leb_gt in Emax.
    unfold sorted in Emax. rewrite today_length in Emax. exact Emax.
  - intros m Hm Hpos. rewrite Hm in Eloss.
    assert (Eb : Qltb 0 m = true) by (apply Qltb_true; exact Hpos).
    rewrite Eb in Eloss. cbn [andb] in Eloss. apply Qleb_false in Eloss.
    unfold sorted in Eloss. rewrite today_pnl in Eloss.
    rewrite (fabs_of_nonneg m) in Eloss by lra. exact Eloss.
  - intros p Hp Hpos Heq. rewrite Hp in Epct.
    assert (Eb : Qltb 0 p = true) by (apply Qltb_true; exact Hpos).
    assert (Ee : Qltb 0 equity_usdt = true) by (apply Qltb_true; exact Heq).
    rewrite Eb, Ee in Epct. cbn [andb] in Epct. apply Qleb_false in Epct.
    unfold sorted in Epct. rewrite today_pnl in Epct.
    assert (Hcap : 0 <= equity_usdt * (p / 100)).
    { apply Qmult_le_0_compat; [lra|]. apply Qle_shift_div_l; lra. }
    rewrite (fabs_of_nonneg _ Hcap) in Epct. exact Epct.
  - intros Hpos losses rest El Hlen.
    assert (Eb : (0 <? max_consecutive_losses cfg)%Z = true)
      by (apply Z.ltb_lt; exact Hpos).
    rewrite Eb in Estreak.
    apply (loss_streak_none _ 0 _ Estreak Hpos losses rest El). lia.
Qed.

Lemma check_ok_sound_witness :
  exists ds,
    day_start 1700001300 = Ok ds /\
    (forall m, max_trades_per_day guard_default = Some m ->
       (Z.of_nat (length (List.filter (exited_today ds)
                            (closed_with 1700000000 1 :: nil))) < m)%Z).
Proof.
  destruct (check_ok_sound guard_default (closed_with 1700000000 1 :: nil) 1700001300 100
              (mkRiskGuardResult true "ok"
                 (("pnl_today_usdt", PyVal.PFloat 1) ::
                  ("trades_today", PyVal.PInt 1) :: nil)))
    as (ds & Hds & _ & _ & Hmax & _).
  - vm_compute. reflexivity.
  - reflexivity.
  - exists ds. split; [exact Hds | exact Hmax].
Defined.

End RiskGuardFacts.

(** ** Runtime trader: the confidence of a proposed decision *)

Section RuntimeDecision.

Import Decision Snapshot ModelScorerV1 Policies RuntimeTrader.

Lemma model_score_never_read {P : Type} (h : HybridPolicyV1 P) (snap : SnapshotV3) :
  match (let* feats := mapper_map h (to_dict snap) in
         let* out := score (scorer h) feats in
         float_of_score_output out) with
  | Ok s => Some s
  | Raise _ => None
  end = None.
Proof.
  destruct (mapper_map h (to_dict snap)) as [feats|]; cbn [bind]; [|reflexivity].
  destruct (score (scorer h) feats); reflexivity.
Qed.

(** X27: [_hybrid_conf_components] never reports a model score. For a
    hybrid policy it returns [(rule_conf, None, rule_conf)], whatever
    the mapper and the scorer do: the score it asks for is converted
    with [float] from a [ScoreOutput] object, which raises inside the
    [try]. [rule_conf] is the rule decision's confidence, 1.0 when
    that is null and 0.0 when the rule policy raises. For a policy
    without the hybrid attributes it returns three [None]. *)
Theorem hybrid_conf_components_outcome {P : Type} `{PolicyInterface P}
    (policy : runtime_policy P) (snap : SnapshotV3) :
  match policy with
  | Plain _ => _hybrid_conf_components policy snap = (None, None, None)
  | Hybrid h =>
      exists rc, _hybrid_conf_components policy snap = (Some rc, None, Some rc) /\
        rc = match decide (rule_policy h) snap with
             | Ok rd => match confidence rd with Some c => c | None => 1 end
             | Raise _ => 0
             end
  end.
Proof.
  destruct policy as [h|p]; [|reflexivity].
  eexists. unfold _hybrid_conf_components.
  rewrite (model_score_never_read h snap). split; reflexivity.
Qed.

(** X28: the decision step of a cycle with a hybrid policy, in the
    modes "mul" (the default) and "rule": when the rule policy returns
    a valid decision, the step returns the hybrid decision only if its
    confidence, the clamped model score, equals the rule decision's
    confidence (1.0 when null); otherwise rebuilding the decision
    raises [TypeError], since [TradeDecision] is called without
    [decision_time_utc]. *)
Theorem decision_step_hybrid {P : Type} `{PolicyInterface P}
    (h : HybridPolicyV1 P) (conf_mode : string) (snap : SnapshotV3)
    (base : TradeDecision) :
  decide (rule_policy h) snap = Ok base -> post_init base = Ok base ->
  conf_mode = "mul" \/ conf_mode = "rule" ->
  exists d c,
    hybrid_decide h snap = Ok d /\ confidence d = Some c /\
    c = max2 0 (min2 1 (raw_confidence h snap base)) /\
    decision_step (Hybrid h) conf_mode snap =
      if Qeq_bool c (match confidence base with Some x => x | None => 1 end)
      then Ok (Some d) else Raise TypeError.
Proof.
  intros Hrule Hvalid Hmode.
  set (c := max2 0 (min2 1 (raw_confidence h snap base))).
  destruct (clamp01_bounds (raw_confidence h snap base)) as [H0 H1].
  unfold clamp01 in H0, H1. fold c in H0, H1.
  pose proof (post_init_with_confidence base c Hvalid H0 H1) as Hd. cbv zeta in Hd.
  set (d := mkTradeDecision (action_type base) (direction base) (entry_price base)
              (sl_price base) (tp_price base) (rr base) (risk_unit base) (Some c)
              (decision_time_utc base)) in *.
  assert (Hhy : hybrid_decide h snap = Ok d).
  { unfold hybrid_decide. rewrite Hrule. cbn [bind]. exact Hd. }
  exists d, c. split; [exact Hhy|]. split; [reflexivity|]. split; [reflexivity|].
  unfold decision_step. cbn [policy_decide]. rewrite Hhy.
  unfold _hybrid_conf_components. rewrite (model_score_never_read h snap).
  rewrite Hrule. unfold rebuild_decision, chosen_conf.
  destruct Hmode as [-> | ->]; cbn [String.eqb Ascii.eqb Bool.eqb is_some andb];
    cbn [confidence d conf_differs];
    destruct (Qeq_bool c (match confidence base with Some x => x | None => 1 end));
    reflexivity.
Qed.

Lemma decision_step_hybrid_witness :
  decision_step (Hybrid hybrid_scoring_07) "mul" snapshot_uptrend = Raise TypeError.
Proof.
  destruct (decision_step_hybrid hybrid_scoring_07 "mul" snapshot_uptrend
              (mkTradeDecision 1 "LONG" 30000 (30000 - max2 ((1 # 1000) * 1 * 30000)
                                                            (1 # 100000000))
                 (30000 + 2 * max2 ((1 # 1000) * 1 * 30000) (1 # 100000000)) 2
                 (fabs (30000 - (30000 - max2 ((1 # 1000) * 1 * 30000)
                                            (1 # 100000000))))
                 (Some 1) 1700000100))
    as (d & c & _ & _ & Hc & Hstep).
  - vm_compute. reflexivity.
  - vm_compute. reflexivity.
  - left. reflexivity.
  - rewrite Hstep. subst c. vm_compute. reflexivity.
Defined.

End RuntimeDecision.

(** ** Risk-aware policy *)

Section RiskAwareFacts.

Import PyVal Decision Snapshot Policies RiskAwarePolicy.




End RiskAwareFacts.

(** ** Snapshot builder: the average true range *)

Section AtrFacts.

Import SnapshotBuilderV1 BuilderAtr.









End AtrFacts.
